(** * AI test-case generator with Jira integration: model of [main.py]

    The program is a Streamlit script: form input, two outbound services
    (the Jira tracker and the OpenAI chat-completion endpoint), one string
    template and a session-scoped dictionary.  The development embeds

    - the Python string operations the script relies on,
    - [get_ticket_details] and [generate_test_cases],
    - the four button handlers that write [st.session_state.generated_test_cases],

    in a state monad with exceptions, the two services being oracles over an
    abstract world. *)

From Stdlib Require Import String Ascii List Arith Lia Bool DecimalString.
From stdpp Require Import gmap strings.
Import ListNotations.

Local Open Scope string_scope.
Local Open Scope list_scope.

#[local] Arguments String.append !s1 s2 : simpl nomatch.

(** ** Python [str]

    A Python string is a sequence of code points.  The model keeps the code
    points below 256 (one [ascii] each); on that fragment [str.lower],
    [str.strip], [str.split], [str.join] and the [in] operator are the
    functions below. *)
Module PyStr.

Definition nl : string := String (ascii_of_nat 10) EmptyString.

(** [c.lower()] for one code point: A-Z and the Latin-1 capitals
    U+00C0..U+00DE (the multiplication sign U+00D7 excepted) move up by 32. *)
Definition lower_char (c : ascii) : ascii :=
  let n := nat_of_ascii c in
  if (((65 <=? n) && (n <=? 90)) || ((192 <=? n) && (n <=? 222) && negb (n =? 215)))%nat
  then ascii_of_nat (n + 32) else c.

(** [s.lower()] *)
Fixpoint lower (s : string) : string :=
  match s with
  | EmptyString => EmptyString
  | String c s' => String (lower_char c) (lower s')
  end.

(** [s.startswith(p)] *)
Fixpoint starts_with (p s : string) : bool :=
  match p, s with
  | EmptyString, _ => true
  | String _ _, EmptyString => false
  | String a p', String b s' => Ascii.eqb a b && starts_with p' s'
  end.

(** [p in s] *)
Fixpoint contains (p s : string) : bool :=
  starts_with p s ||
  match s with
  | EmptyString => false
  | String _ s' => contains p s'
  end.

(** [c.isspace()] for a code point below 256. *)
Definition is_space (c : ascii) : bool :=
  let n := nat_of_ascii c in
  (((9 <=? n) && (n <=? 13)) || ((28 <=? n) && (n <=? 32)) || (n =? 133) || (n =? 160))%nat.

(** [s.lstrip()] *)
Fixpoint lstrip (s : string) : string :=
  match s with
  | EmptyString => EmptyString
  | String c s' => if is_space c then lstrip s' else s
  end.

(** [s.rstrip()] *)
Fixpoint rstrip (s : string) : string :=
  match s with
  | EmptyString => EmptyString
  | String c s' =>
      match rstrip s' with
      | EmptyString => if is_space c then EmptyString else String c EmptyString
      | r => String c r
      end
  end.

(** [s.strip()] *)
Definition strip (s : string) : string := rstrip (lstrip s).

(** Every character of [s] is white space. *)
Fixpoint all_space (s : string) : bool :=
  match s with
  | EmptyString => true
  | String c s' => is_space c && all_space s'
  end.

Definition first_char (s : string) : option ascii :=
  match s with
  | EmptyString => None
  | String c _ => Some c
  end.

Fixpoint last_char (s : string) : option ascii :=
  match s with
  | EmptyString => None
  | String c s' => match s' with EmptyString => Some c | _ => last_char s' end
  end.

(** No white space at either end. *)
Definition trimmed (s : string) : Prop :=
  (forall c, first_char s = Some c -> is_space c = false) /\
  (forall c, last_char s = Some c -> is_space c = false).

(** [s.split(sep)] for a one-character separator: never the empty list. *)
Fixpoint split (sep : ascii) (s : string) : list string :=
  match s with
  | EmptyString => [EmptyString]
  | String c s' =>
      if Ascii.eqb c sep then EmptyString :: split sep s'
      else match split sep s' with
           | [] => [String c EmptyString]
           | p :: ps => String c p :: ps
           end
  end.

(** [sep.join(l)] *)
Fixpoint join (sep : string) (l : list string) : string :=
  match l with
  | [] => EmptyString
  | [x] => x
  | x :: l' => x +:+ sep +:+ join sep l'
  end.

(** Concatenation of the pieces of an f-string. *)
Fixpoint fstring (pieces : list string) : string :=
  match pieces with
  | [] => EmptyString
  | p :: ps => p +:+ fstring ps
  end.

(** [str(n)] for a non-negative integer. *)
Definition str_of_nat (n : nat) : string := NilZero.string_of_uint (Nat.to_uint n).

(** [s] occurs in [t]. *)
Definition substring_of (s t : string) : Prop :=
  exists pre post, t = pre +:+ s +:+ post.

(** Python truthiness of a string. *)
Definition truthy (s : string) : bool :=
  match s with EmptyString => false | _ => true end.

End PyStr.

Import PyStr.

(** ** Values of the script *)

(** [str(e)] of a raised exception. *)
Definition exn := string.

(** A call returns or raises. *)
Inductive outcome (A : Type) : Type :=
| Ret (a : A)
| Raise (e : exn).
Arguments Ret {A} a.
Arguments Raise {A} e.

Definition obind {A B} (o : outcome A) (k : A -> outcome B) : outcome B :=
  match o with
  | Ret a => k a
  | Raise e => Raise e
  end.

Notation "'try!' x := o 'in' k" := (obind o (fun x => k))
  (at level 10, x name, o at level 100, k at level 200).

(** An attribute of [issue.fields]: not there at all ([hasattr] is false),
    there with value [None], or there with a value. *)
Inductive attr (A : Type) : Type :=
| Missing
| Null
| Val (a : A).
Arguments Missing {A}.
Arguments Null {A}.
Arguments Val {A} a.

(** [hasattr(issue.fields, name)] *)
Definition hasattr {A} (a : attr A) : bool :=
  match a with Missing => false | _ => true end.

(** The value of a custom field: [None] (also what [getattr] gives for a
    field that is not there), a string, a number or a list of strings. *)
Inductive custom_value : Type :=
| CfNone
| CfStr (s : string)
| CfNum (n : nat)
| CfList (l : list string).

(** [issue.fields] of the tracker client.  [summary], [created] and
    [updated] are there or not; [status], [issuetype] and [priority] carry
    a [name]; [components] is a list of named components. *)
Record Fields : Type := {
  f_summary : option string;
  f_description : attr string;
  f_status : attr string;
  f_issuetype : attr string;
  f_priority : attr string;
  f_components : attr (list string);
  f_created : option string;
  f_updated : option string;
  f_custom : string -> custom_value
}.

(** A raw ticket record, [jira.issue(issue_key)]. *)
Record Issue : Type := {
  i_key : option string;
  i_fields : Fields
}.

(** The dictionary [ticket_details].  [get_ticket_details] fills all ten
    keys; the dictionaries typed in by hand have no ['status'], ['created']
    and ['updated']. *)
Record ticket_details : Type := {
  key : string;
  summary : string;
  description : string;
  status : option string;
  issue_type : string;
  priority : string;
  components : list string;
  created : option string;
  updated : option string;
  acceptance_criteria : string
}.

(** The sidebar widgets. *)
Record sidebar : Type := {
  openai_api_key : string;
  ai_model : string;
  jira_url : string;
  jira_email : string;
  jira_api_token : string;
  jira_project : string
}.

(** [JIRA(server=..., basic_auth=(..., ...))]: the client object. *)
Record JIRA : Type := {
  server : string;
  basic_auth : string * string
}.

(** What Streamlit is asked to show. [progress] holds numerator and
    denominator of the fraction handed to the progress bar. *)
Inductive ui_event : Type :=
| st_error (msg : string)
| st_success (msg : string)
| st_subheader (msg : string)
| st_write (msg : string)
| st_expander (msg : string)
| st_markdown (msg : string)
| status_text (msg : string)
| progress (num den : nat).

(** ** A scripted world

    One concrete pair of services, used to run the handlers: the tracker
    answers from a table, the completion endpoint replays a list of
    answers, one per call. *)
Module Script.

Record World : Type := {
  tickets : list (string * outcome Issue);
  replies : list (outcome (option string))
}.

Fixpoint find_ticket (k : string) (l : list (string * outcome Issue)) : outcome Issue :=
  match l with
  | [] => Raise "Issue Does Not Exist"
  | (k', r) :: l' => if String.eqb k k' then r else find_ticket k l'
  end.

Definition JIRA_new (_ : JIRA) (w : World) : outcome unit * World := (Ret tt, w).

Definition jira_issue (_ : JIRA) (k : string) (w : World) : outcome Issue * World :=
  (find_ticket k (tickets w), w).

Definition OpenAI_new (_ : string) (w : World) : outcome unit * World := (Ret tt, w).

Definition chat_completions_create (_ _ _ _ : string) (w : World)
  : outcome (option string) * World :=
  match replies w with
  | [] => (Raise "no more replies", w)
  | r :: rs => (r, {| tickets := tickets w; replies := rs |})
  end.

Definition no_custom : string -> custom_value := fun _ => CfNone.

(** A ticket with every field filled in. *)
Definition full_fields : Fields := {|
  f_summary := Some "Add login";
  f_description := Val "User logs in with email";
  f_status := Val "To Do";
  f_issuetype := Val "Story";
  f_priority := Val "High";
  f_components := Val ["Auth"];
  f_created := Some "2024-01-01T10:00:00.000+0000";
  f_updated := Some "2024-01-02T10:00:00.000+0000";
  f_custom := no_custom
|}.

Definition full_issue (k : string) : Issue := {| i_key := Some k; i_fields := full_fields |}.

Definition config : sidebar := {|
  openai_api_key := "sk-test";
  ai_model := "gpt-3.5-turbo";
  jira_url := "https://example.atlassian.net";
  jira_email := "qa@example.com";
  jira_api_token := "token";
  jira_project := "PROJ"
|}.

(** The ticket of the end-to-end scenario. *)
Definition login_ticket : ticket_details := {|
  key := "PROJ-1"; summary := "Add login"; description := "User logs in with email";
  status := None; issue_type := "Story"; priority := "High"; components := ["Auth"];
  created := None; updated := None;
  acceptance_criteria := "User can log in with valid credentials"
|}.

(** Custom fields of which only the third probed one mentions acceptance. *)
Definition third_custom (name : string) : custom_value :=
  if String.eqb name "customfield_10000" then CfStr "Sprint 12"
  else if String.eqb name "customfield_10001" then CfNum 5
  else if String.eqb name "customfield_10002" then CfStr "ACCEPTANCE: user can log in"
  else CfNone.

Definition third_fields : Fields := {|
  f_summary := Some "Add login";
  f_description := Val "User logs in with email";
  f_status := Val "To Do";
  f_issuetype := Val "Story";
  f_priority := Val "High";
  f_components := Val ["Auth"];
  f_created := Some "2024-01-01T10:00:00.000+0000";
  f_updated := Some "2024-01-02T10:00:00.000+0000";
  f_custom := third_custom
|}.

(** A ticket without priority and components, its description None. *)
Definition sparse_issue : Issue := {|
  i_key := Some "PROJ-2";
  i_fields := {|
    f_summary := Some "Tidy up";
    f_description := Null;
    f_status := Val "Open";
    f_issuetype := Val "Task";
    f_priority := Missing;
    f_components := Missing;
    f_created := Some "2024-01-01T10:00:00.000+0000";
    f_updated := Some "2024-01-02T10:00:00.000+0000";
    f_custom := no_custom
  |}
|}.

(** A ticket with its key, and no status attribute. *)
Definition no_status_issue : Issue := {|
  i_key := Some "PROJ-7";
  i_fields := {|
    f_summary := Some "Add login";
    f_description := Val "User logs in with email";
    f_status := Missing;
    f_issuetype := Val "Story";
    f_priority := Val "High";
    f_components := Val ["Auth"];
    f_created := Some "2024-01-01T10:00:00.000+0000";
    f_updated := Some "2024-01-02T10:00:00.000+0000";
    f_custom := no_custom
  |}
|}.

(** Five well-formed lines, the fourth line of the six malformed. *)
Definition batch6 : string := fstring [
  "K-1 | Add login | User logs in with email"; nl;
  "K-2 | Add logout | User logs out"; nl;
  "K-3 | Reset password | User resets the password by mail"; nl;
  "K-X | a line with two parts only"; nl;
  "K-4 | Lock account | Three wrong passwords lock the account"; nl;
  "K-5 | Audit log | Logins are logged | also failed ones"; nl ].

Definition five_keys : list string := ["K-1"; "K-2"; "K-3"; "K-4"; "K-5"].

Definition five_tickets : list (string * outcome Issue) :=
  map (fun k => (k, Ret (full_issue k))) five_keys.

(** The completion endpoint fails on the third request. *)
Definition third_fails : World := {|
  tickets := five_tickets;
  replies := [Ret (Some "cases 1"); Ret (Some "cases 2"); Raise "Rate limit reached";
              Ret (Some "cases 4"); Ret (Some "cases 5")]
|}.

(** The completion endpoint answers once, then with the empty string. *)
Definition then_empty : World := {|
  tickets := [("PROJ-7", Ret no_status_issue)];
  replies := [Ret (Some "TC-01 valid login"); Ret (Some "")]
|}.

Definition jira : JIRA :=
  {| server := jira_url config; basic_auth := (jira_email config, jira_api_token config) |}.

End Script.

(** ** The ticket normalizer: the body of [get_ticket_details] *)

(** The text of the [AttributeError] of a field that is not there.  The
    text is the client library's own (for [issue.key], read on the issue
    and not on [issue.fields], it names the issue class); below only the
    raising matters, and the text is carried along as it is. *)
Definition attribute_error (name : string) : exn :=
  "'PropertyHolder' object has no attribute '" +:+ name +:+ "'".

(** [issue.fields.<name>] for a field that is there or not. *)
Definition getattr_required {A} (name : string) (o : option A) : outcome A :=
  match o with
  | Some v => Ret v
  | None => Raise (attribute_error name)
  end.

(** [issue.fields.<name>.name] *)
Definition name_of (name : string) (a : attr string) : outcome string :=
  match a with
  | Missing => Raise (attribute_error name)
  | Null => Raise "'NoneType' object has no attribute 'name'"
  | Val n => Ret n
  end.

(** [issue.fields.description or "No description provided"] *)
Definition description_of (f : Fields) : outcome string :=
  match f_description f with
  | Missing => Raise (attribute_error "description")
  | Null => Ret "No description provided"
  | Val s => Ret (if truthy s then s else "No description provided")
  end.

(** [issue.fields.priority.name if hasattr(issue.fields, 'priority') and
    issue.fields.priority else "Not set"] *)
Definition priority_of (f : Fields) : string :=
  if hasattr (f_priority f)
  then match f_priority f with Val n => n | _ => "Not set" end
  else "Not set".

(** [[c.name for c in issue.fields.components] if hasattr(issue.fields,
    'components') else []] *)
Definition components_of (f : Fields) : outcome (list string) :=
  if hasattr (f_components f)
  then match f_components f with
       | Val l => Ret l
       | _ => Raise "'NoneType' object is not iterable"
       end
  else Ret [].

Definition custom_field_names : list string :=
  ["customfield_10000"; "customfield_10001"; "customfield_10002";
   "customfield_10003"; "customfield_10004"; "customfield_10005"].

(** [value and (isinstance(value, str) and 'accept' in value.lower())] *)
Definition mentions_accept (value : custom_value) : bool :=
  match value with
  | CfStr s => truthy s && contains "accept" (lower s)
  | _ => false
  end.

(** The loop over [custom_field_names], left at the first hit by [break];
    [acceptance_criteria] is the value the variable holds on entry. *)
Fixpoint probe (f : Fields) (names : list string) (acceptance_criteria : string) : string :=
  match names with
  | [] => acceptance_criteria
  | field_name :: rest =>
      let value := f_custom f field_name in
      if mentions_accept value
      then match value with CfStr s => s | _ => acceptance_criteria end
      else probe f rest acceptance_criteria
  end.

(** Lines 140-155. *)
Definition acceptance_criteria_of (f : Fields) : string :=
  probe f custom_field_names "No acceptance criteria provided".

(** Lines 125-157: the dictionary built from a fetched issue, the entries
    evaluated in the order they are written. *)
Definition details_of_issue (issue : Issue) : outcome ticket_details :=
  let f := i_fields issue in
  try! k := getattr_required "key" (i_key issue) in
  try! s := getattr_required "summary" (f_summary f) in
  try! d := description_of f in
  try! st := name_of "status" (f_status f) in
  try! ty := name_of "issuetype" (f_issuetype f) in
  let p := priority_of f in
  try! cs := components_of f in
  try! cr := getattr_required "created" (f_created f) in
  try! up := getattr_required "updated" (f_updated f) in
  Ret {| key := k; summary := s; description := d; status := Some st;
         issue_type := ty; priority := p; components := cs;
         created := Some cr; updated := Some up;
         acceptance_criteria := acceptance_criteria_of f |}.

(** The entries of the dictionary that have no default: [issue.key] and
    the attributes [summary], [status.name], [issuetype.name], [created],
    [updated] are read without a guard. *)
Definition required_present (issue : Issue) : bool :=
  let f := i_fields issue in
  match i_key issue, f_summary f, f_status f, f_issuetype f, f_created f, f_updated f with
  | Some _, Some _, Val _, Val _, Some _, Some _ => true
  | _, _, _, _, _, _ => false
  end.

(** ** The prompt builder: lines 176-206 of [generate_test_cases] *)

Definition components_str (td : ticket_details) : string :=
  match components td with
  | [] => "No components"
  | cs => join ", " cs
  end.

(** The part of the template after the last placeholder. *)
Definition instruction_block : string := fstring [
  nl;
  "    For each test case, provide:"; nl;
  "    1. Test case ID (TC-XX format)"; nl;
  "    2. Test objective"; nl;
  "    3. Preconditions"; nl;
  "    4. Test steps (numbered)"; nl;
  "    5. Expected results"; nl;
  "    6. Priority (High/Medium/Low)"; nl;
  nl;
  "    Cover the following:"; nl;
  "    - Positive test cases (valid inputs/scenarios)"; nl;
  "    - Negative test cases (invalid inputs/error handling)"; nl;
  "    - Edge cases and boundary values"; nl;
  "    - Performance considerations (if applicable)"; nl;
  "    - Security aspects (if applicable)"; nl;
  "    - Integration points with other components"; nl;
  nl;
  "    Format the test cases clearly with proper categorization using markdown."; nl;
  "    " ].

Definition prompt (td : ticket_details) : string := fstring [
  nl;
  "    You are an expert QA engineer. Based on the following Jira ticket details, generate a comprehensive set of test cases."; nl;
  nl;
  "    TICKET KEY: "; key td; nl;
  "    SUMMARY: "; summary td; nl;
  "    DESCRIPTION: "; description td; nl;
  "    ISSUE TYPE: "; issue_type td; nl;
  "    PRIORITY: "; priority td; nl;
  "    COMPONENTS: "; components_str td; nl;
  "    ACCEPTANCE CRITERIA: "; acceptance_criteria td; nl;
  instruction_block ].

Definition system_content : string :=
  "You are a QA expert specialized in creating comprehensive test cases from Jira tickets.".

(** ** The tracker query, the table and the selection *)

(** Lines 106-109: the query of [fetch_jira_tickets]; [status] is [None] or
    a string. *)
Definition jql (project_key : string) (status : option string) : string :=
  let query := "project = " +:+ project_key in
  match status with
  | Some st =>
      if truthy st && negb (String.eqb st "All")
      then query +:+ " AND status = '" +:+ st +:+ "'"
      else query
  | None => query
  end.

(** Line 322: [None if status_filter == "All" else status_filter] *)
Definition status_of_filter (status_filter : string) : option string :=
  if String.eqb status_filter "All" then None else Some status_filter.

(** Line 227: the comment written back to the ticket. *)
Definition comment_of (test_cases : string) : string :=
  fstring ["*AI Generated Test Cases*"; nl; nl; test_cases].

(** A row of the table of fetched tickets (lines 336-343). *)
Record row : Type := {
  Key : string;
  Summary : string;
  Type_ : string;
  Status : string;
  Priority : string
}.

Definition row_of_issue (issue : Issue) : outcome row :=
  let f := i_fields issue in
  try! k := getattr_required "key" (i_key issue) in
  try! s := getattr_required "summary" (f_summary f) in
  try! ty := name_of "issuetype" (f_issuetype f) in
  try! st := name_of "status" (f_status f) in
  Ret {| Key := k; Summary := s; Type_ := ty; Status := st; Priority := priority_of f |}.

(** Lines 333-343: [ticket_data], row after row; [acc] is the list so far. *)
Fixpoint ticket_data_from (fetched_tickets : list Issue) (acc : list row)
  : outcome (list row) :=
  match fetched_tickets with
  | [] => Ret acc
  | issue :: rest =>
      try! r := row_of_issue issue in
      ticket_data_from rest (acc ++ [r])
  end.

Definition ticket_data (fetched_tickets : list Issue) : outcome (list row) :=
  ticket_data_from fetched_tickets [].

(** [d[k] = v] on a dictionary kept as the list of its items in insertion
    order: a key already there keeps its place. *)
Fixpoint dict_set (k v : string) (d : list (string * string)) : list (string * string) :=
  match d with
  | [] => [(k, v)]
  | (k', v') :: d' =>
      if String.eqb k k' then (k, v) :: d' else (k', v') :: dict_set k v d'
  end.

(** Line 521: [{issue.key: issue.fields.summary for issue in fetched_tickets}],
    [d] being the dictionary so far. *)
Fixpoint ticket_options_from (fetched_tickets : list Issue) (d : list (string * string))
  : outcome (list (string * string)) :=
  match fetched_tickets with
  | [] => Ret d
  | issue :: rest =>
      try! k := getattr_required "key" (i_key issue) in
      try! s := getattr_required "summary" (f_summary (i_fields issue)) in
      ticket_options_from rest (dict_set k s d)
  end.

Definition ticket_options (fetched_tickets : list Issue) : outcome (list (string * string)) :=
  ticket_options_from fetched_tickets [].

(** Lines 522-537: the selection; [checked k] is the state of the box of
    ticket [k]. *)
Definition selected_tickets (select_all : bool) (checked : string -> bool)
  (ticket_options : list (string * string)) : list string :=
  if select_all then map fst ticket_options
  else map fst (List.filter (fun kv => checked (fst kv)) ticket_options).

(** [st.warning] and [st.info]. *)
Inductive notice : Type :=
| st_warning (msg : string)
| st_info (msg : string).

(** ** A second scripted world, with a tracker that keeps the comments *)
Module Tracker.

Record World : Type := {
  online : bool;
  issues : list Issue;
  comments : list (string * string);
  replies : list (outcome (option string))
}.

Fixpoint find_issue (k : string) (l : list Issue) : outcome Issue :=
  match l with
  | [] => Raise "Issue Does Not Exist"
  | issue :: l' =>
      match i_key issue with
      | Some k' => if String.eqb k k' then Ret issue else find_issue k l'
      | None => find_issue k l'
      end
  end.

Definition JIRA_new (_ : JIRA) (w : World) : outcome unit * World :=
  if online w then (Ret tt, w) else (Raise "Connection refused", w).

Definition jira_issue (_ : JIRA) (k : string) (w : World) : outcome Issue * World :=
  (find_issue k (issues w), w).

Definition jira_search_issues (_ : JIRA) (_ : string) (max_results : nat) (w : World)
  : outcome (list Issue) * World :=
  (Ret (firstn max_results (issues w)), w).

Definition jira_add_comment (_ : JIRA) (k comment : string) (w : World)
  : outcome unit * World :=
  match find_issue k (issues w) with
  | Ret _ =>
      (Ret tt, {| online := online w; issues := issues w;
                  comments := comments w ++ [(k, comment)]; replies := replies w |})
  | Raise e => (Raise e, w)
  end.

Definition jira_myself (_ : JIRA) (w : World) : outcome string * World :=
  (Ret "QA Engineer", w).

Definition OpenAI_new (_ : string) (w : World) : outcome unit * World := (Ret tt, w).

Definition chat_completions_create (_ _ _ _ : string) (w : World)
  : outcome (option string) * World :=
  match replies w with
  | [] => (Raise "no more replies", w)
  | r :: rs =>
      (r, {| online := online w; issues := issues w; comments := comments w;
             replies := rs |})
  end.

(** Two tickets, the second without priority. *)
Definition two_issues : list Issue :=
  [Script.full_issue "PROJ-1"; Script.sparse_issue].

Definition up : World := {|
  online := true; issues := two_issues; comments := [];
  replies := [Ret (Some "TC-01 valid login")]
|}.

(** The same tracker, the completion endpoint failing every time. *)
Definition failing : World := {|
  online := true; issues := two_issues; comments := [];
  replies := [Raise "quota"; Raise "quota"; Raise "quota"; Raise "quota"; Raise "quota"]
|}.

Definition down : World := {|
  online := false; issues := two_issues; comments := []; replies := []
|}.

(** A tracker without tickets. *)
Definition empty : World := {|
  online := true; issues := []; comments := []; replies := []
|}.

(** A fetched list that names the first ticket twice. *)
Definition twice : list Issue :=
  [Script.full_issue "PROJ-1"; Script.sparse_issue; Script.full_issue "PROJ-1"].

(** The dictionary of the second ticket. *)
Definition sparse_details : ticket_details := {|
  key := "PROJ-2"; summary := "Tidy up"; description := "No description provided";
  status := Some "Open"; issue_type := "Task"; priority := "Not set"; components := [];
  created := Some "2024-01-01T10:00:00.000+0000";
  updated := Some "2024-01-02T10:00:00.000+0000";
  acceptance_criteria := "No acceptance criteria provided"
|}.

End Tracker.

(** ** Further tickets and worlds to run the script on *)

(** The completion endpoint answers the third request with the empty
    string. *)
Definition third_empty : Script.World := {|
  Script.tickets := Script.five_tickets;
  Script.replies := [Ret (Some "cases 1"); Ret (Some "cases 2"); Ret (Some "");
                     Ret (Some "cases 4"); Ret (Some "cases 5")]
|}.

(** A ticket with every unguarded attribute, without priority, its
    description None and its components None. *)
Definition none_components_issue : Issue := {|
  i_key := Some "PROJ-3";
  i_fields := {|
    f_summary := Some "Tidy up";
    f_description := Null;
    f_status := Val "Open";
    f_issuetype := Val "Task";
    f_priority := Missing;
    f_components := Null;
    f_created := Some "2024-01-01T10:00:00.000+0000";
    f_updated := Some "2024-01-02T10:00:00.000+0000";
    f_custom := Script.no_custom
  |}
|}.

(** A ticket with every unguarded attribute, without the attributes
    priority, components and description. *)
Definition no_description_issue : Issue := {|
  i_key := Some "PROJ-4";
  i_fields := {|
    f_summary := Some "Tidy up";
    f_description := Missing;
    f_status := Val "Open";
    f_issuetype := Val "Task";
    f_priority := Missing;
    f_components := Missing;
    f_created := Some "2024-01-01T10:00:00.000+0000";
    f_updated := Some "2024-01-02T10:00:00.000+0000";
    f_custom := Script.no_custom
  |}
|}.

(** ** The script as a state machine *)

Section App.

(** The outside: the tracker and the completion endpoint act on a world the
    script cannot see; each call returns or raises. *)
Variable World : Type.
Variable JIRA_AVAILABLE : bool.
Variable JIRA_new : JIRA -> World -> outcome unit * World.
Variable jira_issue : JIRA -> string -> World -> outcome Issue * World.
Variable OpenAI_new : string -> World -> outcome unit * World.
(** [client.chat.completions.create(model, messages)] followed by
    [response.choices[0].message.content], for the client made from the
    given API key; arguments: API key, model, system message, user message. *)
Variable chat_completions_create :
  string -> string -> string -> string -> World -> outcome (option string) * World.

(** [generated_test_cases] is [st.session_state.generated_test_cases];
    [ui] is what was shown, oldest first; [gen_calls] is a ghost log of the
    arguments of every call of [generate_test_cases]. *)
Record State : Type := {
  world : World;
  generated_test_cases : gmap string string;
  ui : list ui_event;
  gen_calls : list ticket_details
}.

Definition M (A : Type) : Type := State -> outcome A * State.

Definition ret {A} (a : A) : M A := fun s => (Ret a, s).

Definition bind {A B} (m : M A) (k : A -> M B) : M B :=
  fun s =>
    match m s with
    | (Ret a, s') => k a s'
    | (Raise e, s') => (Raise e, s')
    end.

Notation "x <- m ;; k" := (bind m (fun x => k))
  (at level 100, m at next level, k at level 200, right associativity).
Notation "m ;; k" := (bind m (fun _ => k))
  (at level 100, k at level 200, right associativity).

(** [try: m except Exception as e: h e] *)
Definition try_except {A} (m : M A) (h : exn -> M A) : M A :=
  fun s =>
    match m s with
    | (Ret a, s') => (Ret a, s')
    | (Raise e, s') => h e s'
    end.

Definition raise {A} (e : exn) : M A := fun s => (Raise e, s).

Definition lift {A} (o : outcome A) : M A := fun s => (o, s).

Definition set_world (w : World) (s : State) : State :=
  {| world := w; generated_test_cases := generated_test_cases s;
     ui := ui s; gen_calls := gen_calls s |}.

Definition add_ui (e : ui_event) (s : State) : State :=
  {| world := world s; generated_test_cases := generated_test_cases s;
     ui := ui s ++ [e]; gen_calls := gen_calls s |}.

Definition set_store (m : gmap string string) (s : State) : State :=
  {| world := world s; generated_test_cases := m;
     ui := ui s; gen_calls := gen_calls s |}.

Definition add_call (td : ticket_details) (s : State) : State :=
  {| world := world s; generated_test_cases := generated_test_cases s;
     ui := ui s; gen_calls := gen_calls s ++ [td] |}.

(** A call to one of the services. *)
Definition call {A} (f : World -> outcome A * World) : M A :=
  fun s => let (r, w) := f (world s) in (r, set_world w s).

(** A Streamlit call. *)
Definition show (e : ui_event) : M unit :=
  fun s => (Ret tt, add_ui e s).

(** [st.session_state.generated_test_cases[k] = v] *)
Definition store_set (k v : string) : M unit :=
  fun s => (Ret tt, set_store (<[k:=v]> (generated_test_cases s)) s).

Definition get_store : M (gmap string string) :=
  fun s => (Ret (generated_test_cases s), s).

Definition log_call (td : ticket_details) : M unit :=
  fun s => (Ret tt, add_call td s).

(** [for i, x in enumerate(l): body i x], counting from [i]. *)
Fixpoint for_enumerate {A} (body : nat -> A -> M unit) (i : nat) (l : list A) : M unit :=
  match l with
  | [] => ret tt
  | x :: l' => body i x ;; for_enumerate body (S i) l'
  end.

(** [if test_cases: k test_cases] for [test_cases] a string or [None]. *)
Definition if_truthy (test_cases : option string) (k : string -> M unit) : M unit :=
  match test_cases with
  | Some tc => if truthy tc then k tc else ret tt
  | None => ret tt
  end.

(** [d['status']] and the like, for a key a dictionary may lack. *)
Definition getitem (name : string) (o : option string) : M string :=
  match o with
  | Some v => ret v
  | None => raise ("'" +:+ name +:+ "'")
  end.

(** [all([a, b, c])] on strings. *)
Definition all_truthy (l : list string) : bool := forallb truthy l.

(** Lines 83-97. *)
Definition connect_to_jira (url email token : string) : M (option JIRA) :=
  if negb JIRA_AVAILABLE then
    show (st_error "The 'jira' package is not installed") ;; ret None
  else if negb (truthy url) || negb (truthy email) || negb (truthy token) then
    show (st_error "Please provide all Jira connection details in the sidebar") ;; ret None
  else
    let j := {| server := url; basic_auth := (email, token) |} in
    try_except
      (call (JIRA_new j) ;; ret (Some j))
      (fun e => show (st_error ("Failed to connect to Jira: " +:+ e)) ;; ret None).

(** Lines 119-160. *)
Definition get_ticket_details (jira : JIRA) (issue_key : string) : M (option ticket_details) :=
  try_except
    (issue <- call (jira_issue jira issue_key) ;;
     details <- lift (details_of_issue issue) ;;
     ret (Some details))
    (fun e => show (st_error ("Error fetching ticket details: " +:+ e)) ;; ret None).

(** Lines 163-221. *)
Definition generate_test_cases (td : ticket_details) (api_key model : string)
  : M (option string) :=
  log_call td ;;
  if negb (truthy api_key) then
    show (st_error "OpenAI API key is required in the sidebar") ;; ret None
  else
    client <- try_except
                (call (OpenAI_new api_key) ;; ret (Some api_key))
                (fun e => show (st_error ("Error initializing OpenAI client: " +:+ e)) ;;
                          ret None) ;;
    match client with
    | None => ret None
    | Some client =>
        let prompt := prompt td in
        try_except
          (call (chat_completions_create client model system_content prompt))
          (fun e => show (st_error ("Error generating test cases: " +:+ e)) ;; ret None)
    end.

(** Lines 369-379: the button of the manual form of the third tab. *)
Definition tab3_manual (cfg : sidebar) (manual_ticket : ticket_details) : M unit :=
  if negb (truthy (openai_api_key cfg)) then
    show (st_error "Please provide OpenAI API key in the sidebar")
  else
    test_cases <- generate_test_cases manual_ticket (openai_api_key cfg) (ai_model cfg) ;;
    if_truthy test_cases (fun tc =>
      let ticket_key := key manual_ticket in
      store_set ticket_key tc ;;
      show (st_success "Test cases generated successfully!")).

(** Lines 412-422: the ticket as shown before generation. *)
Definition show_ticket (td : ticket_details) : M unit :=
  show (st_subheader "Ticket Details") ;;
  show (st_write ("**Summary:** " +:+ summary td)) ;;
  show (st_expander "View full ticket details") ;;
  show (st_write ("**Description:** " +:+ description td)) ;;
  show (st_write ("**Type:** " +:+ issue_type td)) ;;
  s <- getitem "status" (status td) ;;
  show (st_write ("**Status:** " +:+ s)) ;;
  show (st_write ("**Priority:** " +:+ priority td)) ;;
  show (st_write ("**Components:** " +:+
                  match components td with [] => "None" | cs => join ", " cs end)) ;;
  show (st_write ("**Acceptance Criteria:** " +:+ acceptance_criteria td)).

(** Lines 398-429: the button of the third tab for a tracker ticket. *)
Definition tab3_jira (cfg : sidebar) (ticket_key : string) : M unit :=
  if negb (truthy ticket_key) then ret tt
  else if negb (truthy (openai_api_key cfg)) then
    show (st_error "Please provide OpenAI API key in the sidebar")
  else if negb (all_truthy [jira_url cfg; jira_email cfg; jira_api_token cfg]) then
    show (st_error "Please provide all Jira connection details in the sidebar")
  else
    jira <- connect_to_jira (jira_url cfg) (jira_email cfg) (jira_api_token cfg) ;;
    match jira with
    | None => ret tt
    | Some jira =>
        ticket_details <- get_ticket_details jira ticket_key ;;
        match ticket_details with
        | None => ret tt
        | Some td =>
            show_ticket td ;;
            test_cases <- generate_test_cases td (openai_api_key cfg) (ai_model cfg) ;;
            if_truthy test_cases (fun tc =>
              store_set ticket_key tc ;;
              show (st_success "Test cases generated successfully!"))
        end
    end.

(** Lines 494 and 555: the status line for item [i] (counted from 0) of [n]. *)
Definition processing_line (ticket_key : string) (i n : nat) : string :=
  "Processing " +:+ ticket_key +:+ " (" +:+ str_of_nat (i + 1) +:+
  "/" +:+ str_of_nat n +:+ ")".

(** Lines 496-504: the dictionary built for one well-formed line. *)
Definition manual_ticket_of (ticket_key summary description : string) : ticket_details :=
  {| key := ticket_key; summary := summary; description := description;
     status := None; issue_type := "Story"; priority := "Medium";
     components := []; created := None; updated := None;
     acceptance_criteria := "Not provided" |}.

(** Lines 488-510: the body of the loop over the lines of the text area;
    [n] is [len(lines)]. *)
Definition tab4_manual_body (cfg : sidebar) (n : nat) (i : nat) (line : string) : M unit :=
  let parts := split "|" line in
  (if (3 <=? length parts)%nat then
     let ticket_key := strip (nth 0 parts "") in
     let summary := strip (nth 1 parts "") in
     let description := strip (nth 2 parts "") in
     show (status_text (processing_line ticket_key i n)) ;;
     let manual_ticket := manual_ticket_of ticket_key summary description in
     test_cases <- generate_test_cases manual_ticket (openai_api_key cfg) (ai_model cfg) ;;
     if_truthy test_cases (fun tc => store_set ticket_key tc)
   else ret tt) ;;
  show (progress (i + 1) n).

(** Lines 483-513. *)
Definition tab4_manual_loop (cfg : sidebar) (batch_descriptions : string) : M unit :=
  let lines := split "010" (strip batch_descriptions) in
  show (progress 0 1) ;;
  for_enumerate (tab4_manual_body cfg (length lines)) 0 lines ;;
  show (status_text "All tickets processed!") ;;
  show (st_success ("Generated test cases for " +:+ str_of_nat (length lines) +:+ " tickets")).

(** Lines 477-513: the button of the manual form of the fourth tab. *)
Definition tab4_manual (cfg : sidebar) (batch_descriptions : string) : M unit :=
  if negb (truthy (openai_api_key cfg)) then
    show (st_error "Please provide OpenAI API key in the sidebar")
  else if negb (truthy batch_descriptions) then
    show (st_error "Please enter at least one ticket description")
  else tab4_manual_loop cfg batch_descriptions.

(** Lines 555-563: the body of the loop over the selected tickets. *)
Definition tab4_jira_body (cfg : sidebar) (jira : JIRA) (n : nat) (i : nat)
  (ticket_key : string) : M unit :=
  show (status_text (processing_line ticket_key i n)) ;;
  ticket_details <- get_ticket_details jira ticket_key ;;
  match ticket_details with
  | Some td =>
      test_cases <- generate_test_cases td (openai_api_key cfg) (ai_model cfg) ;;
      if_truthy test_cases (fun tc => store_set ticket_key tc)
  | None => ret tt
  end ;;
  show (progress (i + 1) n).

(** Lines 570-573: the summary after the loop. *)
Fixpoint show_summary (keys : list string) : M unit :=
  match keys with
  | [] => ret tt
  | k :: keys' =>
      m <- get_store ;;
      match m !! k with
      | Some tc => show (st_expander ("Test Cases for " +:+ k)) ;; show (st_markdown tc)
      | None => ret tt
      end ;;
      show_summary keys'
  end.

(** Lines 551-573. *)
Definition tab4_jira_loop (cfg : sidebar) (jira : JIRA) (selected_tickets : list string)
  : M unit :=
  show (progress 0 1) ;;
  for_enumerate (tab4_jira_body cfg jira (length selected_tickets)) 0 selected_tickets ;;
  show (status_text "All tickets processed!") ;;
  show (st_success ("Generated test cases for " +:+
                    str_of_nat (length selected_tickets) +:+ " tickets")) ;;
  show (st_subheader "Generated Test Cases Summary") ;;
  show_summary selected_tickets.

(** Lines 539-573: the button of the fourth tab for the selected tickets. *)
Definition tab4_jira (cfg : sidebar) (selected_tickets : list string) : M unit :=
  match selected_tickets with
  | [] => ret tt
  | _ =>
      if negb (truthy (openai_api_key cfg)) then
        show (st_error "Please provide OpenAI API key in the sidebar")
      else if negb (all_truthy [jira_url cfg; jira_email cfg; jira_api_token cfg]) then
        show (st_error "Please provide all Jira connection details in the sidebar")
      else
        jira <- connect_to_jira (jira_url cfg) (jira_email cfg) (jira_api_token cfg) ;;
        match jira with
        | None => ret tt
        | Some jira => tab4_jira_loop cfg jira selected_tickets
        end
  end.

(** The state of a fresh session (lines 30-33). *)
Definition initial (w : World) : State :=
  {| world := w; generated_test_cases := ∅; ui := []; gen_calls := [] |}.

(** One press of a button that can write the session store. *)
Inductive action : Type :=
| Tab3Manual (cfg : sidebar) (manual_ticket : ticket_details)
| Tab3Jira (cfg : sidebar) (ticket_key : string)
| Tab4Manual (cfg : sidebar) (batch_descriptions : string)
| Tab4Jira (cfg : sidebar) (selected_tickets : list string).

Definition handler (a : action) : M unit :=
  match a with
  | Tab3Manual cfg t => tab3_manual cfg t
  | Tab3Jira cfg k => tab3_jira cfg k
  | Tab4Manual cfg b => tab4_manual cfg b
  | Tab4Jira cfg l => tab4_jira cfg l
  end.

(** The states a session can be in: the fresh one, and the state any
    button leaves behind, the services being free to change the world
    between two presses. *)
Inductive reachable : State -> Prop :=
| reach_init w : reachable (initial w)
| reach_step a s : reachable s -> reachable (snd (handler a s))
| reach_world s w :
    reachable s ->
    reachable (set_world w s).

(** The status lines ["Processing ..."] shown so far. *)
Definition status_lines (l : list ui_event) : list string :=
  flat_map (fun e => match e with status_text m => [m] | _ => [] end) l.

(** The errors shown so far. *)
Definition error_lines (l : list ui_event) : list string :=
  flat_map (fun e => match e with st_error m => [m] | _ => [] end) l.

(** The session store after [if test_cases: store[k] = test_cases]. *)
Definition stored (k : string) (test_cases : option string) (m : gmap string string)
  : gmap string string :=
  match test_cases with
  | Some tc => if truthy tc then <[k:=tc]> m else m
  | None => m
  end.

(** Every stored text is a non-empty string. *)
Definition nonempty_values (m : gmap string string) : Prop :=
  map_Forall (fun _ v => v <> "") m.

(** What one line of the text area contributes to the calls of
    [generate_test_cases]. *)
Definition parse_line (line : string) : option ticket_details :=
  match split "|" line with
  | p0 :: p1 :: p2 :: _ => Some (manual_ticket_of (strip p0) (strip p1) (strip p2))
  | _ => None
  end.

(** ** The rest of the script *)

(** The other calls of the tracker client: [jira.search_issues(query,
    maxResults=n)], [jira.add_comment(key, comment)] and
    [jira.myself()['displayName']]. *)
Variable jira_search_issues : JIRA -> string -> nat -> World -> outcome (list Issue) * World.
Variable jira_add_comment : JIRA -> string -> string -> World -> outcome unit * World.
Variable jira_myself : JIRA -> World -> outcome string * World.

(** Lines 68-79: the button "Test Jira Connection" of the sidebar. *)
Definition test_jira_connection (cfg : sidebar) : M unit :=
  if negb JIRA_AVAILABLE then
    show (st_error "Please install the 'jira' package first")
  else if negb (truthy (jira_url cfg)) || negb (truthy (jira_email cfg))
          || negb (truthy (jira_api_token cfg)) then
    show (st_error "Please fill all Jira connection fields")
  else
    let j := {| server := jira_url cfg;
                basic_auth := (jira_email cfg, jira_api_token cfg) |} in
    try_except
      (call (JIRA_new j) ;;
       display_name <- call (jira_myself j) ;;
       show (st_success ("Connection successful! Connected as " +:+ display_name)))
      (fun e => show (st_error ("Connection failed: " +:+ e))).

(** Lines 100-116. *)
Definition fetch_jira_tickets (jira : JIRA) (project_key : string) (status : option string)
  (max_results : nat) : M (list Issue) :=
  if negb (truthy project_key) then
    show (st_error "Please provide a Jira Project Key in the sidebar") ;; ret []
  else
    let query := jql project_key status in
    try_except
      (call (jira_search_issues jira query max_results))
      (fun e => show (st_error ("Error fetching tickets: " +:+ e)) ;; ret []).

(** Lines 224-232. *)
Definition save_test_cases_to_jira (jira : JIRA) (ticket_key test_cases : string) : M bool :=
  try_except
    (let comment := comment_of test_cases in
     call (jira_add_comment jira ticket_key comment) ;;
     ret true)
    (fun e => show (st_error ("Error saving test cases to Jira: " +:+ e)) ;; ret false).

(** Lines 312-329: the button "Fetch Tickets".  [fetched_tickets] is
    [st.session_state.fetched_tickets] before the press; the answer is its
    value after the press, with the warnings shown. *)
Definition tab2_fetch (cfg : sidebar) (status_filter : string) (max_results : nat)
  (fetched_tickets : list Issue) : M (list Issue * list notice) :=
  if negb JIRA_AVAILABLE then
    show (st_error "Please install the 'jira' package first") ;; ret (fetched_tickets, [])
  else if negb (all_truthy [jira_url cfg; jira_email cfg; jira_api_token cfg;
                            jira_project cfg]) then
    show (st_error "Please provide all Jira connection details in the sidebar") ;;
    ret (fetched_tickets, [])
  else
    jira <- connect_to_jira (jira_url cfg) (jira_email cfg) (jira_api_token cfg) ;;
    match jira with
    | None => ret (fetched_tickets, [])
    | Some jira =>
        let status := status_of_filter status_filter in
        tickets <- fetch_jira_tickets jira (jira_project cfg) status max_results ;;
        match tickets with
        | [] => ret (fetched_tickets, [st_warning "No tickets found matching the criteria"])
        | _ =>
            show (st_success ("Fetched " +:+ str_of_nat (length tickets) +:+ " tickets")) ;;
            ret (tickets, [])
        end
    end.

(** Lines 435-462: the generated text shown under the third tab, and the
    button "Save Test Cases to Jira" pressed.  [ticket_key] is what the
    variable holds at line 435, [None] when it is unbound or [None]; the
    download button leaves no trace in the state. *)
Definition tab3_save (cfg : sidebar) (use_manual_input : bool) (ticket_key : option string)
  : M unit :=
  m <- get_store ;;
  match ticket_key with
  | None => ret tt
  | Some ticket_key =>
      if negb (truthy ticket_key) then ret tt
      else
        match m !! ticket_key with
        | None => ret tt
        | Some test_cases =>
            show (st_subheader "Generated Test Cases") ;;
            show (st_markdown test_cases) ;;
            if use_manual_input then ret tt
            else if negb (all_truthy [jira_url cfg; jira_email cfg; jira_api_token cfg]) then
              show (st_error "Please provide all Jira connection details in the sidebar")
            else
              jira <- connect_to_jira (jira_url cfg) (jira_email cfg) (jira_api_token cfg) ;;
              match jira with
              | None => ret tt
              | Some jira =>
                  success <- save_test_cases_to_jira jira ticket_key test_cases ;;
                  if success then show (st_success "Test cases saved to Jira ticket!")
                  else ret tt
              end
        end
  end.

(** The keys of the tickets a line of the manual batch can be stored under. *)
Definition manual_keys (batch_descriptions : string) : list string :=
  map key (omap parse_line (split "010" (strip batch_descriptions))).

(** The keys a press can write in the session store. *)
Definition written_keys (a : action) : list string :=
  match a with
  | Tab3Manual _ t => [key t]
  | Tab3Jira _ k => [k]
  | Tab4Manual _ b => manual_keys b
  | Tab4Jira _ l => l
  end.

(** The fractions handed to the progress bar so far. *)
Definition progress_marks (l : list ui_event) : list (nat * nat) :=
  flat_map (fun e => match e with progress a b => [(a, b)] | _ => [] end) l.

(** The numbers 1/n, 2/n, ... for [len] items counted from [i]. *)
Fixpoint marks_from (i n len : nat) : list (nat * nat) :=
  match len with
  | O => []
  | S len' => (i + 1, n) :: marks_from (S i) n len'
  end.

(** ** Strings *)

(** Membership in a list written out. *)
Ltac pick := solve [repeat first [left; reflexivity | right]].

Lemma append_assoc (a b c : string) : (a +:+ b) +:+ c = a +:+ (b +:+ c).
Proof. induction a as [|x a IH]; simpl; [reflexivity | f_equal; exact IH]. Qed.

Lemma append_empty_r (a : string) : a +:+ "" = a.
Proof. induction a as [|x a IH]; simpl; [reflexivity | f_equal; exact IH]. Qed.

Lemma substring_of_refl (s : string) : substring_of s s.
Proof. exists "", "". simpl. now rewrite append_empty_r. Qed.

Lemma substring_of_trans (a b c : string) :
  substring_of a b -> substring_of b c -> substring_of a c.
Proof.
  intros [p1 [q1 ->]] [p2 [q2 ->]].
  exists (p2 +:+ p1), (q1 +:+ q2).
  now rewrite !append_assoc.
Qed.

Lemma substring_of_append_l (a s t : string) :
  substring_of a s -> substring_of a (s +:+ t).
Proof.
  intros [p [q ->]]. exists p, (q +:+ t). now rewrite !append_assoc.
Qed.

Lemma substring_of_append_r (a s t : string) :
  substring_of a t -> substring_of a (s +:+ t).
Proof.
  intros [p [q ->]]. exists (s +:+ p), q. now rewrite !append_assoc.
Qed.

Lemma substring_of_fstring (x : string) (l : list string) :
  In x l -> substring_of x (fstring l).
Proof.
  induction l as [|y l IH]; simpl; [intros []|].
  intros [-> | H].
  - apply substring_of_append_l, substring_of_refl.
  - apply substring_of_append_r, IH, H.
Qed.

Lemma substring_of_join (sep x : string) (l : list string) :
  In x l -> substring_of x (join sep l).
Proof.
  induction l as [|y l IH]; simpl; [intros []|].
  intros [-> | H].
  - destruct l; [apply substring_of_refl | apply substring_of_append_l, substring_of_refl].
  - destruct l as [|z l]; [destruct H|].
    apply substring_of_append_r, substring_of_append_r, IH, H.
Qed.

Lemma starts_with_spec (p s : string) :
  starts_with p s = true <-> exists post, s = p +:+ post.
Proof.
  revert s. induction p as [|a p IH]; intros s; simpl.
  - split; [intros _; now exists s | reflexivity].
  - destruct s as [|b s].
    + split; [discriminate | intros [post H]; discriminate].
    + rewrite andb_true_iff, IH, Ascii.eqb_eq. split.
      * intros [-> [post ->]]. now exists post.
      * intros [post H]. injection H as -> ->. split; [reflexivity | now exists post].
Qed.

(** The operator [in] decides occurrence. *)
Lemma contains_spec (p s : string) :
  contains p s = true <-> substring_of p s.
Proof.
  unfold substring_of. induction s as [|c s IH].
  - simpl. rewrite orb_false_r, starts_with_spec. split.
    + intros [post H]. now exists "", post.
    + intros [[|a pre] [post H]]; [now exists post | discriminate].
  - cbn [contains]. rewrite orb_true_iff, IH, starts_with_spec. split.
    + intros [[post H] | [pre [post H]]].
      * now exists "", post.
      * exists (String c pre), post. simpl. now rewrite H.
    + intros [[|a pre] [post H]].
      * left. now exists post.
      * right. simpl in H. injection H as -> ->. now exists pre, post.
Qed.

Lemma lower_append (a b : string) : lower (a +:+ b) = lower a +:+ lower b.
Proof. induction a as [|x a IH]; simpl; [reflexivity | f_equal; exact IH]. Qed.

Lemma lower_append_inv (v x y : string) :
  lower v = x +:+ y -> exists a b, v = a +:+ b /\ lower a = x /\ lower b = y.
Proof.
  revert v. induction x as [|c x IH]; intros v H.
  - exists "", v. auto.
  - destruct v as [|d v]; [discriminate|]. simpl in H. injection H as Hc Hv.
    destruct (IH v Hv) as [a [b [-> [Ha Hb]]]].
    exists (String d a), b. simpl. now rewrite Ha, Hc.
Qed.

(** ['accept' in value.lower()] holds exactly when some stretch of [value]
    reads "accept" once put in lower case. *)
Lemma contains_lower_spec (p v : string) :
  contains p (lower v) = true <-> exists u, substring_of u v /\ lower u = p.
Proof.
  rewrite contains_spec. split.
  - intros [pre [post H]].
    destruct (lower_append_inv _ _ _ H) as [a [b [-> [_ Hb]]]].
    destruct (lower_append_inv _ _ _ Hb) as [u [c [-> [Hu _]]]].
    exists u. split; [now exists a, c | exact Hu].
  - intros [u [[pre [post ->]] <-]].
    exists (lower pre), (lower post). now rewrite !lower_append.
Qed.

Lemma contains_nonempty (p s : string) :
  truthy p = true -> contains p s = true -> truthy s = true.
Proof. destruct p; [discriminate|]. destruct s; [discriminate | reflexivity]. Qed.

Lemma truthy_spec (s : string) : truthy s = true <-> s <> "".
Proof. destruct s; simpl; split; congruence. Qed.

Lemma truthy_false (s : string) : truthy s = false <-> s = "".
Proof. destruct s; simpl; split; congruence. Qed.

(** [split] cuts at the first separator. *)
Lemma split_no_sep (sep : ascii) (a : string) :
  contains (String sep "") a = false -> split sep a = [a].
Proof.
  induction a as [|c a IH]; [reflexivity|].
  cbn [contains starts_with split]. rewrite Ascii.eqb_sym.
  destruct (Ascii.eqb c sep); [discriminate|].
  simpl. intros H. now rewrite (IH H).
Qed.


Lemma split_not_nil (sep : ascii) (s : string) : split sep s <> [].
Proof.
  induction s as [|c s IH]; simpl; [discriminate|].
  destruct (Ascii.eqb c sep); [discriminate|].
  destruct (split sep s); discriminate.
Qed.

(** [strip] takes white space, and nothing else, off both ends. *)
Lemma lstrip_spec (s : string) :
  exists a, s = a +:+ lstrip s /\ all_space a = true /\
            (forall c, first_char (lstrip s) = Some c -> is_space c = false).
Proof.
  induction s as [|c s IH].
  - exists "". repeat split. discriminate.
  - cbn [lstrip]. destruct (is_space c) eqn:E.
    + destruct IH as (a & Ha & Hsp & Hf). exists (String c a).
      split; [simpl; now rewrite <- Ha|]. split; [simpl; now rewrite E, Hsp | exact Hf].
    + exists "". repeat split. now intros c' [= <-].
Qed.

Lemma rstrip_spec (s : string) :
  exists b, s = rstrip s +:+ b /\ all_space b = true /\
            (forall c, last_char (rstrip s) = Some c -> is_space c = false).
Proof.
  induction s as [|c s IH].
  - exists "". repeat split. discriminate.
  - destruct IH as (b & Hb & Hsp & Hl). cbn [rstrip].
    destruct (rstrip s) as [|d r] eqn:E.
    + simpl in Hb. subst b. destruct (is_space c) eqn:Ec.
      * exists (String c s). split; [reflexivity|]. split; [simpl; now rewrite Ec, Hsp|].
        discriminate.
      * exists s. split; [reflexivity|]. split; [exact Hsp|]. now intros c' [= <-].
    + exists b. split; [simpl; f_equal; exact Hb|]. split; [exact Hsp | exact Hl].
Qed.

Lemma rstrip_first (s : string) (c : ascii) :
  first_char (rstrip s) = Some c -> first_char s = Some c.
Proof.
  destruct s as [|d s]; [discriminate|]. cbn [rstrip].
  destruct (rstrip s); [destruct (is_space d); [discriminate|]|]; exact id.
Qed.

Lemma strip_spec (s : string) :
  exists a b, s = a +:+ strip s +:+ b /\
              all_space a = true /\ all_space b = true /\ trimmed (strip s).
Proof.
  unfold strip.
  destruct (lstrip_spec s) as (a & Ha & Hsa & Hf).
  destruct (rstrip_spec (lstrip s)) as (b & Hb & Hsb & Hl).
  exists a, b. split; [now rewrite <- Hb|]. split; [exact Hsa|]. split; [exact Hsb|].
  split; [|exact Hl]. intros c Hc. apply Hf. now apply rstrip_first.
Qed.

(** ** Acceptance criteria *)

Lemma mentions_accept_spec (c : custom_value) :
  mentions_accept c = true <->
  exists v, c = CfStr v /\ exists u, substring_of u v /\ lower u = "accept".
Proof.
  destruct c as [|v|n|l]; simpl.
  2: { rewrite andb_true_iff. split.
       - intros [_ H]. apply contains_lower_spec in H. eauto.
       - intros [v' [[= <-] H]]. apply contains_lower_spec in H. split; [|exact H].
         destruct v; [discriminate | reflexivity]. }
  all: split; [discriminate | intros [v [[=] _]]].
Qed.

Lemma probe_miss (f : Fields) (names : list string) (acc : string) :
  (forall n, In n names -> mentions_accept (f_custom f n) = false) ->
  probe f names acc = acc.
Proof.
  induction names as [|n names IH]; intros H; simpl; [reflexivity|].
  rewrite (H n (or_introl eq_refl)). apply IH. intros m Hm. apply H. now right.
Qed.

Lemma probe_hit (f : Fields) (pre post : list string) (name v acc : string) :
  (forall n, In n pre -> mentions_accept (f_custom f n) = false) ->
  f_custom f name = CfStr v ->
  mentions_accept (CfStr v) = true ->
  probe f (pre ++ name :: post) acc = v.
Proof.
  intros Hpre Hname Hv. induction pre as [|n pre IH]; simpl.
  - now rewrite Hname, Hv.
  - rewrite (Hpre n (or_introl eq_refl)). apply IH. intros m Hm. apply Hpre. now right.
Qed.

Lemma details_of_issue_acceptance (issue : Issue) (d : ticket_details) :
  details_of_issue issue = Ret d ->
  acceptance_criteria d = acceptance_criteria_of (i_fields issue).
Proof.
  unfold details_of_issue, obind. intros H.
  repeat match type of H with
         | match ?x with _ => _ end = _ => destruct x; try discriminate
         end.
  now injection H as <-.
Qed.

(** C1.  The acceptance criteria of a ticket are looked up in
    customfield_10000 ... customfield_10005, in that order: the answer is the
    value of the first of them that is a string in which some stretch reads
    "accept" whatever the case of its letters, and the sentence
    "No acceptance criteria provided" when none of the six is. *)
Theorem acceptance_criteria_first_match (f : Fields) :
  custom_field_names =
    ["customfield_10000"; "customfield_10001"; "customfield_10002";
     "customfield_10003"; "customfield_10004"; "customfield_10005"] /\
  (forall pre name post v,
      custom_field_names = pre ++ name :: post ->
      (forall n v', In n pre -> f_custom f n = CfStr v' ->
                    ~ exists u, substring_of u v' /\ lower u = "accept") ->
      f_custom f name = CfStr v ->
      (exists u, substring_of u v /\ lower u = "accept") ->
      acceptance_criteria_of f = v) /\
  ((forall n v', In n custom_field_names -> f_custom f n = CfStr v' ->
                 ~ exists u, substring_of u v' /\ lower u = "accept") ->
   acceptance_criteria_of f = "No acceptance criteria provided") /\
  (forall issue d,
      i_fields issue = f -> details_of_issue issue = Ret d ->
      acceptance_criteria d = acceptance_criteria_of f).
Proof.
  assert (Hno : forall names,
             (forall n v', In n names -> f_custom f n = CfStr v' ->
                           ~ exists u, substring_of u v' /\ lower u = "accept") ->
             forall n, In n names -> mentions_accept (f_custom f n) = false).
  { intros names H n Hn. apply not_true_is_false. intros Hm.
    apply mentions_accept_spec in Hm as [v' [Hv' Hu]]. exact (H n v' Hn Hv' Hu). }
  split; [reflexivity|]. split; [|split].
  - intros pre name post v Hnames Hpre Hname Hv.
    unfold acceptance_criteria_of. rewrite Hnames.
    apply probe_hit; [now apply Hno | exact Hname |].
    apply mentions_accept_spec. eauto.
  - intros H. unfold acceptance_criteria_of. apply probe_miss. now apply Hno.
  - intros issue d <-. apply details_of_issue_acceptance.
Qed.

(** ** The prompt *)

Lemma fstring_app (l1 l2 : list string) :
  fstring (l1 ++ l2) = fstring l1 +:+ fstring l2.
Proof.
  induction l1 as [|x l1 IH]; [reflexivity|].
  cbn [fstring app]. rewrite IH. symmetry. apply append_assoc.
Qed.

Lemma prompt_nonempty (td : ticket_details) : prompt td <> "".
Proof. unfold prompt. cbn [fstring]. unfold nl. discriminate. Qed.

Lemma prompt_field (td : ticket_details) (x : string) :
  In x [key td; summary td; description td; issue_type td; priority td;
        components_str td; acceptance_criteria td; instruction_block] ->
  substring_of x (prompt td).
Proof.
  intros H. apply substring_of_fstring. cbn [In] in *.
  repeat (destruct H as [<- | H]; [pick|]). destruct H.
Qed.

(** C2.  The prompt built for a ticket is never the empty string; the key,
    the summary, the description, the issue type, the priority, the
    acceptance criteria and every component occur in it as they are; the
    components are shown joined by ", ", or as "No components" when there
    is none. *)
Theorem prompt_contains_fields (td : ticket_details) :
  prompt td <> "" /\
  substring_of (key td) (prompt td) /\
  substring_of (summary td) (prompt td) /\
  substring_of (description td) (prompt td) /\
  substring_of (issue_type td) (prompt td) /\
  substring_of (priority td) (prompt td) /\
  substring_of (acceptance_criteria td) (prompt td) /\
  substring_of (components_str td) (prompt td) /\
  (components td = [] -> components_str td = "No components") /\
  (components td <> [] -> components_str td = join ", " (components td)) /\
  (forall c, In c (components td) -> substring_of c (prompt td)).
Proof.
  split; [apply prompt_nonempty|].
  repeat (split; [apply prompt_field; cbn [In]; pick|]).
  split; [|split].
  - unfold components_str. now intros ->.
  - unfold components_str. destruct (components td); [congruence | reflexivity].
  - intros c Hc. apply substring_of_trans with (components_str td).
    + unfold components_str. destruct (components td) as [|c0 cs]; [destruct Hc|].
      now apply substring_of_join.
    + apply prompt_field. cbn [In]. pick.
Qed.

(** C6.  Whatever the ticket, the prompt ends with the same block of
    instructions, which asks for each test case an identifier in TC-XX
    form, an objective, preconditions, numbered steps, expected results and
    a priority among High, Medium and Low, and asks to cover positive and
    negative cases, edge cases and boundary values, performance, security
    and integration points. *)
Theorem prompt_instruction_block (td : ticket_details) :
  (exists pre, prompt td = pre +:+ instruction_block) /\
  Forall (fun phrase => substring_of phrase instruction_block /\
                        substring_of phrase (prompt td))
    ["For each test case, provide:";
     "1. Test case ID (TC-XX format)";
     "2. Test objective";
     "3. Preconditions";
     "4. Test steps (numbered)";
     "5. Expected results";
     "6. Priority (High/Medium/Low)";
     "Cover the following:";
     "- Positive test cases (valid inputs/scenarios)";
     "- Negative test cases (invalid inputs/error handling)";
     "- Edge cases and boundary values";
     "- Performance considerations (if applicable)";
     "- Security aspects (if applicable)";
     "- Integration points with other components";
     "Format the test cases clearly with proper categorization using markdown."].
Proof.
  split.
  - exists (fstring [nl;
      "    You are an expert QA engineer. Based on the following Jira ticket details, generate a comprehensive set of test cases.";
      nl; nl; "    TICKET KEY: "; key td; nl; "    SUMMARY: "; summary td; nl;
      "    DESCRIPTION: "; description td; nl; "    ISSUE TYPE: "; issue_type td; nl;
      "    PRIORITY: "; priority td; nl; "    COMPONENTS: "; components_str td; nl;
      "    ACCEPTANCE CRITERIA: "; acceptance_criteria td; nl]).
    change (prompt td) with
      (fstring ([nl;
      "    You are an expert QA engineer. Based on the following Jira ticket details, generate a comprehensive set of test cases.";
      nl; nl; "    TICKET KEY: "; key td; nl; "    SUMMARY: "; summary td; nl;
      "    DESCRIPTION: "; description td; nl; "    ISSUE TYPE: "; issue_type td; nl;
      "    PRIORITY: "; priority td; nl; "    COMPONENTS: "; components_str td; nl;
      "    ACCEPTANCE CRITERIA: "; acceptance_criteria td; nl] ++ [instruction_block])).
    rewrite fstring_app. cbn [fstring]. now rewrite append_empty_r.
  - assert (Hp : substring_of instruction_block (prompt td)).
    { apply prompt_field. cbn [In]. pick. }
    repeat constructor;
      try (apply substring_of_trans with instruction_block; [|exact Hp]);
      apply contains_spec; vm_compute; reflexivity.
Qed.

(** ** The normalizer *)

Lemma priority_of_default (f : Fields) :
  f_priority f = Missing \/ f_priority f = Null -> priority_of f = "Not set".
Proof. unfold priority_of. now intros [-> | ->]. Qed.

Lemma components_of_default (f : Fields) :
  f_components f = Missing -> components_of f = Ret [].
Proof. unfold components_of. now intros ->. Qed.

Lemma description_of_default (f : Fields) :
  f_description f = Null \/ f_description f = Val "" ->
  description_of f = Ret "No description provided".
Proof. unfold description_of. now intros [-> | ->]. Qed.

(** The dictionary built when nothing raises. *)
Lemma details_of_issue_ok (issue : Issue) :
  required_present issue = true ->
  f_description (i_fields issue) <> Missing ->
  f_components (i_fields issue) <> Null ->
  exists k s d st ty cs cr up,
    i_key issue = Some k /\ f_summary (i_fields issue) = Some s /\
    description_of (i_fields issue) = Ret d /\
    f_status (i_fields issue) = Val st /\ f_issuetype (i_fields issue) = Val ty /\
    components_of (i_fields issue) = Ret cs /\
    f_created (i_fields issue) = Some cr /\ f_updated (i_fields issue) = Some up /\
    details_of_issue issue =
      Ret {| key := k; summary := s; description := d; status := Some st;
             issue_type := ty; priority := priority_of (i_fields issue);
             components := cs; created := Some cr; updated := Some up;
             acceptance_criteria := acceptance_criteria_of (i_fields issue) |}.
Proof.
  unfold required_present, details_of_issue. intros Hreq Hd Hc.
  destruct (i_key issue) as [k|]; [|discriminate].
  destruct (f_summary (i_fields issue)) as [s|] eqn:Es; [|discriminate].
  destruct (f_status (i_fields issue)) as [| |st] eqn:Est; try discriminate.
  destruct (f_issuetype (i_fields issue)) as [| |ty] eqn:Ety; try discriminate.
  destruct (f_created (i_fields issue)) as [cr|] eqn:Ecr; [|discriminate].
  destruct (f_updated (i_fields issue)) as [up|] eqn:Eup; [|discriminate].
  assert (Hdesc : exists d, description_of (i_fields issue) = Ret d).
  { unfold description_of. destruct (f_description (i_fields issue)); [congruence | eauto | eauto]. }
  assert (Hcomp : exists cs, components_of (i_fields issue) = Ret cs).
  { unfold components_of. destruct (f_components (i_fields issue)); simpl; [eauto | congruence | eauto]. }
  destruct Hdesc as [d Ed], Hcomp as [cs Ecs].
  exists k, s, d, st, ty, cs, cr, up. rewrite Ed, Ecs. simpl.
  repeat (split; [reflexivity|]). reflexivity.
Qed.

(** A field read without a guard and not there makes the normalizer raise. *)
Lemma details_of_issue_required (issue : Issue) :
  required_present issue = false -> exists e, details_of_issue issue = Raise e.
Proof.
  unfold required_present, details_of_issue. intros Hreq.
  destruct (i_key issue) as [k|]; simpl; [|eauto].
  destruct (f_summary (i_fields issue)) as [s|]; simpl; [|eauto].
  destruct (description_of (i_fields issue)) as [d|e]; simpl; [|eauto].
  destruct (f_status (i_fields issue)) as [| |st]; simpl; [eauto | eauto |].
  destruct (f_issuetype (i_fields issue)) as [| |ty]; simpl; [eauto | eauto |].
  destruct (components_of (i_fields issue)) as [cs|e]; simpl; [|eauto].
  destruct (f_created (i_fields issue)) as [cr|]; simpl; [|eauto].
  destruct (f_updated (i_fields issue)) as [up|]; simpl; [discriminate | eauto].
Qed.

(** C5, as the code has it.  Read one by one, the three optional entries
    never raise on what they guard: a priority attribute that is missing
    (or None) gives "Not set", a components attribute that is missing gives
    the empty list, a description that is None (or empty) gives
    "No description provided".  The dictionary as a whole is built, with
    these values, for every ticket that has its key, summary, status, issue
    type and two dates, whose description attribute exists and whose
    components are not None. *)
Theorem missing_optional_fields_default (issue : Issue) :
  let f := i_fields issue in
  (f_priority f = Missing \/ f_priority f = Null -> priority_of f = "Not set") /\
  (f_components f = Missing -> components_of f = Ret []) /\
  (f_description f = Null \/ f_description f = Val "" ->
   description_of f = Ret "No description provided") /\
  (required_present issue = true ->
   f_description f <> Missing -> f_components f <> Null ->
   f_priority f = Missing \/ f_priority f = Null ->
   exists d, details_of_issue issue = Ret d /\ priority d = "Not set") /\
  (required_present issue = true ->
   f_description f <> Missing ->
   f_components f = Missing ->
   exists d, details_of_issue issue = Ret d /\ components d = []) /\
  (required_present issue = true ->
   f_components f <> Null ->
   f_description f = Null \/ f_description f = Val "" ->
   exists d, details_of_issue issue = Ret d /\ description d = "No description provided").
Proof.
  intros f. subst f.
  split; [apply priority_of_default|].
  split; [apply components_of_default|].
  split; [apply description_of_default|].
  split; [|split].
  - intros Hreq Hd Hc Hp.
    destruct (details_of_issue_ok issue Hreq Hd Hc)
      as (k & s & d & st & ty & cs & cr & up & _ & _ & _ & _ & _ & _ & _ & _ & ->).
    eexists. split; [reflexivity|]. simpl. now apply priority_of_default.
  - intros Hreq Hd Hc.
    assert (Hc' : f_components (i_fields issue) <> Null) by congruence.
    destruct (details_of_issue_ok issue Hreq Hd Hc')
      as (k & s & d & st & ty & cs & cr & up & _ & _ & _ & _ & _ & Ecs & _ & _ & ->).
    eexists. split; [reflexivity|]. simpl.
    rewrite (components_of_default _ Hc) in Ecs. congruence.
  - intros Hreq Hc Hd.
    assert (Hd' : f_description (i_fields issue) <> Missing) by (destruct Hd; congruence).
    destruct (details_of_issue_ok issue Hreq Hd' Hc)
      as (k & s & d & st & ty & cs & cr & up & _ & _ & Ed & _ & _ & _ & _ & _ & ->).
    eexists. split; [reflexivity|]. simpl.
    rewrite (description_of_default _ Hd) in Ed. congruence.
Qed.

(** ** The two services seen from the script *)

Lemma set_store_id (s : State) : set_store (generated_test_cases s) s = s.
Proof. now destruct s. Qed.

Lemma status_lines_app (l1 l2 : list ui_event) :
  status_lines (l1 ++ l2) = status_lines l1 ++ status_lines l2.
Proof. apply flat_map_app. Qed.

Lemma error_lines_app (l1 l2 : list ui_event) :
  error_lines (l1 ++ l2) = error_lines l1 ++ error_lines l2.
Proof. apply flat_map_app. Qed.

Lemma bind_ret {A B} (m : M A) (k : A -> M B) (s s' : State) (a : A) :
  m s = (Ret a, s') -> bind m k s = k a s'.
Proof. unfold bind. now intros ->. Qed.

(** [get_ticket_details] step by step: the fetch, then the dictionary; an
    exception of either is shown and turned into [None]. *)
Lemma get_ticket_details_eq (jira : JIRA) (k : string) (s : State) :
  get_ticket_details jira k s =
  match jira_issue jira k (world s) with
  | (Ret issue, w) =>
      match details_of_issue issue with
      | Ret d => (Ret (Some d), set_world w s)
      | Raise e =>
          (Ret None,
           add_ui (st_error ("Error fetching ticket details: " +:+ e)) (set_world w s))
      end
  | (Raise e, w) =>
      (Ret None, add_ui (st_error ("Error fetching ticket details: " +:+ e)) (set_world w s))
  end.
Proof.
  unfold get_ticket_details, try_except, bind, call, lift, show, ret.
  destruct (jira_issue jira k (world s)) as [[issue|e] w]; [|reflexivity].
  destruct (details_of_issue issue); reflexivity.
Qed.

(** [generate_test_cases] step by step. *)
Lemma generate_test_cases_eq (td : ticket_details) (api model : string) (s : State) :
  generate_test_cases td api model s =
  if truthy api then
    match OpenAI_new api (world s) with
    | (Ret _, w) =>
        match chat_completions_create api model system_content (prompt td) w with
        | (Ret c, w') => (Ret c, set_world w' (add_call td s))
        | (Raise e, w') =>
            (Ret None,
             add_ui (st_error ("Error generating test cases: " +:+ e))
                    (set_world w' (add_call td s)))
        end
    | (Raise e, w) =>
        (Ret None,
         add_ui (st_error ("Error initializing OpenAI client: " +:+ e))
                (set_world w (add_call td s)))
    end
  else
    (Ret None, add_ui (st_error "OpenAI API key is required in the sidebar") (add_call td s)).
Proof.
  unfold generate_test_cases, try_except, bind, call, log_call, show, ret.
  destruct (truthy api); [|reflexivity]. cbn [negb world add_call].
  destruct (OpenAI_new api (world s)) as [[[]|e] w]; [|reflexivity].
  cbn [world set_world].
  destruct (chat_completions_create api model system_content (prompt td) w) as [[c|e] w'];
    reflexivity.
Qed.

(** Neither function raises, and neither touches the session store or the
    status line; [generate_test_cases] logs its argument. *)
Lemma get_ticket_details_frame (jira : JIRA) (k : string) (s : State) :
  exists r s',
    get_ticket_details jira k s = (Ret r, s') /\
    generated_test_cases s' = generated_test_cases s /\
    gen_calls s' = gen_calls s /\
    status_lines (ui s') = status_lines (ui s).
Proof.
  rewrite get_ticket_details_eq.
  destruct (jira_issue jira k (world s)) as [[issue|e] w].
  - destruct (details_of_issue issue); eexists _, _; (split; [reflexivity|]);
      cbn [generated_test_cases gen_calls ui add_ui set_world];
      rewrite ?status_lines_app, ?app_nil_r; auto.
  - eexists _, _; (split; [reflexivity|]);
      cbn [generated_test_cases gen_calls ui add_ui set_world];
      rewrite ?status_lines_app, ?app_nil_r; auto.
Qed.

Lemma generate_test_cases_frame (td : ticket_details) (api model : string) (s : State) :
  exists r s',
    generate_test_cases td api model s = (Ret r, s') /\
    generated_test_cases s' = generated_test_cases s /\
    gen_calls s' = gen_calls s ++ [td] /\
    status_lines (ui s') = status_lines (ui s).
Proof.
  rewrite generate_test_cases_eq.
  destruct (truthy api).
  - destruct (OpenAI_new api (world s)) as [[[]|e] w].
    + destruct (chat_completions_create api model system_content (prompt td) w)
        as [[c|e] w'];
        eexists _, _; (split; [reflexivity|]);
        cbn [generated_test_cases gen_calls ui add_ui set_world add_call];
        rewrite ?status_lines_app, ?app_nil_r; auto.
    + eexists _, _; (split; [reflexivity|]);
        cbn [generated_test_cases gen_calls ui add_ui set_world add_call];
        rewrite ?status_lines_app, ?app_nil_r; auto.
  - eexists _, _; (split; [reflexivity|]);
      cbn [generated_test_cases gen_calls ui add_ui set_world add_call];
      rewrite ?status_lines_app, ?app_nil_r; auto.
Qed.

Lemma details_of_issue_status (issue : Issue) (d : ticket_details) :
  details_of_issue issue = Ret d -> exists st, status d = Some st.
Proof.
  unfold details_of_issue, obind. intros H.
  repeat match type of H with
         | match ?x with _ => _ end = _ => destruct x; try discriminate
         end.
  injection H as <-. simpl. eauto.
Qed.

Lemma get_ticket_details_status (jira : JIRA) (k : string) (s s' : State) (d : ticket_details) :
  get_ticket_details jira k s = (Ret (Some d), s') -> exists st, status d = Some st.
Proof.
  rewrite get_ticket_details_eq.
  destruct (jira_issue jira k (world s)) as [[issue|e] w]; [|discriminate].
  destruct (details_of_issue issue) eqn:E; [|discriminate].
  intros [= <- _]. eapply details_of_issue_status, E.
Qed.

(** C7, as the code has it.  The normalizer builds the whole dictionary
    whenever the key, the summary, the status, the issue type and the two
    dates are there (and the description attribute exists, whatever its
    value, and the components are not None): description, priority,
    components and acceptance criteria then hold a value or their
    placeholder.  Without one of the six unguarded attributes it raises,
    and [get_ticket_details] shows the error and answers [None]. *)
Theorem normalizer_required_fields (issue : Issue) :
  let f := i_fields issue in
  (required_present issue = true ->
   f_description f <> Missing -> f_components f <> Null ->
   exists d,
     details_of_issue issue = Ret d /\
     i_key issue = Some (key d) /\ f_summary f = Some (summary d) /\
     f_issuetype f = Val (issue_type d) /\
     description_of f = Ret (description d) /\ description d <> "" /\
     priority d = priority_of f /\
     components_of f = Ret (components d) /\
     acceptance_criteria d = acceptance_criteria_of f) /\
  (required_present issue = false -> exists e, details_of_issue issue = Raise e) /\
  (forall jira k s w,
      jira_issue jira k (world s) = (Ret issue, w) ->
      (forall d, details_of_issue issue = Ret d ->
                 get_ticket_details jira k s = (Ret (Some d), set_world w s)) /\
      (forall e, details_of_issue issue = Raise e ->
                 get_ticket_details jira k s =
                 (Ret None,
                  add_ui (st_error ("Error fetching ticket details: " +:+ e))
                         (set_world w s)))).
Proof.
  intros f. subst f. split; [|split].
  - intros Hreq Hd Hc.
    destruct (details_of_issue_ok issue Hreq Hd Hc)
      as (k & s & d & st & ty & cs & cr & up & Ek & Es & Ed & _ & Ety & Ecs & _ & _ & ->).
    eexists. split; [reflexivity|]. cbn [key summary issue_type description priority
                                          components acceptance_criteria].
    repeat (split; [assumption || reflexivity|]).
    split; [|auto].
    unfold description_of in Ed.
    destruct (f_description (i_fields issue)) as [| |v]; [discriminate | |].
    + injection Ed as <-. discriminate.
    + injection Ed as <-. destruct v; simpl; discriminate.
  - apply details_of_issue_required.
  - intros jira k s w Hj. split; intros x Hx; rewrite get_ticket_details_eq, Hj, Hx; reflexivity.
Qed.

(** ** The loops of the fourth tab *)

Lemma bind_fst_ret {A B} (m : M A) (k : A -> M B) (s : State) (a : A) :
  fst (m s) = Ret a -> bind m k s = k a (snd (m s)).
Proof. unfold bind. destruct (m s) as [[a'|e] s']; simpl; [now intros [= ->] | discriminate]. Qed.

Lemma if_truthy_store (k : string) (r : option string) (s : State) :
  if_truthy r (fun tc => store_set k tc) s =
  (Ret tt, set_store (stored k r (generated_test_cases s)) s).
Proof.
  unfold if_truthy, stored, store_set, ret.
  destruct r as [tc|]; [destruct (truthy tc)|]; now rewrite ?set_store_id.
Qed.

Lemma stored_cases (k : string) (r : option string) (m : gmap string string) :
  (exists tc, r = Some tc /\ tc <> "" /\ stored k r m = <[k:=tc]> m) \/
  ((r = None \/ r = Some "") /\ stored k r m = m).
Proof.
  destruct r as [[|c tc]|]; simpl; [right | left | right]; eauto.
Qed.

Lemma stored_nonempty (k : string) (r : option string) (m : gmap string string) :
  nonempty_values m -> nonempty_values (stored k r m).
Proof.
  intros H. destruct (stored_cases k r m) as [(tc & _ & Htc & ->) | [_ ->]]; [|exact H].
  now apply map_Forall_insert_2.
Qed.

Lemma parse_line_some (line : string) :
  (exists t, parse_line line = Some t) <-> 3 <= length (split "|" line).
Proof.
  unfold parse_line. destruct (split "|" line) as [|p0 [|p1 [|p2 rest]]]; simpl;
    (split; [intros [t H]; try discriminate; lia | intros H; try lia; eauto]).
Qed.

Lemma parse_line_none (line : string) :
  parse_line line = None <-> length (split "|" line) < 3.
Proof.
  unfold parse_line. destruct (split "|" line) as [|p0 [|p1 [|p2 rest]]]; simpl;
    (split; [intros H; try discriminate; lia | intros H; try lia; reflexivity]).
Qed.

(** The body of the manual loop: a line that does not parse only moves the
    progress bar; one that parses is announced, generated for and, when the
    result is a non-empty text, stored. *)
Lemma tab4_manual_body_eq (cfg : sidebar) (n i : nat) (line : string) (s : State) :
  tab4_manual_body cfg n i line s =
  match parse_line line with
  | Some t =>
      match generate_test_cases t (openai_api_key cfg) (ai_model cfg)
              (add_ui (status_text (processing_line (key t) i n)) s) with
      | (Ret r, s1) =>
          (Ret tt, add_ui (progress (i + 1) n)
                     (set_store (stored (key t) r (generated_test_cases s1)) s1))
      | (Raise e, s1) => (Raise e, s1)
      end
  | None => (Ret tt, add_ui (progress (i + 1) n) s)
  end.
Proof.
  unfold tab4_manual_body, parse_line.
  destruct (split "|" line) as [|p0 [|p1 [|p2 rest]]]; try reflexivity.
  cbn [length Nat.leb nth manual_ticket_of key].
  change (3 <=? S (S (S (length rest))))%nat with true. cbv iota.
  unfold bind at 1. unfold bind at 1. unfold show at 1. unfold bind at 1.
  destruct (generate_test_cases _ _ _ _) as [[r|e] s1]; [|reflexivity].
  rewrite if_truthy_store. reflexivity.
Qed.

(** The body of the tracker loop. *)
Lemma tab4_jira_body_eq (cfg : sidebar) (jira : JIRA) (n i : nat) (k : string) (s : State) :
  tab4_jira_body cfg jira n i k s =
  match get_ticket_details jira k (add_ui (status_text (processing_line k i n)) s) with
  | (Ret (Some td), s1) =>
      match generate_test_cases td (openai_api_key cfg) (ai_model cfg) s1 with
      | (Ret r, s2) =>
          (Ret tt, add_ui (progress (i + 1) n)
                     (set_store (stored k r (generated_test_cases s2)) s2))
      | (Raise e, s2) => (Raise e, s2)
      end
  | (Ret None, s1) => (Ret tt, add_ui (progress (i + 1) n) s1)
  | (Raise e, s1) => (Raise e, s1)
  end.
Proof.
  unfold tab4_jira_body.
  unfold bind at 1. unfold bind at 1. unfold show at 1. unfold bind at 1.
  destruct (get_ticket_details _ _ _) as [[[td|]|e] s1]; try reflexivity.
  unfold bind at 1.
  destruct (generate_test_cases _ _ _ _) as [[r|e] s2]; [|reflexivity].
  rewrite if_truthy_store. reflexivity.
Qed.

Lemma tab4_manual_body_spec (cfg : sidebar) (n i : nat) (line : string) (s : State) :
  exists r s',
    tab4_manual_body cfg n i line s = (Ret tt, s') /\
    gen_calls s' = gen_calls s ++ option_list (parse_line line) /\
    generated_test_cases s' =
      match parse_line line with
      | Some t => stored (key t) r (generated_test_cases s)
      | None => generated_test_cases s
      end.
Proof.
  rewrite tab4_manual_body_eq. destruct (parse_line line) as [t|].
  - destruct (generate_test_cases_frame t (openai_api_key cfg) (ai_model cfg)
                (add_ui (status_text (processing_line (key t) i n)) s))
      as (r & s1 & -> & Hst & Hc & _).
    exists r. eexists. split; [reflexivity|].
    cbn [gen_calls generated_test_cases add_ui set_store option_list] in *.
    now rewrite Hst, Hc.
  - exists None. eexists. split; [reflexivity|].
    cbn [gen_calls generated_test_cases add_ui option_list]. now rewrite app_nil_r.
Qed.

Lemma tab4_jira_body_spec (cfg : sidebar) (jira : JIRA) (n i : nat) (k : string) (s : State) :
  exists r s',
    tab4_jira_body cfg jira n i k s = (Ret tt, s') /\
    status_lines (ui s') = status_lines (ui s) ++ [processing_line k i n] /\
    generated_test_cases s' = stored k r (generated_test_cases s).
Proof.
  rewrite tab4_jira_body_eq.
  destruct (get_ticket_details_frame jira k (add_ui (status_text (processing_line k i n)) s))
    as (r1 & s1 & -> & Hst1 & _ & Hs1).
  cbn [generated_test_cases ui add_ui] in Hst1, Hs1.
  rewrite status_lines_app in Hs1. change (status_lines [status_text ?m]) with [m] in Hs1.
  destruct r1 as [td|].
  - destruct (generate_test_cases_frame td (openai_api_key cfg) (ai_model cfg) s1)
      as (r & s2 & -> & Hst2 & _ & Hs2).
    exists r. eexists. split; [reflexivity|].
    cbn [generated_test_cases ui add_ui set_store].
    rewrite status_lines_app, Hs2, Hs1, Hst2, Hst1. cbn [status_lines flat_map].
    now rewrite app_nil_r.
  - exists None. eexists. split; [reflexivity|].
    cbn [generated_test_cases ui add_ui stored].
    rewrite status_lines_app, Hs1, Hst1. cbn [status_lines flat_map].
    now rewrite app_nil_r.
Qed.

Lemma for_enumerate_step {A} (body : nat -> A -> M unit) (i : nat) (x : A) (l : list A)
  (s : State) :
  fst (body i x s) = Ret tt ->
  for_enumerate body i (x :: l) s = for_enumerate body (S i) l (snd (body i x s)).
Proof. intros H. cbn [for_enumerate]. now rewrite (bind_fst_ret _ _ _ _ H). Qed.

Lemma for_enumerate_ret {A} (body : nat -> A -> M unit) :
  (forall i x s, fst (body i x s) = Ret tt) ->
  forall l i s, fst (for_enumerate body i l s) = Ret tt.
Proof.
  intros Hb l. induction l as [|x l IH]; intros i s; [reflexivity|].
  rewrite for_enumerate_step by apply Hb. apply IH.
Qed.

(** A loop whose body never raises runs through: the items after a prefix
    are processed from the state the prefix leaves. *)
Lemma for_enumerate_app {A} (body : nat -> A -> M unit) :
  (forall i x s, fst (body i x s) = Ret tt) ->
  forall l1 l2 i s,
    for_enumerate body i (l1 ++ l2) s =
    for_enumerate body (i + length l1) l2 (snd (for_enumerate body i l1 s)).
Proof.
  intros Hb l1. induction l1 as [|x l1 IH]; intros l2 i s.
  - cbn [app length for_enumerate ret snd]. now rewrite Nat.add_0_r.
  - cbn [app length]. rewrite !for_enumerate_step by apply Hb.
    rewrite IH. now rewrite Nat.add_succ_r.
Qed.

Lemma tab4_manual_body_ret (cfg : sidebar) (n i : nat) (line : string) (s : State) :
  fst (tab4_manual_body cfg n i line s) = Ret tt.
Proof. destruct (tab4_manual_body_spec cfg n i line s) as (r & s' & -> & _). reflexivity. Qed.

Lemma tab4_jira_body_ret (cfg : sidebar) (jira : JIRA) (n i : nat) (k : string) (s : State) :
  fst (tab4_jira_body cfg jira n i k s) = Ret tt.
Proof. destruct (tab4_jira_body_spec cfg jira n i k s) as (r & s' & -> & _). reflexivity. Qed.

Lemma manual_loop_calls (cfg : sidebar) (n : nat) (lines : list string) :
  forall i s,
    gen_calls (snd (for_enumerate (tab4_manual_body cfg n) i lines s)) =
    gen_calls s ++ omap parse_line lines.
Proof.
  induction lines as [|line lines IH]; intros i s.
  - cbn. now rewrite app_nil_r.
  - rewrite for_enumerate_step by apply tab4_manual_body_ret. rewrite IH.
    destruct (tab4_manual_body_spec cfg n i line s) as (r & s' & -> & Hc & _).
    cbn [snd]. rewrite Hc, <- app_assoc. f_equal.
    cbn [omap list_omap]. now destruct (parse_line line).
Qed.

Lemma manual_loop_store (cfg : sidebar) (n : nat) (lines : list string) :
  forall i s,
    nonempty_values (generated_test_cases s) ->
    nonempty_values
      (generated_test_cases (snd (for_enumerate (tab4_manual_body cfg n) i lines s))).
Proof.
  induction lines as [|line lines IH]; intros i s H; [exact H|].
  rewrite for_enumerate_step by apply tab4_manual_body_ret. apply IH.
  destruct (tab4_manual_body_spec cfg n i line s) as (r & s' & -> & _ & Hst).
  cbn [snd]. rewrite Hst. destruct (parse_line line); [now apply stored_nonempty | exact H].
Qed.

Lemma jira_loop_store (cfg : sidebar) (jira : JIRA) (n : nat) (keys : list string) :
  forall i s,
    nonempty_values (generated_test_cases s) ->
    nonempty_values
      (generated_test_cases (snd (for_enumerate (tab4_jira_body cfg jira n) i keys s))).
Proof.
  induction keys as [|k keys IH]; intros i s H; [exact H|].
  rewrite for_enumerate_step by apply tab4_jira_body_ret. apply IH.
  destruct (tab4_jira_body_spec cfg jira n i k s) as (r & s' & -> & _ & Hst).
  cbn [snd]. rewrite Hst. now apply stored_nonempty.
Qed.

Lemma jira_loop_status (cfg : sidebar) (jira : JIRA) (n : nat) (keys : list string) :
  forall i s,
    status_lines (ui (snd (for_enumerate (tab4_jira_body cfg jira n) i keys s))) =
    status_lines (ui s) ++ imap (fun j k => processing_line k (i + j) n) keys.
Proof.
  induction keys as [|k keys IH]; intros i s.
  - cbn. now rewrite app_nil_r.
  - rewrite for_enumerate_step by apply tab4_jira_body_ret. rewrite IH.
    destruct (tab4_jira_body_spec cfg jira n i k s) as (r & s' & -> & Hs & _).
    cbn [snd]. rewrite Hs, <- app_assoc. f_equal.
    cbn [imap app]. rewrite Nat.add_0_r. f_equal.
    apply imap_ext. intros j x _. unfold compose. f_equal. lia.
Qed.

Lemma omap_parse_length (lines : list string) :
  length (omap parse_line lines) =
  length (List.filter (fun line => 3 <=? length (split "|" line))%nat lines).
Proof.
  induction lines as [|line lines IH]; [reflexivity|].
  cbn [omap list_omap List.filter].
  destruct (parse_line line) as [t|] eqn:E.
  - assert (H : 3 <= length (split "|" line)) by (apply parse_line_some; eauto).
    apply Nat.leb_le in H. rewrite H. cbn [length]. f_equal. exact IH.
  - apply parse_line_none in E.
    assert (H : (3 <=? length (split "|" line))%nat = false) by (apply Nat.leb_gt; lia).
    rewrite H. exact IH.
Qed.

Lemma tab4_manual_loop_eq (cfg : sidebar) (batch_descriptions : string) (s : State) :
  let lines := split "010" (strip batch_descriptions) in
  tab4_manual_loop cfg batch_descriptions s =
  (Ret tt,
   add_ui (st_success ("Generated test cases for " +:+ str_of_nat (length lines) +:+ " tickets"))
     (add_ui (status_text "All tickets processed!")
        (snd (for_enumerate (tab4_manual_body cfg (length lines)) 0 lines
                (add_ui (progress 0 1) s))))).
Proof.
  intros lines. unfold tab4_manual_loop. fold lines.
  unfold bind at 1. unfold show at 1.
  rewrite (bind_fst_ret _ _ _ tt) by (apply for_enumerate_ret, tab4_manual_body_ret).
  reflexivity.
Qed.

Lemma show_summary_frame (keys : list string) :
  forall s, exists s',
    show_summary keys s = (Ret tt, s') /\
    generated_test_cases s' = generated_test_cases s /\
    status_lines (ui s') = status_lines (ui s).
Proof.
  induction keys as [|k keys IH]; intros s.
  - exists s. auto.
  - cbn [show_summary]. unfold bind at 1. unfold get_store at 1.
    destruct (generated_test_cases s !! k) as [tc|].
    + unfold bind at 1. unfold bind at 1. unfold show at 1 2.
      destruct (IH (add_ui (st_markdown tc) (add_ui (st_expander ("Test Cases for " +:+ k)) s)))
        as (s' & -> & Hst & Hs).
      exists s'. split; [reflexivity|]. split; [exact Hst|].
      rewrite Hs. cbn [ui add_ui]. rewrite !status_lines_app. cbn [status_lines flat_map].
      now rewrite !app_nil_r.
    + unfold bind at 1. unfold ret at 1. apply IH.
Qed.

Lemma tab4_jira_loop_eq (cfg : sidebar) (jira : JIRA) (keys : list string) (s : State) :
  tab4_jira_loop cfg jira keys s =
  show_summary keys
    (add_ui (st_subheader "Generated Test Cases Summary")
       (add_ui (st_success ("Generated test cases for " +:+ str_of_nat (length keys) +:+
                            " tickets"))
          (add_ui (status_text "All tickets processed!")
             (snd (for_enumerate (tab4_jira_body cfg jira (length keys)) 0 keys
                     (add_ui (progress 0 1) s)))))).
Proof.
  unfold tab4_jira_loop.
  unfold bind at 1. unfold show at 1.
  rewrite (bind_fst_ret _ _ _ tt) by (apply for_enumerate_ret, tab4_jira_body_ret).
  reflexivity.
Qed.

(** C3.  In the manual batch, with an API key and a non-empty text area,
    the text is stripped and cut into lines; [generate_test_cases] is
    called once for every line that has at least three parts between
    bars, in the order of the lines, and for no other line.  A line with
    fewer parts only moves the progress bar: nothing is shown for it and
    nothing is raised.  So the number of calls is the number of lines with
    at least three parts. *)
Theorem manual_batch_attempts (cfg : sidebar) (batch_descriptions : string) (s : State) :
  truthy (openai_api_key cfg) = true ->
  truthy batch_descriptions = true ->
  let lines := split "010" (strip batch_descriptions) in
  let r := tab4_manual cfg batch_descriptions s in
  fst r = Ret tt /\
  gen_calls (snd r) = gen_calls s ++ omap parse_line lines /\
  (forall line, 3 <= length (split "|" line) <-> exists t, parse_line line = Some t) /\
  (forall line n i s0,
      length (split "|" line) < 3 ->
      parse_line line = None /\
      tab4_manual_body cfg n i line s0 = (Ret tt, add_ui (progress (i + 1) n) s0)) /\
  length (gen_calls (snd r)) =
    length (gen_calls s) +
    length (List.filter (fun line => 3 <=? length (split "|" line))%nat lines).
Proof.
  intros Hkey Hb lines r. subst r. unfold tab4_manual. rewrite Hkey, Hb. cbn [negb].
  rewrite tab4_manual_loop_eq. fold lines. cbn [fst snd gen_calls add_ui].
  rewrite manual_loop_calls. cbn [gen_calls add_ui].
  split; [reflexivity|]. split; [reflexivity|]. split; [|split].
  - intros line. symmetry. apply parse_line_some.
  - intros line n i s0 H. apply parse_line_none in H. split; [exact H|].
    now rewrite tab4_manual_body_eq, H.
  - rewrite length_app, omap_parse_length. reflexivity.
Qed.


(** ** The buttons and the session store *)

Lemma connect_to_jira_frame (url email token : string) (s : State) :
  exists r s',
    connect_to_jira url email token s = (Ret r, s') /\
    generated_test_cases s' = generated_test_cases s /\
    status_lines (ui s') = status_lines (ui s) /\
    gen_calls s' = gen_calls s.
Proof.
  unfold connect_to_jira.
  destruct JIRA_AVAILABLE; cbn [negb].
  2: { eexists _, _. split; [reflexivity|]. cbn [generated_test_cases ui gen_calls add_ui].
       rewrite status_lines_app. cbn [status_lines flat_map]. now rewrite app_nil_r. }
  destruct (negb (truthy url) || negb (truthy email) || negb (truthy token)).
  { eexists _, _. split; [reflexivity|]. cbn [generated_test_cases ui gen_calls add_ui].
    rewrite status_lines_app. cbn [status_lines flat_map]. now rewrite app_nil_r. }
  unfold try_except, bind, call, show, ret.
  destruct (JIRA_new _ (world s)) as [[[]|e] w]; eexists _, _; (split; [reflexivity|]);
    cbn [generated_test_cases ui gen_calls add_ui set_world];
    rewrite ?status_lines_app, ?app_nil_r; auto.
Qed.

Lemma show_ticket_frame (td : ticket_details) (st : string) (s : State) :
  status td = Some st ->
  exists s',
    show_ticket td s = (Ret tt, s') /\
    generated_test_cases s' = generated_test_cases s /\
    gen_calls s' = gen_calls s.
Proof.
  intros H. unfold show_ticket. rewrite H. eexists. split; [reflexivity|].
  split; reflexivity.
Qed.

Lemma if_truthy_store_show (k : string) (e : ui_event) (r : option string) (s : State) :
  exists s',
    if_truthy r (fun tc => store_set k tc ;; show e) s = (Ret tt, s') /\
    generated_test_cases s' = stored k r (generated_test_cases s) /\
    gen_calls s' = gen_calls s.
Proof.
  unfold if_truthy, stored. destruct r as [tc|]; [destruct (truthy tc)|];
    eexists; (split; [reflexivity|]); split; reflexivity.
Qed.

(** The button of the manual form: the store after it is the store before
    it, with the result of the one generation call put in when it is a
    non-empty text. *)
Lemma tab3_manual_store (cfg : sidebar) (t : ticket_details) (s s1 : State)
  (r : option string) :
  truthy (openai_api_key cfg) = true ->
  generate_test_cases t (openai_api_key cfg) (ai_model cfg) s = (Ret r, s1) ->
  fst (tab3_manual cfg t s) = Ret tt /\
  generated_test_cases (snd (tab3_manual cfg t s)) =
    stored (key t) r (generated_test_cases s).
Proof.
  intros Hk E. unfold tab3_manual. rewrite Hk. cbn [negb].
  rewrite (bind_ret _ _ _ _ _ E).
  destruct (generate_test_cases_frame t (openai_api_key cfg) (ai_model cfg) s)
    as (r' & s' & E' & Hst & _). rewrite E in E'. injection E' as <- <-.
  destruct (if_truthy_store_show (key t) (st_success "Test cases generated successfully!") r s1)
    as (s2 & -> & H2 & _).
  cbn [fst snd]. now rewrite H2, Hst.
Qed.

Lemma tab3_manual_no_key (cfg : sidebar) (t : ticket_details) (s : State) :
  truthy (openai_api_key cfg) = false ->
  tab3_manual cfg t s =
  (Ret tt, add_ui (st_error "Please provide OpenAI API key in the sidebar") s).
Proof. intros Hk. unfold tab3_manual. now rewrite Hk. Qed.

(** The button for a tracker ticket, on the path that reaches the
    generation call. *)
Lemma tab3_jira_store (cfg : sidebar) (k : string) (s s0 s1 s2 : State) (jira : JIRA)
  (td : ticket_details) (r : option string) :
  truthy k = true ->
  truthy (openai_api_key cfg) = true ->
  all_truthy [jira_url cfg; jira_email cfg; jira_api_token cfg] = true ->
  connect_to_jira (jira_url cfg) (jira_email cfg) (jira_api_token cfg) s = (Ret (Some jira), s0) ->
  get_ticket_details jira k s0 = (Ret (Some td), s1) ->
  generate_test_cases td (openai_api_key cfg) (ai_model cfg) (snd (show_ticket td s1))
    = (Ret r, s2) ->
  fst (tab3_jira cfg k s) = Ret tt /\
  generated_test_cases (snd (tab3_jira cfg k s)) = stored k r (generated_test_cases s) /\
  gen_calls (snd (tab3_jira cfg k s)) = gen_calls s ++ [td].
Proof.
  intros Hk Hkey Hall Ec Eg Egen. unfold tab3_jira. rewrite Hk, Hkey, Hall. cbn [negb].
  rewrite (bind_ret _ _ _ _ _ Ec), (bind_ret _ _ _ _ _ Eg).
  destruct (get_ticket_details_status _ _ _ _ _ Eg) as [st Hst].
  destruct (show_ticket_frame td st s1 Hst) as (s1' & Es & Hs1' & Hc1').
  rewrite Es in Egen. cbn [snd] in Egen.
  rewrite (bind_ret _ _ _ _ _ Es), (bind_ret _ _ _ _ _ Egen).
  destruct (if_truthy_store_show k (st_success "Test cases generated successfully!") r s2)
    as (s3 & -> & H3 & Hc3).
  cbn [fst snd]. rewrite H3, Hc3.
  destruct (generate_test_cases_frame td (openai_api_key cfg) (ai_model cfg) s1')
    as (r' & s' & E' & Hg & Hcg & _). rewrite Egen in E'. injection E' as <- <-.
  destruct (get_ticket_details_frame jira k s0) as (r1 & s1'' & E1 & Hg1 & Hcg1 & _).
  rewrite Eg in E1. injection E1 as <- <-.
  destruct (connect_to_jira_frame (jira_url cfg) (jira_email cfg) (jira_api_token cfg) s)
    as (r0 & s0' & E0 & Hg0 & _ & Hcg0).
  rewrite Ec in E0. injection E0 as <- <-.
  rewrite Hg, Hs1', Hg1, Hg0, Hcg, Hc1', Hcg1, Hcg0. auto.
Qed.

(** Whatever path the button for a tracker ticket takes, it never raises;
    either [generate_test_cases] is not called and the store stays as it
    was, or it is called once and its result decides what is stored. *)
Lemma tab3_jira_any (cfg : sidebar) (k : string) (s : State) :
  fst (tab3_jira cfg k s) = Ret tt /\
  ((gen_calls (snd (tab3_jira cfg k s)) = gen_calls s /\
    generated_test_cases (snd (tab3_jira cfg k s)) = generated_test_cases s) \/
   (exists td r s1 s2,
       generate_test_cases td (openai_api_key cfg) (ai_model cfg) s1 = (Ret r, s2) /\
       gen_calls (snd (tab3_jira cfg k s)) = gen_calls s ++ [td] /\
       generated_test_cases (snd (tab3_jira cfg k s)) =
         stored k r (generated_test_cases s))).
Proof.
  destruct (truthy k) eqn:Hk;
    [|unfold tab3_jira; rewrite Hk; split; [|left; split]; reflexivity].
  destruct (truthy (openai_api_key cfg)) eqn:Hkey;
    [|unfold tab3_jira; rewrite Hk, Hkey; split; [|left; split]; reflexivity].
  destruct (all_truthy [jira_url cfg; jira_email cfg; jira_api_token cfg]) eqn:Hall;
    [|unfold tab3_jira; rewrite Hk, Hkey, Hall; split; [|left; split]; reflexivity].
  destruct (connect_to_jira_frame (jira_url cfg) (jira_email cfg) (jira_api_token cfg) s)
    as (r0 & s0 & Ec & Hg0 & _ & Hc0).
  destruct r0 as [jira|].
  2: { unfold tab3_jira. rewrite Hk, Hkey, Hall. cbn [negb].
       rewrite (bind_ret _ _ _ _ _ Ec). split; [reflexivity|]. left. split; assumption. }
  destruct (get_ticket_details_frame jira k s0) as (r1 & s1 & Eg & Hg1 & Hc1 & _).
  destruct r1 as [td|].
  2: { unfold tab3_jira. rewrite Hk, Hkey, Hall. cbn [negb].
       rewrite (bind_ret _ _ _ _ _ Ec), (bind_ret _ _ _ _ _ Eg).
       split; [reflexivity|]. left. cbn [snd ret]. split; congruence. }
  destruct (generate_test_cases_frame td (openai_api_key cfg) (ai_model cfg)
              (snd (show_ticket td s1))) as (r & s2 & Egen & _).
  destruct (tab3_jira_store cfg k s s0 s1 s2 jira td r Hk Hkey Hall Ec Eg Egen)
    as (Hret & Hst & Hcalls).
  split; [exact Hret|]. right. exists td, r, (snd (show_ticket td s1)), s2. auto.
Qed.

Lemma tab4_manual_store (cfg : sidebar) (batch_descriptions : string) (s : State) :
  nonempty_values (generated_test_cases s) ->
  nonempty_values (generated_test_cases (snd (tab4_manual cfg batch_descriptions s))).
Proof.
  intros H. unfold tab4_manual.
  destruct (truthy (openai_api_key cfg)); cbn [negb]; [|exact H].
  destruct (truthy batch_descriptions); cbn [negb]; [|exact H].
  rewrite tab4_manual_loop_eq. cbn [snd generated_test_cases add_ui].
  now apply manual_loop_store.
Qed.

Lemma tab4_jira_store (cfg : sidebar) (keys : list string) (s : State) :
  nonempty_values (generated_test_cases s) ->
  nonempty_values (generated_test_cases (snd (tab4_jira cfg keys s))).
Proof.
  intros H. unfold tab4_jira. destruct keys as [|k0 keys0]; [exact H|].
  destruct (truthy (openai_api_key cfg)); cbn [negb]; [|exact H].
  destruct (all_truthy _); cbn [negb]; [|exact H].
  destruct (connect_to_jira_frame (jira_url cfg) (jira_email cfg) (jira_api_token cfg) s)
    as (r0 & s0 & Ec & Hg0 & _).
  rewrite (bind_ret _ _ _ _ _ Ec).
  destruct r0 as [jira|]; [|cbn [snd ret]; now rewrite Hg0].
  rewrite tab4_jira_loop_eq.
  match goal with |- context [show_summary ?l ?st] =>
    destruct (show_summary_frame l st) as (s' & -> & Hs' & _) end.
  cbn [snd]. rewrite Hs'. cbn [generated_test_cases add_ui].
  apply jira_loop_store. cbn [generated_test_cases add_ui]. now rewrite Hg0.
Qed.

Lemma handler_store (a : action) (s : State) :
  nonempty_values (generated_test_cases s) ->
  nonempty_values (generated_test_cases (snd (handler a s))).
Proof.
  intros H. destruct a as [cfg t | cfg k | cfg b | cfg l]; cbn [handler].
  - destruct (truthy (openai_api_key cfg)) eqn:Hk.
    + destruct (generate_test_cases_frame t (openai_api_key cfg) (ai_model cfg) s)
        as (r & s1 & E & _).
      destruct (tab3_manual_store cfg t s s1 r Hk E) as [_ ->]. now apply stored_nonempty.
    + now rewrite tab3_manual_no_key.
  - destruct (tab3_jira_any cfg k s) as (_ & [[_ ->] | (td & r & s1 & s2 & _ & _ & ->)]);
      [exact H | now apply stored_nonempty].
  - now apply tab4_manual_store.
  - now apply tab4_jira_store.
Qed.

Lemma tab4_jira_body_store (cfg : sidebar) (jira : JIRA) (n i : nat) (k : string)
  (s s' s'' : State) (td : ticket_details) (r : option string) :
  get_ticket_details jira k (add_ui (status_text (processing_line k i n)) s)
    = (Ret (Some td), s') ->
  generate_test_cases td (openai_api_key cfg) (ai_model cfg) s' = (Ret r, s'') ->
  generated_test_cases (snd (tab4_jira_body cfg jira n i k s)) =
    stored k r (generated_test_cases s).
Proof.
  intros Eg Egen. rewrite tab4_jira_body_eq, Eg, Egen.
  cbn [snd generated_test_cases add_ui set_store]. f_equal.
  destruct (generate_test_cases_frame td (openai_api_key cfg) (ai_model cfg) s')
    as (r' & t' & E' & Hg & _). rewrite Egen in E'. injection E' as <- <-.
  destruct (get_ticket_details_frame jira k (add_ui (status_text (processing_line k i n)) s))
    as (r1 & t1 & E1 & Hg1 & _). rewrite Eg in E1. injection E1 as <- <-.
  now rewrite Hg, Hg1.
Qed.

Lemma tab4_jira_body_skip (cfg : sidebar) (jira : JIRA) (n i : nat) (k : string)
  (s s' : State) :
  get_ticket_details jira k (add_ui (status_text (processing_line k i n)) s)
    = (Ret None, s') ->
  generated_test_cases (snd (tab4_jira_body cfg jira n i k s)) = generated_test_cases s.
Proof.
  intros Eg. rewrite tab4_jira_body_eq, Eg. cbn [snd generated_test_cases add_ui].
  destruct (get_ticket_details_frame jira k (add_ui (status_text (processing_line k i n)) s))
    as (r1 & t1 & E1 & Hg1 & _). rewrite Eg in E1. injection E1 as <- <-.
  exact Hg1.
Qed.

Lemma tab4_manual_body_store (cfg : sidebar) (n i : nat) (line : string)
  (t : ticket_details) (s s' : State) (r : option string) :
  parse_line line = Some t ->
  generate_test_cases t (openai_api_key cfg) (ai_model cfg)
    (add_ui (status_text (processing_line (key t) i n)) s) = (Ret r, s') ->
  generated_test_cases (snd (tab4_manual_body cfg n i line s)) =
    stored (key t) r (generated_test_cases s).
Proof.
  intros Hp Egen. rewrite tab4_manual_body_eq, Hp, Egen.
  cbn [snd generated_test_cases add_ui set_store]. f_equal.
  destruct (generate_test_cases_frame t (openai_api_key cfg) (ai_model cfg)
              (add_ui (status_text (processing_line (key t) i n)) s))
    as (r' & t' & E' & Hg & _). rewrite Egen in E'. injection E' as <- <-.
  exact Hg.
Qed.

Lemma generate_test_cases_ui (td : ticket_details) (api model : string) (s : State) :
  api <> "" ->
  (forall e w,
      OpenAI_new api (world s) = (Raise e, w) ->
      exists s',
        generate_test_cases td api model s = (Ret None, s') /\
        ui s' = ui s ++ [st_error ("Error initializing OpenAI client: " +:+ e)]) /\
  (forall w e w',
      OpenAI_new api (world s) = (Ret tt, w) ->
      chat_completions_create api model system_content (prompt td) w = (Raise e, w') ->
      exists s',
        generate_test_cases td api model s = (Ret None, s') /\
        ui s' = ui s ++ [st_error ("Error generating test cases: " +:+ e)]) /\
  (forall w c w',
      OpenAI_new api (world s) = (Ret tt, w) ->
      chat_completions_create api model system_content (prompt td) w = (Ret c, w') ->
      exists s', generate_test_cases td api model s = (Ret c, s') /\ ui s' = ui s).
Proof.
  intros Hk. apply truthy_spec in Hk. split; [|split].
  - intros e w E. rewrite generate_test_cases_eq, Hk, E. eexists. split; reflexivity.
  - intros w e w' E1 E2. rewrite generate_test_cases_eq, Hk, E1, E2.
    eexists. split; reflexivity.
  - intros w c w' E1 E2. rewrite generate_test_cases_eq, Hk, E1, E2.
    eexists. split; reflexivity.
Qed.

Lemma tab4_jira_body_fetch_error (cfg : sidebar) (jira : JIRA) (n i : nat) (k : string)
  (s : State) (e : exn) :
  (exists w, jira_issue jira k (world s) = (Raise e, w)) \/
  (exists issue w, jira_issue jira k (world s) = (Ret issue, w) /\
                   details_of_issue issue = Raise e) ->
  ui (snd (tab4_jira_body cfg jira n i k s)) =
    ui s ++ [status_text (processing_line k i n);
             st_error ("Error fetching ticket details: " +:+ e);
             progress (i + 1) n] /\
  generated_test_cases (snd (tab4_jira_body cfg jira n i k s)) = generated_test_cases s.
Proof.
  intros H. rewrite tab4_jira_body_eq, get_ticket_details_eq. cbn [world add_ui].
  destruct H as [[w H] | (issue & w & H & Hd)]; rewrite H; [|rewrite Hd];
    cbn [snd ui generated_test_cases add_ui set_world];
    rewrite <- !app_assoc; split; reflexivity.
Qed.

Lemma tab4_jira_body_ui (cfg : sidebar) (jira : JIRA) (n i : nat) (k : string)
  (s s' s'' : State) (td : ticket_details) (r : option string) :
  get_ticket_details jira k (add_ui (status_text (processing_line k i n)) s)
    = (Ret (Some td), s') ->
  generate_test_cases td (openai_api_key cfg) (ai_model cfg) s' = (Ret r, s'') ->
  ui s' = ui s ++ [status_text (processing_line k i n)] /\
  ui (snd (tab4_jira_body cfg jira n i k s)) = ui s'' ++ [progress (i + 1) n].
Proof.
  intros Eg Egen. split.
  - rewrite get_ticket_details_eq in Eg.
    destruct (jira_issue jira k _) as [[issue|e] w]; [|discriminate].
    destruct (details_of_issue issue); [|discriminate].
    injection Eg as _ <-. reflexivity.
  - now rewrite tab4_jira_body_eq, Eg, Egen.
Qed.

Lemma tab4_manual_body_ui (cfg : sidebar) (n i : nat) (line : string)
  (t : ticket_details) (s s' : State) (r : option string) :
  parse_line line = Some t ->
  generate_test_cases t (openai_api_key cfg) (ai_model cfg)
    (add_ui (status_text (processing_line (key t) i n)) s) = (Ret r, s') ->
  ui (snd (tab4_manual_body cfg n i line s)) = ui s' ++ [progress (i + 1) n].
Proof. intros Hp Egen. now rewrite tab4_manual_body_eq, Hp, Egen. Qed.

(** C4, as the code has it.  Neither batch loop is ever left by an
    exception, whatever the tracker and the completion endpoint do.  In the
    tracker loop every selected ticket is announced, in the order of the
    list; the ticket [k] that follows any run [pre] of tickets is processed
    in the state they leave, and the tickets after it from the state it
    leaves.  What a failure leaves behind is one error line, shown between
    the status line and the progress mark of the ticket it belongs to: the
    fetch that raises, the ticket that cannot be normalized, the client
    that cannot be made and the request that raises each show theirs, and
    the store stays as it was.  A completion that is empty or without
    content leaves no line at all, and the store as it was.  A ticket whose
    generation answers a non-empty text is stored under its key.  The
    manual loop goes on, shows and stores in the same way. *)
Theorem batch_continues_after_failure (cfg : sidebar) (jira : JIRA)
  (pre post : list string) (k : string) (s : State) :
  let api := openai_api_key cfg in
  let model := ai_model cfg in
  let keys := pre ++ k :: post in
  let n := length keys in
  let body := tab4_jira_body cfg jira n in
  let s1 := snd (for_enumerate body 0 pre s) in
  let s1' := add_ui (status_text (processing_line k (length pre) n)) s1 in
  let s2 := snd (body (length pre) k s1) in
  fst (tab4_jira_loop cfg jira keys s) = Ret tt /\
  status_lines (ui (snd (tab4_jira_loop cfg jira keys s))) =
    status_lines (ui s) ++ imap (fun i key => processing_line key i n) keys ++
    ["All tickets processed!"] /\
  for_enumerate body 0 keys s = for_enumerate body (S (length pre)) post s2 /\
  (forall e w,
      jira_issue jira k (world s1) = (Raise e, w) ->
      get_ticket_details jira k s1' =
        (Ret None,
         add_ui (st_error ("Error fetching ticket details: " +:+ e)) (set_world w s1')) /\
      generated_test_cases s2 = generated_test_cases s1) /\
  (forall s', get_ticket_details jira k s1' = (Ret None, s') ->
              generated_test_cases s2 = generated_test_cases s1) /\
  (forall td s' r s'',
      get_ticket_details jira k s1' = (Ret (Some td), s') ->
      generate_test_cases td api model s' = (Ret r, s'') ->
      generated_test_cases s2 = stored k r (generated_test_cases s1)) /\
  (forall tc m, tc <> "" -> stored k (Some tc) m = <[k:=tc]> m) /\
  (forall m, stored k None m = m) /\
  (forall text s0, fst (tab4_manual_loop cfg text s0) = Ret tt) /\
  (forall m lpre line lpost i s0,
      for_enumerate (tab4_manual_body cfg m) i (lpre ++ line :: lpost) s0 =
      for_enumerate (tab4_manual_body cfg m) (S (i + length lpre)) lpost
        (snd (tab4_manual_body cfg m (i + length lpre) line
                (snd (for_enumerate (tab4_manual_body cfg m) i lpre s0))))) /\
  (forall m i line t s0 r s',
      parse_line line = Some t ->
      generate_test_cases t api model
        (add_ui (status_text (processing_line (key t) i m)) s0) = (Ret r, s') ->
      generated_test_cases (snd (tab4_manual_body cfg m i line s0)) =
        stored (key t) r (generated_test_cases s0)) /\
  (forall e,
      (exists w, jira_issue jira k (world s1) = (Raise e, w)) \/
      (exists issue w, jira_issue jira k (world s1) = (Ret issue, w) /\
                       details_of_issue issue = Raise e) ->
      ui s2 = ui s1 ++ [status_text (processing_line k (length pre) n);
                        st_error ("Error fetching ticket details: " +:+ e);
                        progress (length pre + 1) n] /\
      generated_test_cases s2 = generated_test_cases s1) /\
  (forall td s' r s'',
      get_ticket_details jira k s1' = (Ret (Some td), s') ->
      generate_test_cases td api model s' = (Ret r, s'') ->
      ui s' = ui s1 ++ [status_text (processing_line k (length pre) n)] /\
      ui s2 = ui s'' ++ [progress (length pre + 1) n]) /\
  (forall m i line t s0 r s',
      parse_line line = Some t ->
      generate_test_cases t api model
        (add_ui (status_text (processing_line (key t) i m)) s0) = (Ret r, s') ->
      ui (snd (tab4_manual_body cfg m i line s0)) = ui s' ++ [progress (i + 1) m]) /\
  (forall td s0,
      api <> "" ->
      (forall e w,
          OpenAI_new api (world s0) = (Raise e, w) ->
          exists s',
            generate_test_cases td api model s0 = (Ret None, s') /\
            ui s' = ui s0 ++ [st_error ("Error initializing OpenAI client: " +:+ e)]) /\
      (forall w e w',
          OpenAI_new api (world s0) = (Ret tt, w) ->
          chat_completions_create api model system_content (prompt td) w = (Raise e, w') ->
          exists s',
            generate_test_cases td api model s0 = (Ret None, s') /\
            ui s' = ui s0 ++ [st_error ("Error generating test cases: " +:+ e)]) /\
      (forall w c w',
          OpenAI_new api (world s0) = (Ret tt, w) ->
          chat_completions_create api model system_content (prompt td) w = (Ret c, w') ->
          exists s', generate_test_cases td api model s0 = (Ret c, s') /\ ui s' = ui s0)) /\
  (forall k0 m, stored k0 (Some "") m = m).
Proof.
  intros api model keys n body s1 s1' s2.
  repeat apply conj.
  - rewrite tab4_jira_loop_eq.
    match goal with |- context [show_summary ?l ?st] =>
      destruct (show_summary_frame l st) as (t & -> & _) end.
    reflexivity.
  - rewrite tab4_jira_loop_eq.
    match goal with |- context [show_summary ?l ?st] =>
      destruct (show_summary_frame l st) as (t & -> & _ & Hs) end.
    cbn [snd]. rewrite Hs.
    cbn [ui add_ui]. rewrite !status_lines_app. cbn [status_lines flat_map].
    rewrite jira_loop_status. cbn [ui add_ui]. rewrite status_lines_app.
    cbn [status_lines flat_map]. rewrite !app_nil_r, <- !app_assoc. reflexivity.
  - unfold keys. rewrite for_enumerate_app by apply tab4_jira_body_ret.
    rewrite for_enumerate_step by apply tab4_jira_body_ret. reflexivity.
  - intros e w Hj.
    assert (E : get_ticket_details jira k s1' =
                (Ret None,
                 add_ui (st_error ("Error fetching ticket details: " +:+ e))
                        (set_world w s1'))).
    { rewrite get_ticket_details_eq. change (world s1') with (world s1). now rewrite Hj. }
    split; [exact E|]. eapply tab4_jira_body_skip, E.
  - intros s' E. eapply tab4_jira_body_skip, E.
  - intros td s' r s'' Eg Egen. eapply tab4_jira_body_store; eassumption.
  - intros tc m Htc. unfold stored. apply truthy_spec in Htc. now rewrite Htc.
  - reflexivity.
  - intros text s0. now rewrite tab4_manual_loop_eq.
  - intros m lpre line lpost i s0. rewrite for_enumerate_app by apply tab4_manual_body_ret.
    rewrite for_enumerate_step by apply tab4_manual_body_ret. reflexivity.
  - intros m i line t s0 r s' Hp Egen. eapply tab4_manual_body_store; eassumption.
  - intros e H. now apply tab4_jira_body_fetch_error.
  - intros td s' r s'' Eg Egen. eapply tab4_jira_body_ui; eassumption.
  - intros m i line t s0 r s' Hp Egen. eapply tab4_manual_body_ui; eassumption.
  - intros td s0 Hk. now apply generate_test_cases_ui.
  - reflexivity.
Qed.

(** C8.  A generation call succeeds when it hands back a non-empty text;
    it fails, answering [None], when the API key is empty, when the client
    cannot be made and when the request raises.  It never writes the store
    itself.  At each place that calls it (the two buttons of the third tab,
    the bodies of the two batch loops) the store afterwards is the store
    before with the text put under the ticket key when the call succeeded,
    and the very same store, earlier entry for that key included, when it
    did not. *)
Theorem store_written_on_success (cfg : sidebar) :
  let api := openai_api_key cfg in
  let model := ai_model cfg in
  (forall td s, exists r s',
      generate_test_cases td api model s = (Ret r, s') /\
      generated_test_cases s' = generated_test_cases s) /\
  (forall td s, api = "" -> fst (generate_test_cases td api model s) = Ret None) /\
  (forall td s e w,
      OpenAI_new api (world s) = (Raise e, w) ->
      fst (generate_test_cases td api model s) = Ret None) /\
  (forall td s w e w',
      OpenAI_new api (world s) = (Ret tt, w) ->
      chat_completions_create api model system_content (prompt td) w = (Raise e, w') ->
      fst (generate_test_cases td api model s) = Ret None) /\
  (forall td s w c w',
      api <> "" ->
      OpenAI_new api (world s) = (Ret tt, w) ->
      chat_completions_create api model system_content (prompt td) w = (Ret c, w') ->
      fst (generate_test_cases td api model s) = Ret c) /\
  (forall k tc m, tc <> "" -> stored k (Some tc) m = <[k:=tc]> m) /\
  (forall k m, stored k None m = m /\ stored k (Some "") m = m) /\
  (forall t s r s1,
      api <> "" ->
      generate_test_cases t api model s = (Ret r, s1) ->
      generated_test_cases (snd (tab3_manual cfg t s)) =
        stored (key t) r (generated_test_cases s)) /\
  (forall k s jira s0 td s1 r s2,
      k <> "" -> api <> "" ->
      all_truthy [jira_url cfg; jira_email cfg; jira_api_token cfg] = true ->
      connect_to_jira (jira_url cfg) (jira_email cfg) (jira_api_token cfg) s
        = (Ret (Some jira), s0) ->
      get_ticket_details jira k s0 = (Ret (Some td), s1) ->
      generate_test_cases td api model (snd (show_ticket td s1)) = (Ret r, s2) ->
      generated_test_cases (snd (tab3_jira cfg k s)) = stored k r (generated_test_cases s)) /\
  (forall n i line t s r s',
      parse_line line = Some t ->
      generate_test_cases t api model
        (add_ui (status_text (processing_line (key t) i n)) s) = (Ret r, s') ->
      generated_test_cases (snd (tab4_manual_body cfg n i line s)) =
        stored (key t) r (generated_test_cases s)) /\
  (forall jira n i k s td s' r s'',
      get_ticket_details jira k (add_ui (status_text (processing_line k i n)) s)
        = (Ret (Some td), s') ->
      generate_test_cases td api model s' = (Ret r, s'') ->
      generated_test_cases (snd (tab4_jira_body cfg jira n i k s)) =
        stored k r (generated_test_cases s)) /\
  (forall k k' r m, k' <> k -> stored k r m !! k' = m !! k') /\
  (forall t s, api = "" ->
      generated_test_cases (snd (tab3_manual cfg t s)) = generated_test_cases s) /\
  (forall k s,
      (gen_calls (snd (tab3_jira cfg k s)) = gen_calls s /\
       generated_test_cases (snd (tab3_jira cfg k s)) = generated_test_cases s) \/
      (exists td r s1 s2,
          generate_test_cases td api model s1 = (Ret r, s2) /\
          gen_calls (snd (tab3_jira cfg k s)) = gen_calls s ++ [td] /\
          generated_test_cases (snd (tab3_jira cfg k s)) =
            stored k r (generated_test_cases s))) /\
  (forall n i line s, parse_line line = None ->
      generated_test_cases (snd (tab4_manual_body cfg n i line s)) = generated_test_cases s) /\
  (forall jira n i k s s',
      get_ticket_details jira k (add_ui (status_text (processing_line k i n)) s)
        = (Ret None, s') ->
      generated_test_cases (snd (tab4_jira_body cfg jira n i k s)) = generated_test_cases s).
Proof.
  intros api model.
  split; [|split; [|split; [|split; [|split; [|split; [|split; [|split; [|split; [|split;
    [|split; [|split; [|split; [|split; [|split]]]]]]]]]]]]]].
  - intros td s. destruct (generate_test_cases_frame td api model s) as (r & s' & E & H & _).
    eauto.
  - intros td s ->. now rewrite generate_test_cases_eq.
  - intros td s e w E. rewrite generate_test_cases_eq, E. now destruct (truthy api).
  - intros td s w e w' E1 E2. rewrite generate_test_cases_eq, E1, E2. now destruct (truthy api).
  - intros td s w c w' Hk E1 E2. apply truthy_spec in Hk.
    now rewrite generate_test_cases_eq, Hk, E1, E2.
  - intros k tc m Htc. unfold stored. apply truthy_spec in Htc. now rewrite Htc.
  - intros k m. split; reflexivity.
  - intros t s r s1 Hk E. apply truthy_spec in Hk.
    now destruct (tab3_manual_store cfg t s s1 r Hk E).
  - intros k s jira s0 td s1 r s2 Hk Hkey Hall Ec Eg Egen.
    apply truthy_spec in Hk, Hkey.
    now destruct (tab3_jira_store cfg k s s0 s1 s2 jira td r Hk Hkey Hall Ec Eg Egen)
      as (_ & ? & _).
  - intros n i line t s r s' Hp Egen. eapply tab4_manual_body_store; eassumption.
  - intros jira n i k s td s' r s'' Eg Egen. eapply tab4_jira_body_store; eassumption.
  - intros k k' r m Hne.
    destruct (stored_cases k r m) as [(tc & _ & _ & ->) | [_ ->]]; [|reflexivity].
    now apply lookup_insert_ne.
  - intros t s Hk. rewrite tab3_manual_no_key; [reflexivity|]. unfold api in Hk. now rewrite Hk.
  - intros k s. apply tab3_jira_any.
  - intros n i line s Hp. now rewrite tab4_manual_body_eq, Hp.
  - intros jira n i k s s' Eg. eapply tab4_jira_body_skip, Eg.
Qed.

(** C10.  In every state a session can reach, each text kept in
    [generated_test_cases] is a non-empty string: all four places that
    write the store do so under [if test_cases:], so a completion that is
    the empty string stores nothing, as a failed call does. *)
Theorem stored_values_nonempty (s : State) :
  reachable s ->
  (forall k v, generated_test_cases s !! k = Some v -> v <> "") /\
  (forall cfg t w w',
      openai_api_key cfg <> "" ->
      OpenAI_new (openai_api_key cfg) (world s) = (Ret tt, w) ->
      chat_completions_create (openai_api_key cfg) (ai_model cfg) system_content
        (prompt t) w = (Ret (Some ""), w') ->
      generated_test_cases (snd (tab3_manual cfg t s)) = generated_test_cases s) /\
  (forall cfg n i line t w w',
      openai_api_key cfg <> "" ->
      parse_line line = Some t ->
      OpenAI_new (openai_api_key cfg) (world s) = (Ret tt, w) ->
      chat_completions_create (openai_api_key cfg) (ai_model cfg) system_content
        (prompt t) w = (Ret (Some ""), w') ->
      generated_test_cases (snd (tab4_manual_body cfg n i line s)) = generated_test_cases s).
Proof.
  intros Hr. split; [|split].
  - assert (H : nonempty_values (generated_test_cases s)).
    { induction Hr as [w | a s0 _ IH | s0 w _ IH].
      - apply map_Forall_empty.
      - now apply handler_store.
      - exact IH. }
    intros k v Hkv. exact (H k v Hkv).
  - intros cfg t w w' Hk E1 E2. apply truthy_spec in Hk.
    assert (E : generate_test_cases t (openai_api_key cfg) (ai_model cfg) s =
                (Ret (Some ""), set_world w' (add_call t s))).
    { now rewrite generate_test_cases_eq, Hk, E1, E2. }
    now destruct (tab3_manual_store cfg t s _ _ Hk E) as [_ ->].
  - intros cfg n i line t w w' Hk Hp E1 E2. apply truthy_spec in Hk.
    erewrite tab4_manual_body_store; [| exact Hp |].
    2: { rewrite generate_test_cases_eq, Hk. cbn [world add_ui]. rewrite E1, E2. reflexivity. }
    reflexivity.
Qed.

(** ** More of the normalizer, the table and the selection *)

Lemma probe_result (f : Fields) (names : list string) (acc : string) :
  probe f names acc = acc \/
  exists name,
    In name names /\ f_custom f name = CfStr (probe f names acc) /\
    mentions_accept (CfStr (probe f names acc)) = true.
Proof.
  induction names as [|n names IH]; [now left|].
  cbn [probe]. destruct (mentions_accept (f_custom f n)) eqn:E.
  - destruct (f_custom f n) as [|v| |] eqn:Ev; try discriminate E.
    right. exists n. split; [now left|]. split; [exact Ev | exact E].
  - destruct IH as [IH | (name & Hin & Hv & Hm)]; [now left|].
    right. exists name. split; [now right|]. split; assumption.
Qed.

(** X1.  The acceptance criteria of a ticket are never the empty string: they
    are the placeholder, or the very value of one of the six probed custom
    fields, a string that mentions "accept". *)
Theorem acceptance_criteria_origin (f : Fields) :
  acceptance_criteria_of f <> "" /\
  (acceptance_criteria_of f = "No acceptance criteria provided" \/
   exists name,
     In name custom_field_names /\
     f_custom f name = CfStr (acceptance_criteria_of f) /\
     contains "accept" (lower (acceptance_criteria_of f)) = true).
Proof.
  unfold acceptance_criteria_of.
  destruct (probe_result f custom_field_names "No acceptance criteria provided")
    as [-> | (name & Hin & Hv & Hm)].
  - split; [discriminate | now left].
  - cbn [mentions_accept] in Hm. apply andb_true_iff in Hm as [Ht Hc].
    split; [now apply truthy_spec|]. right. exists name. auto.
Qed.

Lemma split_parts_no_sep (sep : ascii) (s p : string) :
  In p (split sep s) -> contains (String sep "") p = false.
Proof.
  revert p. induction s as [|c s IH]; intros p.
  - intros [<- | []]. reflexivity.
  - cbn [split]. destruct (Ascii.eqb c sep) eqn:E.
    + intros [<- | H]; [reflexivity | now apply IH].
    + destruct (split sep s) as [|q qs] eqn:Es; [now apply split_not_nil in Es|].
      intros [<- | H]; [|apply IH; now right].
      cbn [contains starts_with]. rewrite Ascii.eqb_sym, E. cbn [andb orb].
      apply IH. now left.
Qed.

Lemma strip_substring (p : string) : substring_of (strip p) p.
Proof. destruct (strip_spec p) as (a & b & H & _). now exists a, b. Qed.

Lemma strip_no_sep (x p : string) :
  contains x p = false -> contains x (strip p) = false.
Proof.
  intros H. apply not_true_is_false. intros Hc. apply contains_spec in Hc.
  assert (Hp : contains x p = true)
    by (apply contains_spec; eapply substring_of_trans; [exact Hc | apply strip_substring]).
  congruence.
Qed.

(** X2.  A ticket made from a line of the manual batch has a key, a summary
    and a description without a bar and without white space at either end;
    it is always a "Story" of priority "Medium", without components, so its
    prompt says "No components". *)
Theorem parsed_ticket_clean (line : string) (t : ticket_details) :
  parse_line line = Some t ->
  (contains "|" (key t) = false /\ trimmed (key t)) /\
  (contains "|" (summary t) = false /\ trimmed (summary t)) /\
  (contains "|" (description t) = false /\ trimmed (description t)) /\
  issue_type t = "Story" /\ priority t = "Medium" /\
  acceptance_criteria t = "Not provided" /\
  components_str t = "No components".
Proof.
  unfold parse_line. destruct (split "|" line) as [|p0 [|p1 [|p2 rest]]] eqn:E;
    try discriminate.
  intros [= <-]. cbn [key summary description issue_type priority acceptance_criteria
                      manual_ticket_of].
  assert (Hin : forall p, In p [p0; p1; p2] -> contains "|" p = false).
  { intros p Hp. apply (split_parts_no_sep "|" line). rewrite E.
    cbn [In] in *. destruct Hp as [<- | [<- | [<- | []]]]; auto. }
  assert (Ht : forall p, trimmed (strip p)).
  { intros p. now destruct (strip_spec p) as (a & b & _ & _ & _ & H). }
  repeat split; try apply Ht; try (apply strip_no_sep, Hin; cbn [In]; auto).
Qed.

(** X3.  The table of fetched tickets and the normalizer read a ticket alike:
    whenever the normalizer builds its dictionary the table has a row for
    the ticket, with the same key, summary, type, status and priority
    (so "Not set" in the one is "Not set" in the other). *)
Theorem table_agrees_with_details (issue : Issue) (d : ticket_details) :
  details_of_issue issue = Ret d ->
  exists r,
    row_of_issue issue = Ret r /\
    Key r = key d /\ Summary r = summary d /\ Type_ r = issue_type d /\
    Some (Status r) = status d /\ Priority r = priority d.
Proof.
  unfold details_of_issue, row_of_issue, obind. intros H.
  destruct (getattr_required "key" (i_key issue)); [|discriminate].
  destruct (getattr_required "summary" (f_summary (i_fields issue))); [|discriminate].
  destruct (description_of (i_fields issue)); [|discriminate].
  destruct (name_of "status" (f_status (i_fields issue))); [|discriminate].
  destruct (name_of "issuetype" (f_issuetype (i_fields issue))); [|discriminate].
  destruct (components_of (i_fields issue)); [|discriminate].
  destruct (getattr_required "created" (f_created (i_fields issue))); [|discriminate].
  destruct (getattr_required "updated" (f_updated (i_fields issue))); [|discriminate].
  injection H as <-. eexists. split; [reflexivity|]. repeat split.
Qed.

Lemma row_of_issue_raises (issue : Issue) :
  (exists e, row_of_issue issue = Raise e) <->
  (i_key issue = None \/ f_summary (i_fields issue) = None \/
   (forall n, f_issuetype (i_fields issue) <> Val n) \/
   (forall n, f_status (i_fields issue) <> Val n)).
Proof.
  unfold row_of_issue, obind, getattr_required, name_of.
  destruct (i_key issue) as [k|]; [|split; eauto].
  destruct (f_summary (i_fields issue)) as [sm|]; [|split; eauto].
  destruct (f_issuetype (i_fields issue)) as [| |ty];
    [split; [intros _; right; right; left; discriminate | eauto]
    |split; [intros _; right; right; left; discriminate | eauto] |].
  destruct (f_status (i_fields issue)) as [| |st];
    [split; [intros _; right; right; right; discriminate | eauto]
    |split; [intros _; right; right; right; discriminate | eauto] |].
  split; [intros [e H]; discriminate|].
  intros [H | [H | [H | H]]]; try discriminate; exfalso; eapply H; reflexivity.
Qed.

Lemma ticket_data_from_spec (l : list Issue) :
  forall acc,
    (forall rows, ticket_data_from l acc = Ret rows ->
       exists new, rows = acc ++ new /\
                   Forall2 (fun issue r => row_of_issue issue = Ret r) l new) /\
    ((exists e, ticket_data_from l acc = Raise e) <->
     exists issue e, In issue l /\ row_of_issue issue = Raise e).
Proof.
  induction l as [|issue l IH]; intros acc.
  - split.
    + intros rows [= <-]. exists []. split; [now rewrite app_nil_r | constructor].
    + split; [intros [e H]; discriminate | intros (i & e & [] & _)].
  - cbn [ticket_data_from]. unfold obind.
    destruct (row_of_issue issue) as [r|e] eqn:Er.
    + destruct (IH (acc ++ [r])) as [IH1 IH2]. split.
      * intros rows H. destruct (IH1 rows H) as (new & -> & HF).
        exists (r :: new). split; [now rewrite <- app_assoc | now constructor].
      * rewrite IH2. split.
        -- intros (i & e & Hi & He). exists i, e. split; [now right | exact He].
        -- intros (i & e & [<- | Hi] & He); [congruence | eauto].
    + split; [discriminate|]. split; [|eauto].
      intros _. exists issue, e. split; [now left | exact Er].
Qed.

(** X4.  The table has one row per fetched ticket, in the order of the list;
    it cannot be built, and the page raises, exactly when some fetched
    ticket lacks its key, its summary, its issue type or its status. *)
Theorem ticket_data_rows (fetched_tickets : list Issue) :
  (forall rows,
      ticket_data fetched_tickets = Ret rows ->
      length rows = length fetched_tickets /\
      Forall2 (fun issue r => row_of_issue issue = Ret r) fetched_tickets rows) /\
  ((exists e, ticket_data fetched_tickets = Raise e) <->
   exists issue,
     In issue fetched_tickets /\
     (i_key issue = None \/ f_summary (i_fields issue) = None \/
      (forall n, f_issuetype (i_fields issue) <> Val n) \/
      (forall n, f_status (i_fields issue) <> Val n))).
Proof.
  unfold ticket_data. destruct (ticket_data_from_spec fetched_tickets []) as [H1 H2].
  split.
  - intros rows H. destruct (H1 rows H) as (new & -> & HF). cbn [app].
    split; [symmetry; eapply Forall2_length, HF | exact HF].
  - rewrite H2. split.
    + intros (issue & e & Hin & He). exists issue. split; [exact Hin|].
      apply row_of_issue_raises. eauto.
    + intros (issue & Hin & H). apply row_of_issue_raises in H as [e He]. eauto.
Qed.

Lemma dict_set_keys (k v : string) (d : list (string * string)) (x : string) :
  In x (map fst (dict_set k v d)) <-> x = k \/ In x (map fst d).
Proof.
  induction d as [|[k' v'] d IH]; cbn [dict_set map fst In].
  - split; [intros [<- | []]; now left | intros [-> | []]; now left].
  - destruct (String.eqb_spec k k') as [<- | Hne]; cbn [map fst In].
    + split; [intros [<- | H]; auto | intros [-> | [-> | H]]; auto].
    + rewrite IH. split; [intros [H | [H | H]]; auto | intros [H | [H | H]]; auto].
Qed.

Lemma dict_set_nodup (k v : string) (d : list (string * string)) :
  List.NoDup (map fst d) -> List.NoDup (map fst (dict_set k v d)).
Proof.
  induction d as [|[k' v'] d IH]; cbn [dict_set map fst]; intros H.
  - constructor; [intros [] | constructor].
  - apply List.NoDup_cons_iff in H as [Hk' Hd].
    destruct (String.eqb_spec k k') as [<- | Hne]; cbn [map fst].
    + now constructor.
    + constructor; [|now apply IH].
      rewrite dict_set_keys. intros [-> | H]; [now apply Hne | now apply Hk'].
Qed.

Lemma ticket_options_from_spec (l : list Issue) :
  forall d d',
    ticket_options_from l d = Ret d' ->
    (List.NoDup (map fst d) -> List.NoDup (map fst d')) /\
    (forall x, In x (map fst d') <->
               In x (map fst d) \/ exists issue, In issue l /\ i_key issue = Some x).
Proof.
  induction l as [|issue l IH]; intros d d'; cbn [ticket_options_from].
  - intros [= <-]. split; [exact id|]. intros x. split; [now left|].
    intros [H | (i & [] & _)]. exact H.
  - unfold obind, getattr_required.
    destruct (i_key issue) as [k|] eqn:Ek; [|discriminate].
    destruct (f_summary (i_fields issue)) as [sm|]; [|discriminate].
    intros H. destruct (IH _ _ H) as [IHn IHk]. split.
    + intros Hd. now apply IHn, dict_set_nodup.
    + intros x. rewrite IHk, dict_set_keys. split.
      * intros [[-> | Hx] | (i & Hi & Hx)]; [right | now left | right].
        -- exists issue. split; [now left | exact Ek].
        -- exists i. split; [now right | exact Hx].
      * intros [Hx | (i & [<- | Hi] & Hx)]; [left; now right | | right; eauto].
        left. left. congruence.
Qed.

Lemma nodup_map_filter {A B} (f : A -> B) (p : A -> bool) (l : list A) :
  List.NoDup (map f l) -> List.NoDup (map f (List.filter p l)).
Proof.
  induction l as [|a l IH]; cbn [map List.filter]; intros H; [constructor|].
  apply List.NoDup_cons_iff in H as [Ha Hl].
  destruct (p a); cbn [map]; [|now apply IH].
  constructor; [|now apply IH].
  intros Hin. apply Ha. apply in_map_iff in Hin as (b & Hb & Hin).
  apply List.filter_In in Hin as [Hin _]. apply in_map_iff. eauto.
Qed.

(** X5.  The tickets selected for the tracker batch are keys of fetched
    tickets, none of them twice even when the fetched list names a ticket
    twice; "Select All" selects the key of every fetched ticket, and
    without it exactly the ticked ones. *)
Theorem selected_tickets_distinct (fetched_tickets : list Issue)
  (options : list (string * string)) (select_all : bool) (checked : string -> bool) :
  ticket_options fetched_tickets = Ret options ->
  List.NoDup (selected_tickets select_all checked options) /\
  (forall k, In k (selected_tickets select_all checked options) ->
             exists issue, In issue fetched_tickets /\ i_key issue = Some k) /\
  (forall issue k, In issue fetched_tickets -> i_key issue = Some k ->
                   (In k (selected_tickets true checked options)) /\
                   (In k (selected_tickets false checked options) <-> checked k = true)).
Proof.
  unfold ticket_options. intros H.
  destruct (ticket_options_from_spec _ _ _ H) as [Hn Hk].
  assert (Hnd : List.NoDup (map fst options)) by (apply Hn; constructor).
  assert (Hkeys : forall x, In x (map fst options) <->
                            exists issue, In issue fetched_tickets /\ i_key issue = Some x).
  { intros x. rewrite Hk. cbn [map In]. split; [intros [[] | Hx]; exact Hx | now right]. }
  assert (Hf : forall k, In k (map fst (List.filter (fun kv => checked (fst kv)) options)) <->
                         In k (map fst options) /\ checked k = true).
  { intros k. rewrite !in_map_iff. split.
    - intros ([k' v] & <- & Hin). apply List.filter_In in Hin as [Hin Hc].
      split; [exists (k', v); auto | exact Hc].
    - intros [([k' v] & <- & Hin) Hc]. exists (k', v). split; [reflexivity|].
      apply List.filter_In. auto. }
  split; [|split].
  - unfold selected_tickets. destruct select_all; [exact Hnd | now apply nodup_map_filter].
  - intros k. unfold selected_tickets. destruct select_all.
    + apply Hkeys.
    + intros Hin. apply Hf in Hin as [Hin _]. now apply Hkeys.
  - intros issue k Hin Hkey. cbn [selected_tickets].
    assert (Hk' : In k (map fst options)) by (apply Hkeys; eauto).
    split; [exact Hk'|]. rewrite Hf. split; [now intros [_ Hc] | now split].
Qed.

(** ** The calls of the two services, one by one *)

(** X6.  [connect_to_jira] never raises and never touches the session store.
    It answers a client only when the package is there and the three
    fields are filled in, the client being made from exactly these three,
    and then shows nothing; it answers [None] with one error shown
    otherwise, and does not call the tracker at all when the package or a
    field is missing. *)
Theorem connect_to_jira_result (url email token : string) (s : State) :
  let r := connect_to_jira url email token s in
  (exists o, fst r = Ret o) /\
  generated_test_cases (snd r) = generated_test_cases s /\
  (forall j, fst r = Ret (Some j) ->
             JIRA_AVAILABLE = true /\ url <> "" /\ email <> "" /\ token <> "" /\
             j = {| server := url; basic_auth := (email, token) |} /\
             ui (snd r) = ui s /\ fst (JIRA_new j (world s)) = Ret tt) /\
  (fst r = Ret None -> exists m, ui (snd r) = ui s ++ [st_error m]) /\
  (JIRA_AVAILABLE = false \/ url = "" \/ email = "" \/ token = "" ->
   fst r = Ret None /\ world (snd r) = world s).
Proof.
  intros r. subst r. unfold connect_to_jira.
  destruct JIRA_AVAILABLE; cbn [negb].
  2: { repeat split; eauto; try discriminate. }
  destruct (truthy url) eqn:Hu; cbn [negb orb].
  2: { repeat split; eauto; try discriminate. }
  destruct (truthy email) eqn:He; cbn [negb orb].
  2: { repeat split; eauto; try discriminate. }
  destruct (truthy token) eqn:Ht; cbn [negb orb].
  2: { repeat split; eauto; try discriminate. }
  apply truthy_spec in Hu, He, Ht.
  unfold try_except, bind, call, show, ret.
  destruct (JIRA_new _ (world s)) as [[[]|e] w] eqn:E; cbn [fst snd].
  - split; [eauto|]. split; [reflexivity|]. split; [|split].
    + intros j [= <-]. rewrite E. repeat split; auto.
    + discriminate.
    + intros [H | [H | [H | H]]]; congruence.
  - split; [eauto|]. split; [reflexivity|]. split; [|split].
    + discriminate.
    + intros _. eexists. reflexivity.
    + intros [H | [H | [H | H]]]; congruence.
Qed.

(** X7.  [get_ticket_details] never raises and leaves the session store and the
    log of generations alone.  When it answers a dictionary it has shown
    nothing; when it answers [None] it has shown exactly one error, which
    carries the text of the exception. *)
Theorem get_ticket_details_reports (jira : JIRA) (k : string) (s : State) :
  let r := get_ticket_details jira k s in
  (exists o, fst r = Ret o) /\
  generated_test_cases (snd r) = generated_test_cases s /\
  gen_calls (snd r) = gen_calls s /\
  (forall d, fst r = Ret (Some d) -> ui (snd r) = ui s) /\
  (fst r = Ret None ->
   exists e, ui (snd r) = ui s ++ [st_error ("Error fetching ticket details: " +:+ e)]).
Proof.
  intros r. subst r. rewrite get_ticket_details_eq.
  destruct (jira_issue jira k (world s)) as [[issue|e] w].
  - destruct (details_of_issue issue) as [d|e]; cbn [fst snd];
      repeat split; eauto; try discriminate.
  - cbn [fst snd]. repeat split; eauto; try discriminate.
Qed.

(** X8.  [generate_test_cases] never raises and logs its ticket once.  A text
    handed back comes with no message.  [None] comes with exactly one
    error, except when the endpoint itself answered without content, which
    is passed on in silence.  Without an API key the services are not
    called. *)
Theorem generate_test_cases_reports (td : ticket_details) (api model : string) (s : State) :
  let r := generate_test_cases td api model s in
  (exists o, fst r = Ret o) /\
  gen_calls (snd r) = gen_calls s ++ [td] /\
  (forall tc, fst r = Ret (Some tc) -> ui (snd r) = ui s) /\
  (fst r = Ret None ->
   (exists m, ui (snd r) = ui s ++ [st_error m]) \/
   (ui (snd r) = ui s /\
    exists w w', OpenAI_new api (world s) = (Ret tt, w) /\
                 chat_completions_create api model system_content (prompt td) w
                 = (Ret None, w'))) /\
  (api = "" -> fst r = Ret None /\ world (snd r) = world s).
Proof.
  intros r. subst r. rewrite generate_test_cases_eq.
  destruct (truthy api) eqn:Hk.
  - apply truthy_spec in Hk.
    destruct (OpenAI_new api (world s)) as [[[]|e] w] eqn:E1.
    + destruct (chat_completions_create api model system_content (prompt td) w)
        as [[[tc|]|e] w'] eqn:E2; cbn [fst snd].
      * repeat split; eauto; try discriminate; congruence.
      * split; [eauto|]. split; [reflexivity|]. split; [discriminate|].
        split; [|congruence]. intros _. right. split; [reflexivity | eauto].
      * split; [eauto|]. split; [reflexivity|]. split; [discriminate|].
        split; [|congruence]. intros _. left. eexists. reflexivity.
    + cbn [fst snd]. split; [eauto|]. split; [reflexivity|]. split; [discriminate|].
      split; [|congruence]. intros _. left. eexists. reflexivity.
  - cbn [fst snd]. split; [eauto|]. split; [reflexivity|]. split; [discriminate|].
    split; [|auto]. intros _. left. eexists. reflexivity.
Qed.

Lemma jql_cases (project_key : string) (status : option string) :
  (status = None \/ status = Some "" \/ status = Some "All" ->
   jql project_key status = "project = " +:+ project_key) /\
  (forall st, status = Some st -> st <> "" -> st <> "All" ->
              jql project_key status =
              ("project = " +:+ project_key) +:+ " AND status = '" +:+ st +:+ "'").
Proof.
  unfold jql. split.
  - intros [-> | [-> | ->]]; reflexivity.
  - intros st -> H1 H2. apply truthy_spec in H1. apply String.eqb_neq in H2.
    now rewrite H1, H2.
Qed.

(** X9.  [fetch_jira_tickets] never raises.  Without a project key it does not
    ask the tracker and answers the empty list with an error.  Otherwise it
    asks once, for the project alone when the status is [None], empty or
    "All" and with the status clause added otherwise; the list the tracker
    gives is handed back as it is, and an exception becomes the empty list
    with the error shown. *)
Theorem fetch_jira_tickets_result (jira : JIRA) (project_key : string)
  (status : option string) (max_results : nat) (s : State) :
  let r := fetch_jira_tickets jira project_key status max_results s in
  (project_key = "" ->
   r = (Ret [], add_ui (st_error "Please provide a Jira Project Key in the sidebar") s)) /\
  (project_key <> "" ->
   forall l w,
     jira_search_issues jira (jql project_key status) max_results (world s) = (Ret l, w) ->
     r = (Ret l, set_world w s)) /\
  (project_key <> "" ->
   forall e w,
     jira_search_issues jira (jql project_key status) max_results (world s) = (Raise e, w) ->
     r = (Ret [], add_ui (st_error ("Error fetching tickets: " +:+ e)) (set_world w s))) /\
  (exists l, fst r = Ret l) /\
  (status = None \/ status = Some "" \/ status = Some "All" ->
   jql project_key status = "project = " +:+ project_key) /\
  (forall st, status = Some st -> st <> "" -> st <> "All" ->
              jql project_key status =
              ("project = " +:+ project_key) +:+ " AND status = '" +:+ st +:+ "'") /\
  jql project_key (status_of_filter "All") = "project = " +:+ project_key.
Proof.
  intros r. subst r. unfold fetch_jira_tickets.
  destruct (jql_cases project_key status) as [Hj1 Hj2].
  split; [intros ->; reflexivity|].
  split; [|split; [|split; [|split; [exact Hj1 | split; [exact Hj2 | reflexivity]]]]].
  - intros Hk l w E. apply truthy_spec in Hk. rewrite Hk. cbn [negb].
    unfold try_except, call. now rewrite E.
  - intros Hk e w E. apply truthy_spec in Hk. rewrite Hk. cbn [negb].
    unfold try_except, call. now rewrite E.
  - destruct (truthy project_key); cbn [negb]; [|eauto].
    unfold try_except, call.
    destruct (jira_search_issues _ _ _ _) as [[l|e] w]; cbn [fst]; eauto.
Qed.

(** X10.  The comment written back is the fixed heading, an empty line and the
    generated text as it is.  [save_test_cases_to_jira] never raises and
    never touches the session store; it answers [True], showing nothing,
    exactly when the tracker took the comment, and [False] with the error
    shown when the tracker raised. *)
Theorem save_test_cases_reports (jira : JIRA) (ticket_key test_cases : string) (s : State) :
  let r := save_test_cases_to_jira jira ticket_key test_cases s in
  comment_of test_cases = ("*AI Generated Test Cases*" +:+ nl +:+ nl) +:+ test_cases /\
  (exists b, fst r = Ret b) /\
  generated_test_cases (snd r) = generated_test_cases s /\
  (fst r = Ret true <->
   fst (jira_add_comment jira ticket_key (comment_of test_cases) (world s)) = Ret tt) /\
  (fst r = Ret true -> ui (snd r) = ui s) /\
  (fst r = Ret false ->
   exists e, fst (jira_add_comment jira ticket_key (comment_of test_cases) (world s))
             = Raise e /\
             ui (snd r) = ui s ++ [st_error ("Error saving test cases to Jira: " +:+ e)]).
Proof.
  intros r. subst r. split.
  { unfold comment_of. cbn [fstring]. now rewrite append_empty_r, !append_assoc. }
  unfold save_test_cases_to_jira, try_except, bind, call, show, ret.
  destruct (jira_add_comment jira ticket_key (comment_of test_cases) (world s))
    as [[[]|e] w]; cbn [fst snd].
  - repeat split; eauto; discriminate.
  - split; [eauto|]. split; [reflexivity|]. split; [split; discriminate|].
    split; [discriminate|]. intros _. eauto.
Qed.

(** X11.  The button "Test Jira Connection" never raises, leaves the session
    store alone and shows exactly one message.  The message is a success
    only when the client was made and the tracker named the user, and it
    then carries that name; with the package or a field missing the
    tracker is not called. *)
Theorem test_jira_connection_one_message (cfg : sidebar) (s : State) :
  let r := test_jira_connection cfg s in
  let j := {| server := jira_url cfg;
              basic_auth := (jira_email cfg, jira_api_token cfg) |} in
  fst r = Ret tt /\
  generated_test_cases (snd r) = generated_test_cases s /\
  (exists ev,
      ui (snd r) = ui s ++ [ev] /\
      ((exists m, ev = st_error m) \/
       (exists w w' name,
           JIRA_new j (world s) = (Ret tt, w) /\ jira_myself j w = (Ret name, w') /\
           ev = st_success ("Connection successful! Connected as " +:+ name)))) /\
  (JIRA_AVAILABLE = false \/ jira_url cfg = "" \/ jira_email cfg = "" \/
   jira_api_token cfg = "" -> world (snd r) = world s).
Proof.
  intros r j. subst r j. unfold test_jira_connection.
  destruct JIRA_AVAILABLE; cbn [negb].
  2: { repeat split; eauto. }
  destruct (truthy (jira_url cfg)) eqn:Hu; cbn [negb orb].
  2: { repeat split; eauto. }
  destruct (truthy (jira_email cfg)) eqn:He; cbn [negb orb].
  2: { repeat split; eauto. }
  destruct (truthy (jira_api_token cfg)) eqn:Ht; cbn [negb orb].
  2: { repeat split; eauto. }
  apply truthy_spec in Hu, He, Ht.
  unfold try_except, bind, call, show, ret.
  destruct (JIRA_new _ (world s)) as [[[]|e] w] eqn:E1; cbn [world set_world].
  - destruct (jira_myself _ w) as [[name|e] w'] eqn:E2; cbn [fst snd].
    + split; [reflexivity|]. split; [reflexivity|]. split.
      * eexists. split; [reflexivity|]. right. exists w, w', name. auto.
      * intros [H | [H | [H | H]]]; congruence.
    + split; [reflexivity|]. split; [reflexivity|]. split.
      * eexists. split; [reflexivity|]. left. eauto.
      * intros [H | [H | [H | H]]]; congruence.
  - cbn [fst snd]. split; [reflexivity|]. split; [reflexivity|]. split.
    + eexists. split; [reflexivity|]. left. eauto.
    + intros [H | [H | [H | H]]]; congruence.
Qed.

(** ** The other buttons *)

Lemma tab2_fetch_path (cfg : sidebar) (status_filter : string) (max_results : nat)
  (fetched_tickets : list Issue) (s s0 s1 : State) (jira : JIRA) (tickets : list Issue) :
  JIRA_AVAILABLE = true ->
  all_truthy [jira_url cfg; jira_email cfg; jira_api_token cfg; jira_project cfg] = true ->
  connect_to_jira (jira_url cfg) (jira_email cfg) (jira_api_token cfg) s
    = (Ret (Some jira), s0) ->
  fetch_jira_tickets jira (jira_project cfg) (status_of_filter status_filter) max_results s0
    = (Ret tickets, s1) ->
  tab2_fetch cfg status_filter max_results fetched_tickets s =
  match tickets with
  | [] => (Ret (fetched_tickets, [st_warning "No tickets found matching the criteria"]), s1)
  | _ => (Ret (tickets, []),
          add_ui (st_success ("Fetched " +:+ str_of_nat (length tickets) +:+ " tickets")) s1)
  end.
Proof.
  intros Ha Hall Ec Ef. unfold tab2_fetch. rewrite Ha, Hall. cbn [negb].
  rewrite (bind_ret _ _ _ _ _ Ec), (bind_ret _ _ _ _ _ Ef).
  destruct tickets; reflexivity.
Qed.

Lemma fetch_jira_tickets_frame (jira : JIRA) (k : string) (status : option string)
  (n : nat) (s : State) :
  exists l s',
    fetch_jira_tickets jira k status n s = (Ret l, s') /\
    generated_test_cases s' = generated_test_cases s.
Proof.
  unfold fetch_jira_tickets. destruct (truthy k); cbn [negb].
  - unfold try_except, call, bind, show, ret.
    destruct (jira_search_issues _ _ _ _) as [[l|e] w]; eexists _, _; split; reflexivity.
  - eexists _, _; split; reflexivity.
Qed.

(** X12.  The button "Fetch Tickets" never raises and leaves the session store
    alone.  The list of fetched tickets is replaced only by a non-empty
    answer of the tracker, announced with its length; an empty answer and a
    failed search both keep the list fetched before, under the warning
    that nothing was found. *)
Theorem tab2_fetch_keeps_list (cfg : sidebar) (status_filter : string) (max_results : nat)
  (fetched_tickets : list Issue) (s : State) :
  let r := tab2_fetch cfg status_filter max_results fetched_tickets s in
  (exists l ns, fst r = Ret (l, ns) /\ (l = fetched_tickets \/ (l <> [] /\ ns = []))) /\
  generated_test_cases (snd r) = generated_test_cases s /\
  (forall jira s0,
      JIRA_AVAILABLE = true ->
      all_truthy [jira_url cfg; jira_email cfg; jira_api_token cfg; jira_project cfg]
        = true ->
      connect_to_jira (jira_url cfg) (jira_email cfg) (jira_api_token cfg) s
        = (Ret (Some jira), s0) ->
      let q := jql (jira_project cfg) (status_of_filter status_filter) in
      (forall w,
          jira_search_issues jira q max_results (world s0) = (Ret [], w) ->
          r = (Ret (fetched_tickets,
                    [st_warning "No tickets found matching the criteria"]),
               set_world w s0)) /\
      (forall e w,
          jira_search_issues jira q max_results (world s0) = (Raise e, w) ->
          r = (Ret (fetched_tickets,
                    [st_warning "No tickets found matching the criteria"]),
               add_ui (st_error ("Error fetching tickets: " +:+ e)) (set_world w s0))) /\
      (forall l w,
          jira_search_issues jira q max_results (world s0) = (Ret l, w) ->
          l <> [] ->
          r = (Ret (l, []),
               add_ui (st_success ("Fetched " +:+ str_of_nat (length l) +:+ " tickets"))
                      (set_world w s0)))).
Proof.
  intros r. subst r. split; [|split].
  - unfold tab2_fetch. destruct JIRA_AVAILABLE eqn:Ha; cbn [negb]; [|eauto 6].
    destruct (all_truthy _) eqn:Hall; cbn [negb]; [|eauto 6].
    destruct (connect_to_jira_frame (jira_url cfg) (jira_email cfg) (jira_api_token cfg) s)
      as (o & s0 & Ec & _). rewrite (bind_ret _ _ _ _ _ Ec).
    destruct o as [jira|]; [|cbn [ret fst]; eauto 6].
    destruct (fetch_jira_tickets_frame jira (jira_project cfg)
                (status_of_filter status_filter) max_results s0) as (l & s1 & Ef & _).
    rewrite (bind_ret _ _ _ _ _ Ef). destruct l as [|i l]; cbn [fst ret]; [eauto 6|].
    eexists _, _. split; [reflexivity|]. right. split; [discriminate | reflexivity].
  - unfold tab2_fetch. destruct JIRA_AVAILABLE eqn:Ha; cbn [negb]; [|reflexivity].
    destruct (all_truthy _) eqn:Hall; cbn [negb]; [|reflexivity].
    destruct (connect_to_jira_frame (jira_url cfg) (jira_email cfg) (jira_api_token cfg) s)
      as (o & s0 & Ec & Hc & _). rewrite (bind_ret _ _ _ _ _ Ec).
    destruct o as [jira|]; [|exact Hc].
    destruct (fetch_jira_tickets_frame jira (jira_project cfg)
                (status_of_filter status_filter) max_results s0) as (l & s1 & Ef & Hf).
    rewrite (bind_ret _ _ _ _ _ Ef).
    destruct l; [cbn [snd ret] | unfold bind, show, ret; cbn [snd generated_test_cases add_ui]];
      now rewrite Hf, Hc.
  - intros jira s0 Ha Hall Ec q.
    assert (Hp : truthy (jira_project cfg) = true).
    { unfold all_truthy in Hall. cbn [forallb] in Hall.
      repeat (apply andb_true_iff in Hall as [? Hall]). assumption. }
    assert (Hfetch : forall o w,
               jira_search_issues jira q max_results (world s0) = (o, w) ->
               fetch_jira_tickets jira (jira_project cfg) (status_of_filter status_filter)
                 max_results s0 =
               match o with
               | Ret l => (Ret l, set_world w s0)
               | Raise e => (Ret [], add_ui (st_error ("Error fetching tickets: " +:+ e))
                                            (set_world w s0))
               end).
    { intros o w E. unfold fetch_jira_tickets. rewrite Hp. cbn [negb].
      unfold try_except, call, bind, show, ret. fold q. rewrite E. now destruct o. }
    split; [|split].
    + intros w E. now rewrite (tab2_fetch_path _ _ _ _ _ _ _ _ _ Ha Hall Ec (Hfetch _ _ E)).
    + intros e w E. now rewrite (tab2_fetch_path _ _ _ _ _ _ _ _ _ Ha Hall Ec (Hfetch _ _ E)).
    + intros l w E Hl.
      rewrite (tab2_fetch_path _ _ _ _ _ _ _ _ _ Ha Hall Ec (Hfetch _ _ E)).
      destruct l; [congruence | reflexivity].
Qed.

Lemma save_test_cases_frame (jira : JIRA) (k tc : string) (s : State) :
  exists b s',
    save_test_cases_to_jira jira k tc s = (Ret b, s') /\
    generated_test_cases s' = generated_test_cases s.
Proof.
  unfold save_test_cases_to_jira, try_except, bind, call, show, ret.
  destruct (jira_add_comment _ _ _ _) as [[[]|e] w]; eexists _, _; split; reflexivity.
Qed.

(** X13.  Under the third tab nothing is written back unless a text is stored
    for the ticket: with no ticket chosen, or none stored under its key,
    the state is left as it is, and in manual mode the stored text is shown
    and no service is called.  The press never raises and never changes the
    session store. *)
Theorem tab3_save_needs_stored (cfg : sidebar) (use_manual_input : bool)
  (ticket_key : option string) (s : State) :
  let r := tab3_save cfg use_manual_input ticket_key s in
  fst r = Ret tt /\
  generated_test_cases (snd r) = generated_test_cases s /\
  (ticket_key = None \/ ticket_key = Some "" \/
   (exists k, ticket_key = Some k /\ generated_test_cases s !! k = None) ->
   r = (Ret tt, s)) /\
  (use_manual_input = true -> world (snd r) = world s).
Proof.
  intros r.
  assert (Hsame : forall k,
             ticket_key = Some k ->
             (truthy k = false \/ generated_test_cases s !! k = None) ->
             r = (Ret tt, s)).
  { intros k -> H. unfold r, tab3_save. unfold bind at 1. unfold get_store.
    destruct (truthy k); cbn [negb]; [|reflexivity].
    destruct H as [H | ->]; [discriminate | reflexivity]. }
  destruct ticket_key as [k|].
  2: { assert (E : r = (Ret tt, s)) by reflexivity. clearbody r. subst r.
       repeat split; intros; reflexivity. }
  destruct (truthy k) eqn:Hk.
  2: { assert (E : r = (Ret tt, s)) by (apply (Hsame k); auto). clearbody r. subst r.
       repeat split; intros; reflexivity. }
  destruct (generated_test_cases s !! k) as [tc|] eqn:Em.
  2: { assert (E : r = (Ret tt, s)) by (apply (Hsame k); auto). clearbody r. subst r.
       repeat split; intros; reflexivity. }
  clear Hsame.
  assert (Hne : ~ (Some k = None \/ Some k = Some "" \/
                   exists k0, Some k = Some k0 /\ generated_test_cases s !! k0 = None)).
  { intros [H | [H | (k0 & H & H0)]]; [discriminate | | ].
    - injection H as ->. discriminate.
    - injection H as <-. congruence. }
  assert (E : exists s',
             r = (Ret tt, s') /\ generated_test_cases s' = generated_test_cases s /\
             (use_manual_input = true -> world s' = world s)).
  { unfold r, tab3_save. unfold bind at 1. unfold get_store. rewrite Hk, Em. cbn [negb].
    unfold bind at 1. unfold show at 1. unfold bind at 1. unfold show at 1.
    destruct use_manual_input.
    { eexists. split; [reflexivity|]. split; reflexivity. }
    destruct (all_truthy _); cbn [negb].
    2: { eexists. split; [reflexivity|]. split; [reflexivity | discriminate]. }
    destruct (connect_to_jira_frame (jira_url cfg) (jira_email cfg) (jira_api_token cfg)
                (add_ui (st_markdown tc) (add_ui (st_subheader "Generated Test Cases") s)))
      as (o & s0 & Ec & Hc & _).
    rewrite (bind_ret _ _ _ _ _ Ec).
    destruct o as [jira|].
    2: { eexists. split; [reflexivity|]. split; [exact Hc | discriminate]. }
    destruct (save_test_cases_frame jira k tc s0) as (b & s1 & Es & Hs).
    rewrite (bind_ret _ _ _ _ _ Es).
    destruct b; eexists; (split; [reflexivity|]);
      cbn [generated_test_cases add_ui]; (split; [now rewrite Hs, Hc | discriminate]). }
  destruct E as (s' & E & Hst & Hw). clearbody r. subst r. cbn [fst snd].
  split; [reflexivity|]. split; [exact Hst|]. split; [|exact Hw].
  intros H. now destruct Hne.
Qed.

(** X14.  What is written back is what is stored: with a text stored under the
    ticket key, outside manual mode and with a connection, the press sends
    to the tracker, for that very key, the stored text under the fixed
    heading, and shows success when the tracker takes it and the error when
    it raises. *)
Theorem tab3_save_posts_stored (cfg : sidebar) (k tc : string) (s s0 : State) (jira : JIRA) :
  k <> "" ->
  generated_test_cases s !! k = Some tc ->
  all_truthy [jira_url cfg; jira_email cfg; jira_api_token cfg] = true ->
  connect_to_jira (jira_url cfg) (jira_email cfg) (jira_api_token cfg)
    (add_ui (st_markdown tc) (add_ui (st_subheader "Generated Test Cases") s))
    = (Ret (Some jira), s0) ->
  (forall w,
      jira_add_comment jira k (comment_of tc) (world s0) = (Ret tt, w) ->
      tab3_save cfg false (Some k) s =
      (Ret tt, add_ui (st_success "Test cases saved to Jira ticket!") (set_world w s0))) /\
  (forall e w,
      jira_add_comment jira k (comment_of tc) (world s0) = (Raise e, w) ->
      tab3_save cfg false (Some k) s =
      (Ret tt, add_ui (st_error ("Error saving test cases to Jira: " +:+ e))
                      (set_world w s0))).
Proof.
  intros Hk Hm Hall Ec. apply truthy_spec in Hk.
  assert (H : forall o w,
             jira_add_comment jira k (comment_of tc) (world s0) = (o, w) ->
             tab3_save cfg false (Some k) s =
             match o with
             | Ret _ => (Ret tt, add_ui (st_success "Test cases saved to Jira ticket!")
                                        (set_world w s0))
             | Raise e => (Ret tt, add_ui (st_error ("Error saving test cases to Jira: " +:+ e))
                                          (set_world w s0))
             end).
  { intros o w E. unfold tab3_save. unfold bind at 1. unfold get_store at 1.
    rewrite Hk, Hm. cbn [negb].
    unfold bind at 1. unfold show at 1. unfold bind at 1. unfold show at 1.
    rewrite Hall. cbn [negb]. rewrite (bind_ret _ _ _ _ _ Ec).
    unfold save_test_cases_to_jira, try_except, bind, call, show, ret. rewrite E.
    now destruct o. }
  split.
  - intros w E. now rewrite (H _ _ E).
  - intros e w E. now rewrite (H _ _ E).
Qed.

(** ** What every press keeps *)

Lemma stored_other (k k' : string) (r : option string) (m : gmap string string) :
  k' <> k -> stored k r m !! k' = m !! k'.
Proof.
  intros Hne. destruct (stored_cases k r m) as [(tc & _ & _ & ->) | [_ ->]]; [|reflexivity].
  now apply lookup_insert_ne.
Qed.

Lemma stored_keeps (k k' : string) (r : option string) (m : gmap string string) :
  is_Some (m !! k') -> is_Some (stored k r m !! k').
Proof.
  intros H. destruct (stored_cases k r m) as [(tc & _ & _ & ->) | [_ ->]]; [|exact H].
  destruct (decide (k = k')) as [-> | Hne].
  - rewrite lookup_insert_eq. eauto.
  - now rewrite lookup_insert_ne.
Qed.

Lemma tab3_manual_any (cfg : sidebar) (t : ticket_details) (s : State) :
  fst (tab3_manual cfg t s) = Ret tt /\
  exists r tds,
    generated_test_cases (snd (tab3_manual cfg t s)) =
      stored (key t) r (generated_test_cases s) /\
    gen_calls (snd (tab3_manual cfg t s)) = gen_calls s ++ tds /\
    length tds <= 1.
Proof.
  destruct (truthy (openai_api_key cfg)) eqn:Hk.
  - unfold tab3_manual. rewrite Hk. cbn [negb].
    destruct (generate_test_cases_frame t (openai_api_key cfg) (ai_model cfg) s)
      as (r & s1 & E & Hst & Hc & _).
    rewrite (bind_ret _ _ _ _ _ E).
    destruct (if_truthy_store_show (key t) (st_success "Test cases generated successfully!") r s1)
      as (s2 & -> & H2 & Hc2).
    cbn [fst snd]. split; [reflexivity|]. exists r, [t].
    rewrite H2, Hst, Hc2, Hc. auto.
  - rewrite tab3_manual_no_key by exact Hk. cbn [fst snd]. split; [reflexivity|].
    exists None, []. cbn [stored gen_calls generated_test_cases add_ui length].
    rewrite app_nil_r. auto.
Qed.



Lemma manual_loop_keys (cfg : sidebar) (n : nat) (lines : list string) :
  forall i s,
    let s' := snd (for_enumerate (tab4_manual_body cfg n) i lines s) in
    (forall k, ~ In k (map key (omap parse_line lines)) ->
               generated_test_cases s' !! k = generated_test_cases s !! k) /\
    (forall k, is_Some (generated_test_cases s !! k) ->
               is_Some (generated_test_cases s' !! k)).
Proof.
  induction lines as [|line lines IH]; intros i s; [split; auto|].
  cbn zeta. rewrite for_enumerate_step by apply tab4_manual_body_ret.
  destruct (IH (S i) (snd (tab4_manual_body cfg n i line s))) as [IH1 IH2].
  destruct (tab4_manual_body_spec cfg n i line s) as (r & s1 & E & _ & Hst).
  rewrite E in *. cbn [snd] in *. clear E.
  cbn [omap list_omap]. destruct (parse_line line) as [t|].
  - split.
    + intros k Hk. cbn [map In] in Hk.
      rewrite IH1 by (intros H; apply Hk; now right). rewrite Hst.
      apply stored_other. intros ->. apply Hk. now left.
    + intros k Hk. apply IH2. rewrite Hst. now apply stored_keeps.
  - rewrite Hst in *. split; [exact IH1 | exact IH2].
Qed.

Lemma jira_loop_keys (cfg : sidebar) (jira : JIRA) (n : nat) (keys : list string) :
  forall i s,
    let s' := snd (for_enumerate (tab4_jira_body cfg jira n) i keys s) in
    (forall k, ~ In k keys ->
               generated_test_cases s' !! k = generated_test_cases s !! k) /\
    (forall k, is_Some (generated_test_cases s !! k) ->
               is_Some (generated_test_cases s' !! k)).
Proof.
  induction keys as [|k0 keys IH]; intros i s; [split; auto|].
  cbn zeta. rewrite for_enumerate_step by apply tab4_jira_body_ret.
  destruct (IH (S i) (snd (tab4_jira_body cfg jira n i k0 s))) as [IH1 IH2].
  destruct (tab4_jira_body_spec cfg jira n i k0 s) as (r & s1 & E & _ & Hst).
  rewrite E in *. cbn [snd] in *. clear E. split.
  - intros k Hk. cbn [In] in Hk.
    rewrite IH1 by (intros H; apply Hk; now right). rewrite Hst.
    apply stored_other. intros ->. apply Hk. now left.
  - intros k Hk. apply IH2. rewrite Hst. now apply stored_keeps.
Qed.

Lemma show_summary_ui (keys : list string) :
  forall s, exists evs,
    show_summary keys s =
    (Ret tt, {| world := world s; generated_test_cases := generated_test_cases s;
                ui := ui s ++ evs; gen_calls := gen_calls s |}) /\
    Forall (fun e => match e with progress _ _ => False | _ => True end) evs.
Proof.
  induction keys as [|k keys IH]; intros s.
  - exists []. cbn. rewrite app_nil_r. split; [now destruct s | constructor].
  - cbn [show_summary]. unfold bind at 1. unfold get_store at 1.
    destruct (generated_test_cases s !! k) as [tc|].
    + unfold bind at 1. unfold bind at 1. unfold show at 1 2.
      destruct (IH (add_ui (st_markdown tc) (add_ui (st_expander ("Test Cases for " +:+ k)) s)))
        as (evs & -> & HF).
      exists (st_expander ("Test Cases for " +:+ k) :: st_markdown tc :: evs).
      cbn [world generated_test_cases ui gen_calls add_ui].
      rewrite <- !app_assoc. split; [reflexivity|]. repeat constructor. exact HF.
    + unfold bind at 1. unfold ret at 1. apply IH.
Qed.

(** X15.  No press of a button that generates ever raises, whatever the
    tracker and the completion endpoint do: every exception of theirs is
    caught and shown. *)
Theorem handler_never_raises (a : action) (s : State) :
  fst (handler a s) = Ret tt.
Proof.
  destruct a as [cfg t | cfg k | cfg b | cfg l]; cbn [handler].
  - apply tab3_manual_any.
  - apply tab3_jira_any.
  - unfold tab4_manual.
    destruct (truthy (openai_api_key cfg)); cbn [negb]; [|reflexivity].
    destruct (truthy b); cbn [negb]; [|reflexivity].
    now rewrite tab4_manual_loop_eq.
  - unfold tab4_jira. destruct l as [|k0 l0]; [reflexivity|].
    destruct (truthy (openai_api_key cfg)); cbn [negb]; [|reflexivity].
    destruct (all_truthy _); cbn [negb]; [|reflexivity].
    destruct (connect_to_jira_frame (jira_url cfg) (jira_email cfg) (jira_api_token cfg) s)
      as (r0 & s0 & Ec & _).
    rewrite (bind_ret _ _ _ _ _ Ec). destruct r0 as [jira|]; [|reflexivity].
    rewrite tab4_jira_loop_eq.
    match goal with |- context [show_summary ?x ?st] =>
      destruct (show_summary_frame x st) as (s' & -> & _) end.
    reflexivity.
Qed.

(** X16.  A press writes the session store only under the keys it is about (the
    ticket of the form, the ticket asked for, the keys of the parsed lines,
    the selected tickets): every other entry is as before, and no entry is
    ever removed. *)
Theorem handler_writes_only (a : action) (s : State) :
  (forall k, ~ In k (written_keys a) ->
             generated_test_cases (snd (handler a s)) !! k = generated_test_cases s !! k) /\
  (forall k, is_Some (generated_test_cases s !! k) ->
             is_Some (generated_test_cases (snd (handler a s)) !! k)).
Proof.
  destruct a as [cfg t | cfg k0 | cfg b | cfg l]; cbn [handler written_keys].
  - destruct (tab3_manual_any cfg t s) as (_ & r & tds & -> & _). split.
    + intros k Hk. apply stored_other. intros ->. apply Hk. now left.
    + intros k. apply stored_keeps.
  - destruct (tab3_jira_any cfg k0 s) as (_ & [[_ ->] | (td & r & s1 & s2 & _ & _ & ->)]);
      [split; auto|]. split.
    + intros k Hk. apply stored_other. intros ->. apply Hk. now left.
    + intros k. apply stored_keeps.
  - unfold tab4_manual.
    destruct (truthy (openai_api_key cfg)); cbn [negb]; [|split; auto].
    destruct (truthy b); cbn [negb]; [|split; auto].
    rewrite tab4_manual_loop_eq. cbn [snd generated_test_cases add_ui].
    apply (manual_loop_keys cfg _ _ 0 (add_ui (progress 0 1) s)).
  - unfold tab4_jira. destruct l as [|k0 l0]; [split; auto|].
    destruct (truthy (openai_api_key cfg)); cbn [negb]; [|split; auto].
    destruct (all_truthy _); cbn [negb]; [|split; auto].
    destruct (connect_to_jira_frame (jira_url cfg) (jira_email cfg) (jira_api_token cfg) s)
      as (r0 & s0 & Ec & Hc & _).
    rewrite (bind_ret _ _ _ _ _ Ec).
    destruct r0 as [jira|]; [|cbn [snd ret]; rewrite Hc; split; auto].
    rewrite tab4_jira_loop_eq.
    match goal with |- context [show_summary ?x ?st] =>
      destruct (show_summary_frame x st) as (s' & -> & Hs' & _) end.
    cbn [snd]. rewrite Hs'. cbn [generated_test_cases add_ui]. rewrite <- Hc.
    apply (jira_loop_keys cfg jira _ _ 0 (add_ui (progress 0 1) s0)).
Qed.







(** ** What the batch shows *)

Lemma progress_marks_app (l1 l2 : list ui_event) :
  progress_marks (l1 ++ l2) = progress_marks l1 ++ progress_marks l2.
Proof. apply flat_map_app. Qed.

Lemma get_ticket_details_progress (jira : JIRA) (k : string) (s : State) :
  progress_marks (ui (snd (get_ticket_details jira k s))) = progress_marks (ui s).
Proof.
  rewrite get_ticket_details_eq.
  destruct (jira_issue jira k (world s)) as [[issue|e] w];
    [destruct (details_of_issue issue)|];
    cbn [snd ui add_ui set_world]; rewrite ?progress_marks_app, ?app_nil_r; reflexivity.
Qed.

Lemma generate_test_cases_progress (td : ticket_details) (api model : string) (s : State) :
  progress_marks (ui (snd (generate_test_cases td api model s))) = progress_marks (ui s).
Proof.
  rewrite generate_test_cases_eq.
  destruct (truthy api);
    [destruct (OpenAI_new api (world s)) as [[[]|e] w];
     [destruct (chat_completions_create api model system_content (prompt td) w)
        as [[c|e] w']|]|];
    cbn [snd ui add_ui set_world add_call]; rewrite ?progress_marks_app, ?app_nil_r;
    reflexivity.
Qed.

Lemma tab4_manual_body_progress (cfg : sidebar) (n i : nat) (line : string) (s : State) :
  progress_marks (ui (snd (tab4_manual_body cfg n i line s))) =
  progress_marks (ui s) ++ [(i + 1, n)].
Proof.
  rewrite tab4_manual_body_eq. destruct (parse_line line) as [t|].
  - pose proof (generate_test_cases_progress t (openai_api_key cfg) (ai_model cfg)
                  (add_ui (status_text (processing_line (key t) i n)) s)) as Hp.
    destruct (generate_test_cases_frame t (openai_api_key cfg) (ai_model cfg)
                (add_ui (status_text (processing_line (key t) i n)) s))
      as (r & s1 & E & _). rewrite E in *. cbn [snd ui add_ui set_store] in *.
    rewrite progress_marks_app, Hp, progress_marks_app. cbn [progress_marks flat_map].
    now rewrite !app_nil_r.
  - cbn [snd ui add_ui]. rewrite progress_marks_app. reflexivity.
Qed.

Lemma tab4_jira_body_progress (cfg : sidebar) (jira : JIRA) (n i : nat) (k : string)
  (s : State) :
  progress_marks (ui (snd (tab4_jira_body cfg jira n i k s))) =
  progress_marks (ui s) ++ [(i + 1, n)].
Proof.
  rewrite tab4_jira_body_eq.
  pose proof (get_ticket_details_progress jira k
                (add_ui (status_text (processing_line k i n)) s)) as Hp1.
  destruct (get_ticket_details_frame jira k (add_ui (status_text (processing_line k i n)) s))
    as (r1 & s1 & E1 & _). rewrite E1 in *. cbn [snd ui add_ui] in Hp1.
  rewrite progress_marks_app in Hp1. cbn [progress_marks flat_map] in Hp1.
  rewrite app_nil_r in Hp1.
  destruct r1 as [td|].
  - pose proof (generate_test_cases_progress td (openai_api_key cfg) (ai_model cfg) s1)
      as Hp2.
    destruct (generate_test_cases_frame td (openai_api_key cfg) (ai_model cfg) s1)
      as (r & s2 & E2 & _). rewrite E2 in *. cbn [snd ui add_ui set_store] in *.
    now rewrite progress_marks_app, Hp2, Hp1.
  - cbn [snd ui add_ui]. now rewrite progress_marks_app, Hp1.
Qed.

Lemma loop_progress {A} (body : nat -> A -> M unit) (n : nat) :
  (forall i x s, fst (body i x s) = Ret tt) ->
  (forall i x s, progress_marks (ui (snd (body i x s))) =
                 progress_marks (ui s) ++ [(i + 1, n)]) ->
  forall l i s,
    progress_marks (ui (snd (for_enumerate body i l s))) =
    progress_marks (ui s) ++ marks_from i n (length l).
Proof.
  intros Hret Hp l. induction l as [|x l IH]; intros i s.
  - cbn. now rewrite app_nil_r.
  - rewrite for_enumerate_step by apply Hret. rewrite IH, Hp.
    cbn [length marks_from]. now rewrite <- app_assoc.
Qed.

Lemma marks_from_seq (i n len : nat) :
  marks_from i n len = map (fun j => (j + 1, n)) (seq i len).
Proof.
  revert i. induction len as [|len IH]; intros i; [reflexivity|].
  cbn [marks_from seq map]. now rewrite IH.
Qed.

(** X18.  The progress bar is set to 0, then after each item to the number of
    items processed so far over their total, so it climbs by one item at a
    time and ends full, whether the items succeed or fail; in the manual
    batch the items are the lines, malformed ones included. *)
Theorem batch_progress (cfg : sidebar) :
  (forall batch_descriptions s,
      truthy (openai_api_key cfg) = true -> truthy batch_descriptions = true ->
      let n := length (split "010" (strip batch_descriptions)) in
      progress_marks (ui (snd (tab4_manual cfg batch_descriptions s))) =
      progress_marks (ui s) ++ (0, 1) :: map (fun j => (j + 1, n)) (seq 0 n)) /\
  (forall jira selected s,
      let n := length selected in
      progress_marks (ui (snd (tab4_jira_loop cfg jira selected s))) =
      progress_marks (ui s) ++ (0, 1) :: map (fun j => (j + 1, n)) (seq 0 n)).
Proof.
  split.
  - intros b s Hk Hb n. unfold tab4_manual. rewrite Hk, Hb. cbn [negb].
    rewrite tab4_manual_loop_eq. cbn [snd ui add_ui]. rewrite !progress_marks_app.
    rewrite (loop_progress (tab4_manual_body cfg _) _
               (tab4_manual_body_ret cfg _) (tab4_manual_body_progress cfg _)).
    cbn [ui add_ui progress_marks flat_map]. rewrite progress_marks_app, marks_from_seq.
    cbn [progress_marks flat_map app]. fold n. now rewrite !app_nil_r, <- app_assoc.
  - intros jira l s n. rewrite tab4_jira_loop_eq.
    match goal with |- context [show_summary ?x ?st] =>
      destruct (show_summary_ui x st) as (evs & -> & HF) end.
    cbn [snd ui add_ui]. rewrite !progress_marks_app.
    rewrite (loop_progress (tab4_jira_body cfg jira _) _
               (tab4_jira_body_ret cfg jira _) (tab4_jira_body_progress cfg jira _)).
    cbn [ui add_ui progress_marks flat_map]. rewrite progress_marks_app, marks_from_seq.
    assert (He : progress_marks evs = []).
    { clear -HF. induction HF as [|e evs He _ IH]; [reflexivity|].
      cbn [progress_marks flat_map]. fold (progress_marks evs). rewrite IH.
      now destruct e. }
    rewrite He. cbn [progress_marks flat_map app]. fold n.
    now rewrite !app_nil_r, <- app_assoc.
Qed.

(** X19.  Both batches end on the same two lines, "All tickets processed!" and a
    success that counts the items handed in: the lines of the text area,
    malformed ones included, or the selected tickets.  The count does not
    depend on how many generations succeeded. *)
Theorem batch_banner_counts_items (cfg : sidebar) :
  (forall batch_descriptions s,
      truthy (openai_api_key cfg) = true -> truthy batch_descriptions = true ->
      let n := length (split "010" (strip batch_descriptions)) in
      exists pre,
        ui (snd (tab4_manual cfg batch_descriptions s)) =
        pre ++ [status_text "All tickets processed!";
                st_success ("Generated test cases for " +:+ str_of_nat n +:+ " tickets")]) /\
  (forall jira selected s,
      exists pre post,
        ui (snd (tab4_jira_loop cfg jira selected s)) =
        pre ++ [status_text "All tickets processed!";
                st_success ("Generated test cases for " +:+ str_of_nat (length selected)
                            +:+ " tickets");
                st_subheader "Generated Test Cases Summary"] ++ post).
Proof.
  split.
  - intros b s Hk Hb n. unfold tab4_manual. rewrite Hk, Hb. cbn [negb].
    rewrite tab4_manual_loop_eq. cbn [snd ui add_ui]. fold n.
    exists (ui (snd (for_enumerate (tab4_manual_body cfg n) 0
                       (split "010" (strip b)) (add_ui (progress 0 1) s)))).
    now rewrite <- app_assoc.
  - intros jira l s. rewrite tab4_jira_loop_eq.
    match goal with |- context [show_summary ?x ?st] =>
      destruct (show_summary_ui x st) as (evs & -> & _) end.
    cbn [snd ui add_ui].
    exists (ui (snd (for_enumerate (tab4_jira_body cfg jira (length l)) 0 l
                       (add_ui (progress 0 1) s)))), evs.
    now rewrite <- !app_assoc.
Qed.

End App.


Arguments world {World} _.
Arguments generated_test_cases {World} _.
Arguments ui {World} _.
Arguments gen_calls {World} _.
Arguments initial {World} w.

(** ** The string operations on examples *)

Example lower_ex : lower "Acceptance Criteria" = "acceptance criteria".
Proof. reflexivity. Qed.

Example contains_ex : contains "accept" (lower "User ACCEPTS the terms") = true.
Proof. reflexivity. Qed.

Example contains_not_ex : contains "accept" (lower "Sprint 12") = false.
Proof. reflexivity. Qed.

Example strip_ex : strip ("  a b " +:+ nl) = "a b".
Proof. reflexivity. Qed.

Example split_ex :
  split "|" "K-1 | Add login | a|b" = ["K-1 "; " Add login "; " a"; "b"].
Proof. reflexivity. Qed.

Example split_empty_ex : split "|" "" = [""].
Proof. reflexivity. Qed.

Example split_lines_ex : split "010" ("a" +:+ nl +:+ nl +:+ "b") = ["a"; ""; "b"].
Proof. reflexivity. Qed.

Example join_ex : join ", " ["Auth"; "UI"] = "Auth, UI".
Proof. reflexivity. Qed.

Example str_of_nat_ex : str_of_nat 12 = "12" /\ str_of_nat 0 = "0".
Proof. split; reflexivity. Qed.

(** ** The handlers run on the scripted world *)

Example end_to_end_prompt :
  Forall (fun x => contains x (prompt Script.login_ticket) = true)
    ["PROJ-1"; "Add login"; "Auth"; "User can log in with valid credentials";
     "Test case ID (TC-XX format)"].
Proof. repeat constructor. Qed.

Example prompt_twice :
  prompt Script.login_ticket = prompt Script.login_ticket.
Proof. reflexivity. Qed.

Lemma acceptance_criteria_first_match_witness :
  acceptance_criteria_of Script.third_fields = "ACCEPTANCE: user can log in" /\
  acceptance_criteria_of Script.full_fields = "No acceptance criteria provided".
Proof.
  destruct (acceptance_criteria_first_match Script.third_fields) as (_ & Hhit & _).
  destruct (acceptance_criteria_first_match Script.full_fields) as (_ & _ & Hmiss & _).
  split.
  - apply (Hhit ["customfield_10000"; "customfield_10001"] "customfield_10002"
                ["customfield_10003"; "customfield_10004"; "customfield_10005"]).
    + reflexivity.
    + intros n v' [<- | [<- | []]] Hv'.
      * injection Hv' as <-. intros Hu. apply contains_lower_spec in Hu. discriminate Hu.
      * discriminate Hv'.
    + reflexivity.
    + apply contains_lower_spec. reflexivity.
  - apply Hmiss. intros n v' _ Hv'. discriminate Hv'.
Defined.

Lemma prompt_contains_fields_witness :
  substring_of "PROJ-1" (prompt Script.login_ticket) /\
  substring_of "Add login" (prompt Script.login_ticket) /\
  substring_of "User can log in with valid credentials" (prompt Script.login_ticket) /\
  components_str Script.login_ticket = "Auth" /\
  substring_of "Auth" (prompt Script.login_ticket).
Proof.
  destruct (prompt_contains_fields Script.login_ticket)
    as (_ & Hk & Hs & _ & _ & _ & Ha & _ & _ & Hj & Hc).
  split; [exact Hk|]. split; [exact Hs|]. split; [exact Ha|].
  split; [apply Hj; discriminate|]. apply Hc. left. reflexivity.
Defined.

Lemma manual_batch_attempts_witness :
  truthy (openai_api_key Script.config) = true /\
  truthy Script.batch6 = true /\
  length (split "010" (strip Script.batch6)) = 6 /\
  fst (tab4_manual Script.World Script.OpenAI_new Script.chat_completions_create
         Script.config Script.batch6 (initial Script.third_fails)) = Ret tt /\
  length (gen_calls (snd (tab4_manual Script.World Script.OpenAI_new
                            Script.chat_completions_create
                            Script.config Script.batch6 (initial Script.third_fails)))) = 5.
Proof.
  destruct (manual_batch_attempts Script.World Script.OpenAI_new
              Script.chat_completions_create Script.config Script.batch6
              (initial Script.third_fails) eq_refl eq_refl) as (Hret & _ & _ & _ & Hlen).
  split; [reflexivity|]. split; [reflexivity|]. split; [reflexivity|].
  split; [exact Hret|]. rewrite Hlen. reflexivity.
Defined.

Lemma batch_continues_after_failure_witness :
  let r := tab4_jira_loop Script.World Script.jira_issue Script.OpenAI_new
             Script.chat_completions_create Script.config Script.jira
             Script.five_keys (initial Script.third_fails) in
  fst r = Ret tt /\
  status_lines (ui (snd r)) =
    ["Processing K-1 (1/5)"; "Processing K-2 (2/5)"; "Processing K-3 (3/5)";
     "Processing K-4 (4/5)"; "Processing K-5 (5/5)"; "All tickets processed!"] /\
  error_lines (ui (snd r)) = ["Error generating test cases: Rate limit reached"] /\
  generated_test_cases (snd r) !! "K-2" = Some "cases 2" /\
  generated_test_cases (snd r) !! "K-3" = None /\
  generated_test_cases (snd r) !! "K-4" = Some "cases 4" /\
  generated_test_cases (snd r) !! "K-5" = Some "cases 5".
Proof.
  intros r.
  destruct (batch_continues_after_failure Script.World Script.jira_issue Script.OpenAI_new
              Script.chat_completions_create Script.config Script.jira
              ["K-1"; "K-2"] ["K-4"; "K-5"] "K-3" (initial Script.third_fails))
    as (Hret & Hstatus & _).
  split; [exact Hret|]. split; [exact Hstatus|].
  repeat split; vm_compute; reflexivity.
Defined.

(** C4 as claimed fails: when the completion endpoint answers the third of
    five tickets with the empty text, the third ticket is not stored and
    nothing on the page records it: no error line is shown at all.  The
    batch goes on as claimed: the fourth and fifth tickets are stored. *)
Lemma batch_silent_on_empty_completion :
  let r := tab4_jira_loop Script.World Script.jira_issue Script.OpenAI_new
             Script.chat_completions_create Script.config Script.jira
             Script.five_keys (initial third_empty) in
  fst r = Ret tt /\
  generated_test_cases (snd r) !! "K-3" = None /\
  error_lines (ui (snd r)) = [] /\
  generated_test_cases (snd r) !! "K-4" = Some "cases 4" /\
  generated_test_cases (snd r) !! "K-5" = Some "cases 5" /\
  ~ (forall (w : Script.World) (keys : list string) (k : string),
        let s' := snd (tab4_jira_loop Script.World Script.jira_issue Script.OpenAI_new
                         Script.chat_completions_create Script.config Script.jira
                         keys (initial w)) in
        In k keys ->
        generated_test_cases s' !! k = None ->
        error_lines (ui s') <> []).
Proof.
  intros r. repeat apply conj; try (vm_compute; reflexivity).
  intros H. apply (H third_empty Script.five_keys "K-3").
  - right. right. left. reflexivity.
  - vm_compute. reflexivity.
  - vm_compute. reflexivity.
Defined.

Lemma missing_optional_fields_default_witness :
  (exists d, details_of_issue Script.sparse_issue = Ret d /\ priority d = "Not set") /\
  (exists d, details_of_issue Script.sparse_issue = Ret d /\ components d = []) /\
  (exists d, details_of_issue Script.sparse_issue = Ret d /\
             description d = "No description provided").
Proof.
  destruct (missing_optional_fields_default Script.sparse_issue)
    as (_ & _ & _ & Hp & Hc & Hd).
  split; [|split].
  - apply Hp; [reflexivity | discriminate | discriminate | left; reflexivity].
  - apply Hc; [reflexivity | discriminate | reflexivity].
  - apply Hd; [reflexivity | discriminate | left; reflexivity].
Defined.

(** C5 as claimed fails: a ticket without priority whose description is None
    is not normalized when its components are None, and a ticket without
    priority and components is not normalized when it has no description
    attribute; both have their key, summary, status, issue type and dates.
    So none of the three defaults alone keeps the normalizer from
    failing. *)
Lemma optional_defaults_need_other_fields :
  (required_present none_components_issue = true /\
   f_priority (i_fields none_components_issue) = Missing /\
   f_description (i_fields none_components_issue) = Null /\
   details_of_issue none_components_issue = Raise "'NoneType' object is not iterable") /\
  (required_present no_description_issue = true /\
   f_priority (i_fields no_description_issue) = Missing /\
   f_components (i_fields no_description_issue) = Missing /\
   details_of_issue no_description_issue =
     Raise "'PropertyHolder' object has no attribute 'description'") /\
  ~ (forall issue, f_priority (i_fields issue) = Missing ->
                   exists d, details_of_issue issue = Ret d /\ priority d = "Not set") /\
  ~ (forall issue, f_components (i_fields issue) = Missing ->
                   exists d, details_of_issue issue = Ret d /\ components d = []) /\
  ~ (forall issue, f_description (i_fields issue) = Null ->
                   exists d, details_of_issue issue = Ret d /\
                             description d = "No description provided").
Proof.
  repeat apply conj; try reflexivity.
  - intros H. destruct (H none_components_issue eq_refl) as (d & Hd & _). discriminate.
  - intros H. destruct (H no_description_issue eq_refl) as (d & Hd & _). discriminate.
  - intros H. destruct (H none_components_issue eq_refl) as (d & Hd & _). discriminate.
Defined.

(** C7 as claimed fails: a ticket that has its key and lacks the status
    attribute is not normalized; the fetch is reported as failed. *)
Lemma normalizer_needs_more_than_key :
  i_key Script.no_status_issue = Some "PROJ-7" /\
  details_of_issue Script.no_status_issue =
    Raise "'PropertyHolder' object has no attribute 'status'" /\
  get_ticket_details Script.World Script.jira_issue Script.jira "PROJ-7"
    (initial Script.then_empty) =
    (Ret None,
     add_ui Script.World
       (st_error "Error fetching ticket details: 'PropertyHolder' object has no attribute 'status'")
       (initial Script.then_empty)) /\
  ~ (forall issue, i_key issue <> None -> exists d, details_of_issue issue = Ret d).
Proof.
  split; [reflexivity|]. split; [reflexivity|]. split; [reflexivity|].
  intros H. destruct (H Script.no_status_issue) as [d Hd]; discriminate.
Defined.

Lemma normalizer_required_fields_witness :
  (exists d, details_of_issue (Script.full_issue "PROJ-1") = Ret d /\
             key d = "PROJ-1" /\ description d <> "") /\
  (exists e, details_of_issue Script.no_status_issue = Raise e).
Proof.
  destruct (normalizer_required_fields Script.World Script.jira_issue
              (Script.full_issue "PROJ-1")) as (Hok & _).
  destruct (normalizer_required_fields Script.World Script.jira_issue
              Script.no_status_issue) as (_ & Hno & _).
  split.
  - destruct Hok as (d & Hd & Hk & _ & _ & _ & Hdesc & _);
      [reflexivity | discriminate | discriminate |].
    exists d. split; [exact Hd|]. split; [|exact Hdesc].
    injection Hk as <-. reflexivity.
  - apply Hno. reflexivity.
Defined.

Lemma store_written_on_success_witness :
  generated_test_cases
    (snd (tab3_manual Script.World Script.OpenAI_new Script.chat_completions_create
            Script.config Script.login_ticket (initial Script.then_empty)))
  = <["PROJ-1" := "TC-01 valid login"]> ∅.
Proof.
  destruct (store_written_on_success Script.World true Script.JIRA_new Script.jira_issue
              Script.OpenAI_new Script.chat_completions_create Script.config)
    as (_ & _ & _ & _ & _ & Hin & _ & Hsite & _).
  rewrite (Hsite Script.login_ticket (initial Script.then_empty)
             (Some "TC-01 valid login")
             (snd (generate_test_cases Script.World Script.OpenAI_new
                     Script.chat_completions_create Script.login_ticket
                     (openai_api_key Script.config) (ai_model Script.config)
                     (initial Script.then_empty)))).
  - apply Hin. discriminate.
  - discriminate.
  - reflexivity.
Defined.


Lemma stored_values_nonempty_witness :
  let press :=
    handler Script.World true Script.JIRA_new Script.jira_issue Script.OpenAI_new
      Script.chat_completions_create (Tab3Manual Script.config Script.login_ticket) in
  let s1 := snd (press (initial Script.then_empty)) in
  let s2 := snd (press s1) in
  reachable Script.World true Script.JIRA_new Script.jira_issue Script.OpenAI_new
    Script.chat_completions_create s2 /\
  (forall k v, generated_test_cases s2 !! k = Some v -> v <> "") /\
  generated_test_cases s1 !! "PROJ-1" = Some "TC-01 valid login" /\
  generated_test_cases s2 = generated_test_cases s1.
Proof.
  intros press s1 s2.
  assert (Hr1 : reachable Script.World true Script.JIRA_new Script.jira_issue
                  Script.OpenAI_new Script.chat_completions_create s1)
    by apply reach_step, reach_init.
  assert (Hr2 : reachable Script.World true Script.JIRA_new Script.jira_issue
                  Script.OpenAI_new Script.chat_completions_create s2)
    by apply reach_step, Hr1.
  split; [exact Hr2|].
  split; [exact (proj1 (stored_values_nonempty _ _ _ _ _ _ s2 Hr2))|].
  split; [vm_compute; reflexivity|].
  destruct (stored_values_nonempty _ _ _ _ _ _ s1 Hr1) as (_ & Hempty & _).
  apply (Hempty Script.config Script.login_ticket (world s1)
           {| Script.tickets := Script.tickets Script.then_empty; Script.replies := [] |}).
  - discriminate.
  - reflexivity.
  - reflexivity.
Defined.

(** ** The rest of the script run on the second scripted world *)

Lemma parsed_ticket_clean_witness :
  parse_line "K-5 | Audit log | Logins are logged | also failed ones"
    = Some (manual_ticket_of "K-5" "Audit log" "Logins are logged") /\
  contains "|" "Logins are logged" = false /\
  trimmed "K-5" /\
  components_str (manual_ticket_of "K-5" "Audit log" "Logins are logged") = "No components".
Proof.
  destruct (parsed_ticket_clean "K-5 | Audit log | Logins are logged | also failed ones"
              (manual_ticket_of "K-5" "Audit log" "Logins are logged") eq_refl)
    as ((_ & Hk) & _ & (Hd & _) & _ & _ & _ & Hc).
  split; [reflexivity|]. split; [exact Hd|]. split; [exact Hk | exact Hc].
Defined.

Lemma table_agrees_with_details_witness :
  details_of_issue Script.sparse_issue = Ret Tracker.sparse_details /\
  exists r, row_of_issue Script.sparse_issue = Ret r /\
            Key r = "PROJ-2" /\ Priority r = "Not set".
Proof.
  split; [reflexivity|].
  destruct (table_agrees_with_details Script.sparse_issue Tracker.sparse_details eq_refl)
    as (r & Hr & Hk & _ & _ & _ & Hp).
  exists r. split; [exact Hr|]. split; [exact Hk | exact Hp].
Defined.

Lemma selected_tickets_distinct_witness :
  ticket_options Tracker.twice = Ret [("PROJ-1", "Add login"); ("PROJ-2", "Tidy up")] /\
  List.NoDup (selected_tickets true (fun _ => false)
                [("PROJ-1", "Add login"); ("PROJ-2", "Tidy up")]) /\
  selected_tickets true (fun _ => false) [("PROJ-1", "Add login"); ("PROJ-2", "Tidy up")]
    = ["PROJ-1"; "PROJ-2"] /\
  selected_tickets false (String.eqb "PROJ-2") [("PROJ-1", "Add login"); ("PROJ-2", "Tidy up")]
    = ["PROJ-2"].
Proof.
  split; [reflexivity|].
  destruct (selected_tickets_distinct Tracker.twice
              [("PROJ-1", "Add login"); ("PROJ-2", "Tidy up")] true (fun _ => false) eq_refl)
    as (Hnd & _).
  split; [exact Hnd|]. split; reflexivity.
Defined.

Lemma tab2_fetch_keeps_list_witness :
  fst (tab2_fetch Tracker.World true Tracker.JIRA_new Tracker.jira_search_issues
         Script.config "All" 20 [Script.sparse_issue] (initial Tracker.up))
    = Ret (Tracker.two_issues, []) /\
  tab2_fetch Tracker.World true Tracker.JIRA_new Tracker.jira_search_issues
    Script.config "Done" 20 [Script.sparse_issue] (initial Tracker.empty)
    = (Ret ([Script.sparse_issue], [st_warning "No tickets found matching the criteria"]),
       initial Tracker.empty) /\
  fst (tab2_fetch Tracker.World true Tracker.JIRA_new Tracker.jira_search_issues
         Script.config "All" 20 [Script.sparse_issue] (initial Tracker.down))
    = Ret ([Script.sparse_issue], []).
Proof.
  destruct (tab2_fetch_keeps_list Tracker.World true Tracker.JIRA_new
              Tracker.jira_search_issues Script.config "All" 20 [Script.sparse_issue]
              (initial Tracker.up)) as (_ & _ & Hup).
  destruct (Hup Script.jira (initial Tracker.up) eq_refl eq_refl eq_refl) as (_ & _ & Hfull).
  destruct (tab2_fetch_keeps_list Tracker.World true Tracker.JIRA_new
              Tracker.jira_search_issues Script.config "Done" 20 [Script.sparse_issue]
              (initial Tracker.empty)) as (_ & _ & Hempty).
  destruct (Hempty Script.jira (initial Tracker.empty) eq_refl eq_refl eq_refl)
    as (Hnone & _).
  split; [|split].
  - rewrite (Hfull Tracker.two_issues Tracker.up eq_refl); [reflexivity | discriminate].
  - rewrite (Hnone Tracker.empty eq_refl). reflexivity.
  - reflexivity.
Defined.

Lemma tab3_save_posts_stored_witness :
  let generated :=
    snd (tab3_jira Tracker.World true Tracker.JIRA_new Tracker.jira_issue
           Tracker.OpenAI_new Tracker.chat_completions_create Script.config "PROJ-1"
           (initial Tracker.up)) in
  let saved :=
    snd (tab3_save Tracker.World true Tracker.JIRA_new Tracker.jira_add_comment
           Script.config false (Some "PROJ-1") generated) in
  generated_test_cases generated !! "PROJ-1" = Some "TC-01 valid login" /\
  Tracker.comments (world saved) =
    [("PROJ-1", "*AI Generated Test Cases*" +:+ nl +:+ nl +:+ "TC-01 valid login")] /\
  last (ui saved) = Some (st_success "Test cases saved to Jira ticket!").
Proof.
  intros generated saved.
  assert (Hm : generated_test_cases generated !! "PROJ-1" = Some "TC-01 valid login")
    by (vm_compute; reflexivity).
  split; [exact Hm|].
  destruct (tab3_save_posts_stored Tracker.World true Tracker.JIRA_new
              Tracker.jira_add_comment Script.config "PROJ-1" "TC-01 valid login"
              generated
              (add_ui Tracker.World (st_markdown "TC-01 valid login")
                 (add_ui Tracker.World (st_subheader "Generated Test Cases") generated))
              Script.jira) as (Hok & _);
    [discriminate | exact Hm | reflexivity | reflexivity |].
  unfold saved.
  rewrite (Hok {| Tracker.online := true; Tracker.issues := Tracker.two_issues;
                  Tracker.comments :=
                    [("PROJ-1", comment_of "TC-01 valid login")];
                  Tracker.replies := [] |}); [|vm_compute; reflexivity].
  split; vm_compute; reflexivity.
Defined.

Lemma batch_progress_witness :
  progress_marks
    (ui (snd (tab4_manual Script.World Script.OpenAI_new Script.chat_completions_create
                Script.config Script.batch6 (initial Script.third_fails))))
  = [(0, 1); (1, 6); (2, 6); (3, 6); (4, 6); (5, 6); (6, 6)].
Proof.
  destruct (batch_progress Script.World Script.jira_issue Script.OpenAI_new
              Script.chat_completions_create Script.config) as (Hmanual & _).
  rewrite (Hmanual Script.batch6 (initial Script.third_fails) eq_refl eq_refl).
  reflexivity.
Defined.

Lemma batch_banner_counts_items_witness :
  let s' := snd (tab4_manual Tracker.World Tracker.OpenAI_new
                   Tracker.chat_completions_create Script.config Script.batch6
                   (initial Tracker.failing)) in
  generated_test_cases s' = ∅ /\
  length (gen_calls s') = 5 /\
  exists pre,
    ui s' = pre ++ [status_text "All tickets processed!";
                    st_success "Generated test cases for 6 tickets"].
Proof.
  intros s'.
  destruct (batch_banner_counts_items Tracker.World Tracker.jira_issue Tracker.OpenAI_new
              Tracker.chat_completions_create Script.config) as (Hmanual & _).
  destruct (Hmanual Script.batch6 (initial Tracker.failing) eq_refl eq_refl) as (pre & Hpre).
  split; [vm_compute; reflexivity|]. split; [vm_compute; reflexivity|].
  exists pre. exact Hpre.
Defined.
